(** * gitdiagram: the streaming generation pipeline and its link rewriter

    A shallow embedding of

      - [backend/app/services/ollama_service.py]  (class [OllamaService])
      - [backend/app/routers/generate.py]         (the [/generate] router)

    Python values are modelled as follows.

      - a [str] is the list of its Unicode code points ([pystr]); [len],
        [in], [strip], [split] and the regular expression of the link
        rewriter are functions over such lists;
      - an exception is a class tag and the text [str(e)] gives for it;
      - a generator is the list of the values it yields together with the
        way it ends (normal return or raised exception): the monad [Gen];
      - what the outside world answers (the Ollama endpoint, the GitHub
        service, the prompt constants and the message formatter, which live
        outside the two files) are variables of the sections that use them. *)

From Stdlib Require Import List NArith ZArith String Ascii Bool Lia QArith.
From Stdlib Require Import DecimalString.
Import ListNotations.

Set Implicit Arguments.
Set Warnings "-register-all".

(** ** Python strings *)

Definition char := N.
Definition pystr := list char.

(** A literal of the source, as code points. *)
Definition py (s : string) : pystr :=
  map N_of_ascii (list_ascii_of_string s).

Definition dquote : char := 34%N.   (* the double quote *)
Definition squote : char := 39%N.   (* the single quote *)
Definition slash : char := 47%N.
Definition dot : char := 46%N.
Definition newline : char := 10%N.

Fixpoint str_eqb (a b : pystr) : bool :=
  match a, b with
  | [], [] => true
  | x :: a', y :: b' => N.eqb x y && str_eqb a' b'
  | _, _ => false
  end.

(** [s.startswith(p)] *)
Fixpoint startswith (p s : pystr) : bool :=
  match p, s with
  | [], _ => true
  | x :: p', y :: s' => N.eqb x y && startswith p' s'
  | _ :: _, [] => false
  end.

(** [needle in hay] *)
Fixpoint contains (needle hay : pystr) : bool :=
  startswith needle hay ||
  match hay with
  | [] => false
  | _ :: t => contains needle t
  end.

(** [x in [a, b, ...]] for strings *)
Definition str_in (x : pystr) (l : list pystr) : bool :=
  existsb (str_eqb x) l.

(** The characters [str.isspace] accepts; [str.strip()] without argument
    and the class [\s] of [re] on [str] patterns use the same set. *)
Definition isspace (c : char) : bool :=
  ((9 <=? c) && (c <=? 13) || (28 <=? c) && (c <=? 32)
   || (c =? 133) || (c =? 160) || (c =? 5760)
   || (8192 <=? c) && (c <=? 8202)
   || (c =? 8232) || (c =? 8233) || (c =? 8239) || (c =? 8287)
   || (c =? 12288))%N.

Fixpoint lstrip (p : char -> bool) (s : pystr) : pystr :=
  match s with
  | [] => []
  | c :: t => if p c then lstrip p t else s
  end.

Definition rstrip (p : char -> bool) (s : pystr) : pystr :=
  rev (lstrip p (rev s)).

(** [s.strip()] is [strip isspace s]; [s.strip(chars)] is
    [strip (fun c => c in chars) s]. *)
Definition strip (p : char -> bool) (s : pystr) : pystr :=
  rstrip p (lstrip p s).

Definition char_in (chars : pystr) (c : char) : bool :=
  existsb (N.eqb c) chars.

(** The longest prefix of characters satisfying [p], and what follows. *)
Fixpoint span (p : char -> bool) (s : pystr) : pystr * pystr :=
  match s with
  | [] => ([], [])
  | c :: t =>
      if p c then let (a, b) := span p t in (c :: a, b) else ([], s)
  end.

(** [s.split(sep)] for a one-character separator: never empty. *)
Fixpoint split (sep : char) (s : pystr) : list pystr :=
  match s with
  | [] => [[]]
  | c :: t =>
      if N.eqb c sep then [] :: split sep t
      else match split sep t with
           | h :: r => (c :: h) :: r
           | [] => [[c]]
           end
  end.

(** [str(n)] for an integer, as an f-string interpolates it. *)
Definition str_of_int (n : Z) : pystr :=
  py (NilZero.string_of_int (Z.to_int n)).

(** ** Exceptions *)

Inductive exn_class :=
| ClientError          (* aiohttp.ClientError and its subclasses *)
| ValueError
| JSONDecodeError      (* json.JSONDecodeError *)
| UnicodeDecodeError
| AttributeError
| TypeError
| OtherException.      (* any other subclass of Exception *)

Record exn := Exn { exn_class_of : exn_class; exn_str : pystr }.

Definition is_class (c : exn_class) (e : exn) : bool :=
  match c, exn_class_of e with
  | ClientError, ClientError
  | ValueError, ValueError
  | JSONDecodeError, JSONDecodeError
  | UnicodeDecodeError, UnicodeDecodeError
  | AttributeError, AttributeError
  | TypeError, TypeError
  | OtherException, OtherException => true
  | _, _ => false
  end.

(** The result of a call that may raise. *)
Inductive res (A : Type) :=
| Ok (a : A)
| Raise (e : exn).
Arguments Ok {A} a.
Arguments Raise {A} e.

(** ** JSON values, as [json.loads] builds them *)

(** A [float] read from a decimal literal: the real number
    [mantissa * 10 ^ exp10], negated when [negative], before it is
    rounded to a double; or one of the constants [json] also accepts. *)
Inductive pyfloat :=
| FNaN
| FInf (negative : bool)
| FDec (negative : bool) (mantissa : N) (exp10 : Z).

Inductive json :=
| JNull
| JBool (b : bool)
| JInt (z : Z)
| JFloat (f : pyfloat)
| JStr (s : pystr)
| JList (l : list json)
| JDict (d : list (pystr * json)).   (* the members, in document order *)

(** Whether the double nearest to the literal is zero: the literal is zero,
    or it is at most [2^-1075], half of the least subnormal. *)
Definition float_is_zero (f : pyfloat) : bool :=
  match f with
  | FNaN | FInf _ => false
  | FDec _ m e =>
      (m =? 0)%N ||
      ((e <? 0)%Z && (Z.of_N m * 2 ^ 1075 <=? 10 ^ (- e))%Z)
  end.

(** Python truth value, as [if content:] tests it. *)
Definition truthy (v : json) : bool :=
  match v with
  | JNull => false
  | JBool b => b
  | JInt z => negb (z =? 0)%Z
  | JFloat f => negb (float_is_zero f)
  | JStr s => match s with [] => false | _ => true end
  | JList l => match l with [] => false | _ => true end
  | JDict d => match d with [] => false | _ => true end
  end.

(** [type(v).__name__] *)
Definition type_name (v : json) : pystr :=
  match v with
  | JNull => py "NoneType"
  | JBool _ => py "bool"
  | JInt _ => py "int"
  | JFloat _ => py "float"
  | JStr _ => py "str"
  | JList _ => py "list"
  | JDict _ => py "dict"
  end.

(** [d.get(k, default)] on a dict built from the members in order: a later
    member with the same key replaces an earlier one. *)
Definition dict_get (k : pystr) (d : list (pystr * json)) (default : json)
  : json :=
  fold_left (fun acc kv => if str_eqb k (fst kv) then snd kv else acc)
            d default.

(** [v.get(k, default)]: only a dict has the method. *)
Definition py_get (v : json) (k : pystr) (default : json) : res json :=
  match v with
  | JDict d => Ok (dict_get k d default)
  | _ =>
      Raise (Exn AttributeError
                 (py "'" ++ type_name v
                     ++ py "' object has no attribute 'get'"))
  end.

(** ** A reference decoder for JSON text

    [json.loads] belongs to the Python library; the service is modelled
    over any decoder (the variable [json_loads] below).  [Json.loads] is
    a decoder to run the model with: it follows the default decoder of
    the library (the scanner of [json.scanner], strict strings, the
    constants [NaN], [Infinity] and [-Infinity]); the resource limits of
    the interpreter (recursion depth, length of an integer literal) are
    not part of it. *)
Module Json.

Definition is_ws (c : char) : bool :=
  ((c =? 32) || (c =? 9) || (c =? 10) || (c =? 13))%N.

Definition skip_ws (s : pystr) : pystr := lstrip is_ws s.

Definition is_digit (c : char) : bool := ((48 <=? c) && (c <=? 57))%N.

Definition digits_value (ds : pystr) : N :=
  fold_left (fun acc d => (10 * acc + (d - 48))%N) ds 0%N.

Definition hex_val (c : char) : option N :=
  if is_digit c then Some (c - 48)%N
  else if ((97 <=? c) && (c <=? 102))%N then Some (c - 87)%N
  else if ((65 <=? c) && (c <=? 70))%N then Some (c - 55)%N
  else None.

Definition hex4 (a b c d : char) : option N :=
  match hex_val a, hex_val b, hex_val c, hex_val d with
  | Some x, Some y, Some z, Some w =>
      Some (((x * 16 + y) * 16 + z) * 16 + w)%N
  | _, _, _, _ => None
  end.

Definition is_high_surrogate (c : N) : bool :=
  ((55296 <=? c) && (c <=? 56319))%N.
Definition is_low_surrogate (c : N) : bool :=
  ((56320 <=? c) && (c <=? 57343))%N.
Definition join_surrogates (hi lo : N) : N :=
  (65536 + ((hi - 55296) * 1024 + (lo - 56320)))%N.

Definition simple_escape (e : char) : option char :=
  if (e =? 34)%N then Some 34%N            (* the double quote *)
  else if (e =? 92)%N then Some 92%N       (* the backslash *)
  else if (e =? 47)%N then Some 47%N       (* / *)
  else if (e =? 98)%N then Some 8%N        (* b *)
  else if (e =? 102)%N then Some 12%N      (* f *)
  else if (e =? 110)%N then Some 10%N      (* n *)
  else if (e =? 114)%N then Some 13%N      (* r *)
  else if (e =? 116)%N then Some 9%N       (* t *)
  else None.

Definition push (c : char) (r : option (pystr * pystr))
  : option (pystr * pystr) :=
  match r with
  | Some (s, rest) => Some (c :: s, rest)
  | None => None
  end.

(** The body of a string, after its opening quote: the decoded text and
    what follows the closing quote. *)
Fixpoint scanstring (s : pystr) : option (pystr * pystr) :=
  match s with
  | [] => None
  | c :: t =>
      if (c =? 34)%N then Some ([], t)
      else if (c =? 92)%N then
        match t with
        | [] => None
        | e :: t1 =>
            if (e =? 117)%N then
              match t1 with
              | h1 :: h2 :: h3 :: h4 :: t2 =>
                  match hex4 h1 h2 h3 h4 with
                  | None => None
                  | Some cp =>
                      if is_high_surrogate cp then
                        match t2 with
                        | b :: u :: l1 :: l2 :: l3 :: l4 :: t3 =>
                            if ((b =? 92) && (u =? 117))%N then
                              match hex4 l1 l2 l3 l4 with
                              | None => None
                              | Some lo =>
                                  if is_low_surrogate lo
                                  then push (join_surrogates cp lo)
                                            (scanstring t3)
                                  else push cp (scanstring t2)
                              end
                            else push cp (scanstring t2)
                        | _ => push cp (scanstring t2)
                        end
                      else push cp (scanstring t2)
                  end
              | _ => None
              end
            else
              match simple_escape e with
              | Some x => push x (scanstring t1)
              | None => None
              end
        end
      else if (c <? 32)%N then None
      else push c (scanstring t)
  end.

(** A number literal at the head of [s], as [NUMBER_RE] of the library
    reads it: an optional minus sign; a zero, or a digit from 1 to 9 and
    then any digits; optionally a point and one or more digits; optionally
    an [e] or [E], an optional sign and one or more digits. *)
Definition match_number (s : pystr) : option (json * pystr) :=
  let (neg, s1) :=
    match s with
    | c :: t => if (c =? 45)%N then (true, t) else (false, s)
    | [] => (false, s)
    end in
  let int_part :=
    match s1 with
    | c :: t =>
        if (c =? 48)%N then Some ([c], t)
        else if is_digit c then Some (span is_digit s1)
        else None
    | [] => None
    end in
  match int_part with
  | None => None
  | Some (ds, s2) =>
      let (frac, s3) :=
        match s2 with
        | c :: t =>
            if (c =? 46)%N then
              match span is_digit t with
              | ([], _) => (None, s2)
              | (fs, r) => (Some fs, r)
              end
            else (None, s2)
        | [] => (None, s2)
        end in
      let (expo, s4) :=
        match s3 with
        | c :: t =>
            if ((c =? 101) || (c =? 69))%N then
              let (eneg, t') :=
                match t with
                | g :: u =>
                    if (g =? 45)%N then (true, u)
                    else if (g =? 43)%N then (false, u)
                    else (false, t)
                | [] => (false, t)
                end in
              match span is_digit t' with
              | ([], _) => (None, s3)
              | (es, r) =>
                  let v := Z.of_N (digits_value es) in
                  (Some (if eneg then (- v)%Z else v), r)
              end
            else (None, s3)
        | [] => (None, s3)
        end in
      match frac, expo with
      | None, None =>
          let v := Z.of_N (digits_value ds) in
          Some (JInt (if neg then (- v)%Z else v), s4)
      | _, _ =>
          let fs := match frac with Some fs => fs | None => [] end in
          let e := match expo with Some e => e | None => 0%Z end in
          Some (JFloat (FDec neg (digits_value (ds ++ fs))
                             (e - Z.of_nat (List.length fs))), s4)
      end
  end.

Definition literal (name : pystr) (v : json) (s : pystr)
  : option (json * pystr) :=
  if startswith name s then Some (v, skipn (List.length name) s) else None.

(** [scan_once]: one value at the head of [s], and what follows it.
    [scan_items] reads the values of an array after the first bracket,
    [scan_members] the members of an object from a key on. *)
Fixpoint scan_once (fuel : nat) (s : pystr) {struct fuel}
  : option (json * pystr) :=
  match fuel with
  | O => None
  | S n =>
      match s with
      | [] => None
      | c :: t =>
          if (c =? 34)%N then
            match scanstring t with
            | Some (str, r) => Some (JStr str, r)
            | None => None
            end
          else if (c =? 123)%N then
            match skip_ws t with
            | d :: r =>
                if (d =? 125)%N then Some (JDict [], r)
                else match scan_members n (d :: r) [] with
                     | Some (ms, r') => Some (JDict ms, r')
                     | None => None
                     end
            | [] => None
            end
          else if (c =? 91)%N then
            match skip_ws t with
            | d :: r =>
                if (d =? 93)%N then Some (JList [], r)
                else match scan_items n (d :: r) [] with
                     | Some (vs, r') => Some (JList vs, r')
                     | None => None
                     end
            | [] => None
            end
          else if (c =? 110)%N then literal (py "null") JNull s
          else if (c =? 116)%N then literal (py "true") (JBool true) s
          else if (c =? 102)%N then literal (py "false") (JBool false) s
          else
            match match_number s with
            | Some r => Some r
            | None =>
                if (c =? 78)%N then literal (py "NaN") (JFloat FNaN) s
                else if (c =? 73)%N
                then literal (py "Infinity") (JFloat (FInf false)) s
                else if (c =? 45)%N
                then literal (py "-Infinity") (JFloat (FInf true)) s
                else None
            end
      end
  end
with scan_items (fuel : nat) (s : pystr) (acc : list json) {struct fuel}
  : option (list json * pystr) :=
  match fuel with
  | O => None
  | S n =>
      match scan_once n s with
      | None => None
      | Some (v, r) =>
          match skip_ws r with
          | c :: r' =>
              if (c =? 93)%N then Some (rev (v :: acc), r')
              else if (c =? 44)%N then scan_items n (skip_ws r') (v :: acc)
              else None
          | [] => None
          end
      end
  end
with scan_members (fuel : nat) (s : pystr) (acc : list (pystr * json))
                  {struct fuel}
  : option (list (pystr * json) * pystr) :=
  match fuel with
  | O => None
  | S n =>
      match s with
      | q :: t =>
          if (q =? 34)%N then
            match scanstring t with
            | None => None
            | Some (key, r) =>
                match skip_ws r with
                | c :: r1 =>
                    if (c =? 58)%N then
                      match scan_once n (skip_ws r1) with
                      | None => None
                      | Some (v, r2) =>
                          match skip_ws r2 with
                          | d :: r3 =>
                              if (d =? 125)%N
                              then Some (rev ((key, v) :: acc), r3)
                              else if (d =? 44)%N
                              then scan_members n (skip_ws r3)
                                                ((key, v) :: acc)
                              else None
                          | [] => None
                          end
                      end
                    else None
                | [] => None
                end
            end
          else None
      | [] => None
      end
  end.

(** [json.loads(s)] for a [str]: [None] stands for [JSONDecodeError].
    Every call of the scanner below the first reads at least one more
    character, so twice the length of the text is fuel enough. *)
Definition loads (s : pystr) : option json :=
  if startswith [65279%N] s then None
  else
    match scan_once (2 * List.length s + 2) (skip_ws s) with
    | Some (v, r) =>
        match skip_ws r with
        | [] => Some v
        | _ :: _ => None
        end
    | None => None
    end.

End Json.

(** ** Generators

    A generator that yields values of [Y] and then returns an [A] or
    raises: the values yielded, in order, and how it ended.  A generator
    that raises keeps what it yielded before. *)
Definition Gen (Y A : Type) : Type := (list Y * res A)%type.

Definition ret {Y A} (a : A) : Gen Y A := ([], Ok a).
Definition raise {Y A} (e : exn) : Gen Y A := ([], Raise e).
Definition yield {Y} (y : Y) : Gen Y unit := ([y], Ok tt).

Definition bind {Y A B} (g : Gen Y A) (k : A -> Gen Y B) : Gen Y B :=
  match g with
  | (ys, Ok a) => let (zs, r) := k a in (ys ++ zs, r)
  | (ys, Raise e) => (ys, Raise e)
  end.

(** A plain call that may raise, made inside a generator. *)
Definition call {Y A} (r : res A) : Gen Y A := ([], r).

(** [try: g  except <those e with handles e = true> as e: h e] *)
Definition try_except {Y A} (g : Gen Y A) (handles : exn -> bool)
           (h : exn -> Gen Y A) : Gen Y A :=
  match g with
  | (ys, Raise e) =>
      if handles e then let (zs, r) := h e in (ys ++ zs, r)
      else (ys, Raise e)
  | (ys, Ok a) => (ys, Ok a)
  end.

Declare Scope gen_scope.
Delimit Scope gen_scope with gen.
Notation "x <- g ;; k" := (bind g (fun x => k))
  (at level 61, g at next level, right associativity) : gen_scope.
Notation "g ;;; k" := (bind g (fun _ => k))
  (at level 61, right associativity) : gen_scope.

(** [for x in xs: st = body st x], where the iterable [xs] is itself a
    generator: it hands over the values it yields one by one, and when it
    raises, the exception surfaces in the loop after the values before
    it were handled.  [body] returns the loop state. *)
Fixpoint for_items {X Y S} (items : list X) (ending : res unit)
         (body : S -> X -> Gen Y S) (st : S) : Gen Y S :=
  match items with
  | [] =>
      match ending with
      | Ok _ => ret st
      | Raise e => raise e
      end
  | x :: rest =>
      bind (body st x) (fun st' => for_items rest ending body st')
  end.

Definition for_each {X Y S} (xs : Gen X unit) (body : S -> X -> Gen Y S)
           (st : S) : Gen Y S :=
  for_items (fst xs) (snd xs) body st.

(** What a generator yielded, and how it ended. *)
Definition yielded {Y A} (g : Gen Y A) : list Y := fst g.
Definition outcome {Y A} (g : Gen Y A) : res A := snd g.

(** ** The generation engine: [OllamaService]
    ([backend/app/services/ollama_service.py]) *)

(** The body of the request posted to [/api/generate]. *)
Record payload := Payload {
  model : pystr;
  prompt : pystr;
  temperature : Q;
  stream : bool
}.

(** A line of bytes read from the response, given by what
    [line.decode("utf-8")] makes of it: a text, or [UnicodeDecodeError]. *)
Inductive raw_line :=
| Utf8 (text : pystr)
| NotUtf8 (e : exn).

Definition decode_utf8 (l : raw_line) : res pystr :=
  match l with
  | Utf8 s => Ok s
  | NotUtf8 e => Raise e
  end.

(** The answer of the endpoint to a streaming request: [text] is the
    outcome of [await response.text()], which reads and decodes the body
    and raises when the transport breaks or the body is not text;
    [content] is the asynchronous iterator over the lines of the body,
    which ends when the transport closes or raises. *)
Record response := Response {
  status : Z;
  text : res pystr;
  content : Gen raw_line unit
}.

(** The answer to a blocking request ([requests]). *)
Record reply := Reply {
  status_code : Z;
  reply_text : pystr;
  reply_json : res json      (* what [response.json()] gives *)
}.

(** [{k: v, ...}.get(key, default)] for a dict literal. *)
Fixpoint table_get {V} (table : list (pystr * V)) (key : pystr)
         (default : V) : V :=
  match table with
  | [] => default
  | (k, v) :: rest =>
      if str_eqb key k then v else table_get rest key default
  end.

Module OllamaService.
Section Service.

(** [self.base_url] and [self.model], read from the environment. *)
Variable base_url : pystr.
Variable self_model : pystr.

(** [app.utils.format_message.format_user_message] *)
Variable format_user_message : list (pystr * pystr) -> pystr.

(** [json.loads] *)
Variable json_loads : pystr -> res json.

(** [aiohttp]: the outcome of [session.post(url, json=payload)]. *)
Variable session_post : pystr -> payload -> res response.

(** [requests.post(url, json=payload)] *)
Variable requests_post : pystr -> payload -> res reply.

(** [# Map reasoning effort to temperature] *)
Definition temperature_for (reasoning_effort : pystr) : Q :=
  table_get [(py "low", 0.1); (py "medium", 0.5); (py "high", 0.9)]
            reasoning_effort 0.1.

Definition full_prompt (system_prompt user_message : pystr) : pystr :=
  py "<system>" ++ [newline] ++ system_prompt ++ [newline]
     ++ py "</system>" ++ [newline; newline] ++ user_message.

Definition status_error (st : Z) (body : pystr) : exn :=
  Exn ValueError
      (py "Ollama API returned status code " ++ str_of_int st
          ++ py ": " ++ body).

(** The request [call_o3_api] posts. *)
Definition call_o3_api_payload (system_prompt : pystr)
           (data : list (pystr * pystr)) (reasoning_effort : pystr)
  : payload :=
  let user_message := format_user_message data in
  let temperature := temperature_for reasoning_effort in
  {| model := self_model;
     prompt := full_prompt system_prompt user_message;
     temperature := temperature;
     stream := false |}.

(** [OllamaService.call_o3_api]: the [except Exception] clause prints and
    raises again. *)
Definition call_o3_api (system_prompt : pystr)
           (data : list (pystr * pystr)) (api_key : option pystr)
           (reasoning_effort : pystr) : res json :=
  match requests_post (base_url ++ py "/api/generate")
                      (call_o3_api_payload system_prompt data
                                           reasoning_effort) with
  | Raise e => Raise e
  | Ok response =>
      if negb (status_code response =? 200)%Z then
        Raise (status_error (status_code response) (reply_text response))
      else
        match reply_json response with
        | Raise e => Raise e
        | Ok result => py_get result (py "response") (JStr [])
        end
  end.

(** The request [call_o3_api_stream] posts. *)
Definition call_o3_api_stream_payload (system_prompt : pystr)
           (data : list (pystr * pystr)) (reasoning_effort : pystr)
  : payload :=
  let user_message := format_user_message data in
  let temperature := temperature_for reasoning_effort in
  {| model := self_model;
     prompt := full_prompt system_prompt user_message;
     temperature := temperature;
     stream := true |}.

Open Scope gen_scope.

(** The body of the loop over the lines; the loop state is [line_count]. *)
Definition stream_line (line_count : N) (raw : raw_line) : Gen json N :=
  line <- call (decode_utf8 raw) ;;
  let line := strip isspace line in
  match line with
  | [] => ret line_count                                 (* continue *)
  | _ :: _ =>
      let line_count := (line_count + 1)%N in
      try_except
        (data <- call (json_loads line) ;;
         content <- call (py_get data (py "response") (JStr [])) ;;
         if truthy content then yield content else ret tt)
        (is_class JSONDecodeError)
        (fun _ => ret tt) ;;;                            (* continue *)
      ret line_count
  end.

(** [OllamaService.call_o3_api_stream] *)
Definition call_o3_api_stream (system_prompt : pystr)
           (data : list (pystr * pystr)) (api_key : option pystr)
           (reasoning_effort : pystr) : Gen json unit :=
  let payload :=
    call_o3_api_stream_payload system_prompt data reasoning_effort in
  try_except
    (response <- call (session_post (base_url ++ py "/api/generate")
                                    payload) ;;
     if negb (status response =? 200)%Z then
       error_text <- call (text response) ;;
       raise (status_error (status response) error_text)
     else
       line_count <- for_each (content response) stream_line 0%N ;;
       ret tt)
    (is_class ClientError)
    (fun e =>
       raise (Exn ValueError
                  (py "Failed to connect to Ollama API: " ++ exn_str e))).

Close Scope gen_scope.

(** [OllamaService.count_tokens]: [len(prompt) // 4] *)
Definition count_tokens (prompt : pystr) : nat :=
  List.length prompt / 4.

End Service.
End OllamaService.

(** ** The link rewriter: [process_click_events]
    ([backend/app/routers/generate.py]) *)

(** *** The pattern, matched as [re] does: greedy, with backtracking *)

(** A literal [l] at the head of [s], then the rest of the pattern [k]. *)
Definition lit_then {A} (l : pystr) (s : pystr) (k : pystr -> option A)
  : option A :=
  if startswith l s then k (skipn (List.length l) s) else None.

(** [[cls]+] at the head of [s], then the rest of the pattern [k], which
    receives the text matched and what follows: the longest run is tried
    first, and a character is given back each time [k] fails. *)
Fixpoint plus_then {A} (cls : char -> bool) (s : pystr)
         (k : pystr -> pystr -> option A) : option A :=
  match s with
  | [] => None
  | c :: t =>
      if cls c then
        match plus_then cls t (fun m r => k (c :: m) r) with
        | Some a => Some a
        | None => k [c] t
        end
      else None
  end.

(** The class [[^\s"]] of group 1 and the class [[^"]] of group 2. *)
Definition ident_char (c : char) : bool :=
  negb (isspace c || N.eqb c dquote).
Definition path_char (c : char) : bool := negb (N.eqb c dquote).

(** A match of [click_pattern] at the head of [s]: group 1, group 2 and
    the text after the match. *)
Definition match_click (s : pystr) : option (pystr * pystr * pystr) :=
  lit_then (py "click ") s (fun s1 =>
  plus_then ident_char s1 (fun g1 s2 =>
  plus_then isspace s2 (fun _ s3 =>
  lit_then [dquote] s3 (fun s4 =>
  plus_then path_char s4 (fun g2 s5 =>
  lit_then [dquote] s5 (fun rest =>
  Some (g1, g2, rest))))))).

Section ProcessClickEvents.

Variables username repo branch : pystr.

(** [replace_path(match)], from the two groups of the match. *)
Definition replace_path (group1 group2 : pystr) : pystr :=
  let path := strip (char_in [dquote; squote]) group2 in
  let is_file := contains [dot] (last (split slash path) []) in
  let base_url := py "https://github.com/" ++ username ++ [slash] ++ repo in
  let path_type := if is_file then py "blob" else py "tree" in
  let full_url :=
    base_url ++ [slash] ++ path_type ++ [slash] ++ branch
             ++ [slash] ++ path in
  py "click " ++ group1 ++ py " " ++ [dquote] ++ full_url ++ [dquote].

(** [re.sub(click_pattern, replace_path, s)]: the text is scanned from
    the left; where the pattern matches, the match is replaced and the
    scan goes on after it, else the character is copied.  A match is
    never empty, so [fuel = len(s)] steps are enough
    ([re_sub_fuel_enough]). *)
Fixpoint re_sub (fuel : nat) (s : pystr) : pystr :=
  match fuel with
  | O => s
  | S n =>
      match match_click s with
      | Some (g1, g2, rest) => replace_path g1 g2 ++ re_sub n rest
      | None =>
          match s with
          | [] => []
          | c :: t => c :: re_sub n t
          end
      end
  end.

Definition process_click_events (diagram : pystr) : pystr :=
  re_sub (List.length diagram) diagram.

End ProcessClickEvents.

(** The URL [replace_path] builds for a path, [full_url]. *)
Definition github_url (username repo branch path : pystr) : pystr :=
  py "https://github.com/" ++ username ++ [slash] ++ repo ++ [slash]
     ++ (if contains [dot] (last (split slash path) [])
         then py "blob" else py "tree")
     ++ [slash] ++ branch ++ [slash] ++ path.

(** ** The router: [/generate/stream]
    ([backend/app/routers/generate.py]) *)

Record ApiRequest := {
  username : pystr;
  repo : pystr;
  instructions : pystr;
  api_key : option pystr;
  github_pat : option pystr
}.

(** The dict [get_cached_github_data] returns. *)
Record github_data := {
  default_branch : pystr;
  file_tree : pystr;
  readme : pystr
}.

(** An event of the stream is the dict given to [json.dumps], as its
    items in order; the text sent is ["data: " + json.dumps(d) + "\n\n"]. *)
Definition event := list (pystr * pystr).

(** What the handler returns: a dict, sent as the body of the answer, or a
    [StreamingResponse] over the events of a generator. *)
Inductive handler_result :=
| Body (d : list (pystr * pystr))
| StreamingResponse (events : Gen event unit).

(** [explanation += chunk]: [str] concatenation raises on anything but a
    [str]. *)
Definition str_iadd (acc : pystr) (chunk : json) : res pystr :=
  match chunk with
  | JStr s => Ok (acc ++ s)
  | _ =>
      Raise (Exn TypeError
                 (py "can only concatenate str (not " ++ [dquote]
                     ++ type_name chunk ++ [dquote] ++ py ") to str"))
  end.

(** [json.dumps] of a chunk that [+=] accepted. *)
Definition chunk_text (chunk : json) : pystr :=
  match chunk with
  | JStr s => s
  | _ => []
  end.

Section Router.

(** [app.prompts] *)
Variables SYSTEM_FIRST_PROMPT SYSTEM_SECOND_PROMPT SYSTEM_THIRD_PROMPT
          ADDITIONAL_SYSTEM_INSTRUCTIONS_PROMPT : pystr.

(** [app.services.github_service.GitHubService]: the three methods of
    [GitHubService(pat=github_pat)], each given [pat], [username] and
    [repo]. *)
Variable get_default_branch :
  option pystr -> pystr -> pystr -> res (option pystr).
Variable get_github_file_paths_as_list :
  option pystr -> pystr -> pystr -> res pystr.
Variable get_github_readme :
  option pystr -> pystr -> pystr -> res pystr.

(** [llm_service.call_o3_api_stream(system_prompt, data, api_key,
    reasoning_effort)] *)
Variable llm_service_call_o3_api_stream :
  pystr -> list (pystr * pystr) -> option pystr -> pystr -> Gen json unit.

(** [get_cached_github_data]; the cache gives back what a first call with
    the same arguments returned. *)
Definition get_cached_github_data (username repo : pystr)
           (github_pat : option pystr) : res github_data :=
  match get_default_branch github_pat username repo with
  | Raise e => Raise e
  | Ok branch =>
      let default_branch :=
        match branch with
        | None | Some [] => py "main"          (* fallback value *)
        | Some b => b
        end in
      match get_github_file_paths_as_list github_pat username repo with
      | Raise e => Raise e
      | Ok file_tree =>
          match get_github_readme github_pat username repo with
          | Raise e => Raise e
          | Ok readme =>
              Ok {| default_branch := default_branch;
                    file_tree := file_tree;
                    readme := readme |}
          end
      end
  end.

Definition status_message (status message : string) : event :=
  [(py "status", py status); (py "message", py message)].

Definition status_chunk (status : string) (chunk : pystr) : event :=
  [(py "status", py status); (py "chunk", chunk)].

Definition error_event (message : pystr) : event :=
  [(py "error", message)].

Definition complete_event (diagram : pystr) : event :=
  [(py "status", py "complete"); (py "diagram", diagram)].

Open Scope gen_scope.

(** The body of the loop of a phase: the chunk is added to the text of
    the phase and passed on in an event tagged [status]. *)
Definition relay_chunk (status : string) (text : pystr) (chunk : json)
  : Gen event pystr :=
  text <- call (str_iadd text chunk) ;;
  yield (status_chunk status (chunk_text chunk)) ;;;
  ret text.

(** One phase: [text = ""], then the loop over the chunks of the engine. *)
Definition relay (status : string) (chunks : Gen json unit)
  : Gen event pystr :=
  for_each chunks (relay_chunk status) [].

Definition event_generator (body : ApiRequest) : Gen event unit :=
  try_except
    ((* Get cached github data *)
     github_data <- call (get_cached_github_data
                            (username body) (repo body) (github_pat body)) ;;
     let default_branch := default_branch github_data in
     let file_tree := file_tree github_data in
     let readme := readme github_data in
     (* Send initial status *)
     yield (status_message "started" "Starting generation process...") ;;;
     (* Prepare prompts *)
     let with_instructions (p : pystr) :=
       match instructions body with
       | [] => p
       | _ :: _ =>
           p ++ [newline] ++ ADDITIONAL_SYSTEM_INSTRUCTIONS_PROMPT
       end in
     let first_system_prompt := with_instructions SYSTEM_FIRST_PROMPT in
     let third_system_prompt := with_instructions SYSTEM_THIRD_PROMPT in
     (* Phase 1: Get explanation *)
     yield (status_message "explanation_sent"
                           "Analyzing repository structure...") ;;;
     explanation <-
       relay "explanation_chunk"
         (llm_service_call_o3_api_stream
            first_system_prompt
            [(py "file_tree", file_tree); (py "readme", readme);
             (py "instructions", instructions body)]
            (api_key body) (py "medium")) ;;
     if contains (py "BAD_INSTRUCTIONS") explanation then
       yield (error_event (py "Invalid or unclear instructions provided"))
     else
       (* Phase 2: Get component mapping *)
       yield (status_message "mapping" "Creating component mapping...") ;;;
       full_second_response <-
         relay "mapping_chunk"
           (llm_service_call_o3_api_stream
              SYSTEM_SECOND_PROMPT
              [(py "explanation", explanation); (py "file_tree", file_tree)]
              (api_key body) (py "medium")) ;;
       (* Phase 3: Generate Mermaid diagram *)
       yield (status_message "diagram" "Generating diagram...") ;;;
       mermaid_code <-
         relay "diagram_chunk"
           (llm_service_call_o3_api_stream
              third_system_prompt
              [(py "explanation", explanation);
               (py "component_mapping", full_second_response);
               (py "instructions", instructions body)]
              (api_key body) (py "medium")) ;;
       (* Process click events to include full GitHub URLs *)
       let mermaid_code :=
         process_click_events (username body) (repo body) default_branch
                              mermaid_code in
       (* Send final diagram *)
       yield (complete_event mermaid_code))
    (fun _ => true)
    (fun e => yield (error_event (exn_str e))).

Close Scope gen_scope.

(** The three calls of the generator to the engine, named for the
    statements below. *)
Definition with_instructions (body : ApiRequest) (p : pystr) : pystr :=
  match instructions body with
  | [] => p
  | _ :: _ => p ++ [newline] ++ ADDITIONAL_SYSTEM_INSTRUCTIONS_PROMPT
  end.

Definition explanation_stream (body : ApiRequest) (data : github_data)
  : Gen json unit :=
  llm_service_call_o3_api_stream
    (with_instructions body SYSTEM_FIRST_PROMPT)
    [(py "file_tree", file_tree data); (py "readme", readme data);
     (py "instructions", instructions body)]
    (api_key body) (py "medium").

Definition mapping_stream (body : ApiRequest) (data : github_data)
           (explanation : pystr) : Gen json unit :=
  llm_service_call_o3_api_stream
    SYSTEM_SECOND_PROMPT
    [(py "explanation", explanation); (py "file_tree", file_tree data)]
    (api_key body) (py "medium").

Definition diagram_stream (body : ApiRequest)
           (explanation full_second_response : pystr) : Gen json unit :=
  llm_service_call_o3_api_stream
    (with_instructions body SYSTEM_THIRD_PROMPT)
    [(py "explanation", explanation);
     (py "component_mapping", full_second_response);
     (py "instructions", instructions body)]
    (api_key body) (py "medium").

(** The repositories of the examples. *)
Definition example_repos : list pystr :=
  [py "fastapi"; py "streamlit"; py "flask"; py "api-analytics";
   py "monkeytype"].

Definition generate_stream (body : ApiRequest) : handler_result :=
  (* Initial validation checks *)
  if (1000 <? List.length (instructions body))%nat then
    Body [(py "error",
           py "Instructions exceed maximum length of 1000 characters")]
  else if str_in (repo body) example_repos then
    Body [(py "error", py "Example repos cannot be regenerated")]
  else
    StreamingResponse (event_generator body).

End Router.

(** ** The cache of [get_cached_github_data]

    [@lru_cache(maxsize=100)]: the wrapper of [functools] keeps the
    results of the calls that returned, by their arguments, the most
    recently used first; a call that raises stores nothing. *)

Section LruCache.

Variables K V : Type.
Variable key_eqb : K -> K -> bool.
Variable maxsize : nat.

Fixpoint lru_find (k : K) (cache : list (K * V)) : option V :=
  match cache with
  | [] => None
  | (k', v) :: rest => if key_eqb k k' then Some v else lru_find k rest
  end.

Fixpoint lru_remove (k : K) (cache : list (K * V)) : list (K * V) :=
  match cache with
  | [] => []
  | (k', v) :: rest =>
      if key_eqb k k' then rest else (k', v) :: lru_remove k rest
  end.

(** One call of the wrapper around [user_function] with the key [k]:
    what it returns or raises, the cache after the call, and whether
    [user_function] was called. *)
Definition lru_call (user_function : K -> res V) (cache : list (K * V))
           (k : K) : res V * list (K * V) * bool :=
  match lru_find k cache with
  | Some v =>
      (* a hit: the entry becomes the most recently used *)
      (Ok v, (k, v) :: lru_remove k cache, false)
  | None =>
      match user_function k with
      | Raise e => (Raise e, cache, true)
      | Ok v =>
          (* a full cache gives up its least recently used entry *)
          (Ok v, firstn maxsize ((k, v) :: cache), true)
      end
  end.

End LruCache.

(** The arguments of a call, which the wrapper uses as the key. *)
Definition github_key : Type := (pystr * pystr * option pystr)%type.

Definition github_key_eqb (a b : github_key) : bool :=
  let '(u, r, p) := a in
  let '(u', r', p') := b in
  str_eqb u u' && str_eqb r r'
  && match p, p' with
     | None, None => true
     | Some x, Some y => str_eqb x y
     | _, _ => false
     end.

(** [get_cached_github_data] as the handlers call it, through the
    wrapper: the three methods are what the hosting service answers at
    the time of the call. *)
Definition get_cached_github_data_lru
           (get_default_branch :
              option pystr -> pystr -> pystr -> res (option pystr))
           (get_github_file_paths_as_list get_github_readme :
              option pystr -> pystr -> pystr -> res pystr)
           (cache : list (github_key * github_data))
           (username repo : pystr) (github_pat : option pystr)
  : res github_data * list (github_key * github_data) * bool :=
  lru_call github_key_eqb 100
           (fun k : github_key =>
              let '(u, r, p) := k in
              get_cached_github_data
                get_default_branch get_github_file_paths_as_list
                get_github_readme u r p)
           cache (username, repo, github_pat).

(** [get_generation_cost], the handler of [/generate/cost], on the cache
    of the process: its answer and the cache after the call.  The lookup
    is a call of the wrapper, against what the hosting service answers
    at that time; the token counts are computed and not used;
    [except Exception] turns what is raised into a dict with the key
    [error]. *)
Definition get_generation_cost
           (get_default_branch :
              option pystr -> pystr -> pystr -> res (option pystr))
           (get_github_file_paths_as_list get_github_readme :
              option pystr -> pystr -> pystr -> res pystr)
           (cache : list (github_key * github_data))
           (body : ApiRequest)
  : handler_result * list (github_key * github_data) :=
  let '(found, cache_after, called) :=
    get_cached_github_data_lru
      get_default_branch get_github_file_paths_as_list get_github_readme
      cache (username body) (repo body) (github_pat body) in
  match found with
  | Ok github_data =>
      (* Get file tree and README content *)
      let file_tree := file_tree github_data in
      let readme := readme github_data in
      (* Calculate combined token count *)
      let file_tree_tokens := OllamaService.count_tokens file_tree in
      let readme_tokens := OllamaService.count_tokens readme in
      (* Using local LLM - free to use *)
      let cost_string := py "$0.00 USD (using local LLM)" in
      (Body [(py "cost", cost_string)], cache_after)
  | Raise e => (Body [(py "error", exn_str e)], cache_after)
  end.

(** ** Properties stated below *)

(** *** The cache *)

(** No two of the keys are the same. *)
Fixpoint all_distinct (keys : list github_key) : bool :=
  match keys with
  | [] => true
  | k :: rest => negb (existsb (github_key_eqb k) rest) && all_distinct rest
  end.

(** *** Click directives *)

(** The text [s] starts with a click directive: [click], an identifier
    (one or more characters, none a space or a double quote), one or more
    spaces, and a non-empty text without double quote between double
    quotes; [rest] follows it. *)
Definition click_at (s ident quoted rest : pystr) : Prop :=
  exists ws,
    s = py "click " ++ ident ++ ws ++ [dquote] ++ quoted ++ [dquote] ++ rest
    /\ ident <> [] /\ forallb ident_char ident = true
    /\ ws <> [] /\ forallb isspace ws = true
    /\ quoted <> [] /\ forallb path_char quoted = true.

(** No directive starts inside [pre], when [s] follows it. *)
Definition unmatched_prefix (pre s : pystr) : Prop :=
  forall a b, pre = a ++ b -> b <> [] -> match_click (b ++ s) = None.

(** No directive starts anywhere in [s]. *)
Definition no_click (s : pystr) : Prop :=
  forall a b, s = a ++ b -> match_click b = None.

(** The same, decided: the suffixes of [s] are tried one by one. *)
Fixpoint has_click (s : pystr) : bool :=
  match match_click s with
  | Some _ => true
  | None =>
      match s with
      | [] => false
      | _ :: t => has_click t
      end
  end.

(** No directive starts inside [pre] when [s] follows it, decided. *)
Fixpoint starts_no_click (pre s : pystr) : bool :=
  match pre with
  | [] => true
  | _ :: p =>
      match match_click (pre ++ s) with
      | Some _ => false
      | None => starts_no_click p s
      end
  end.

(** *** The shape of an event stream *)

(** The tag of an event: [error] for a dict whose first key is [error],
    else the value of its first item, the [status]. *)
Definition event_tag (ev : event) : pystr :=
  match ev with
  | [] => []
  | (k, v) :: _ => if str_eqb k (py "error") then py "error" else v
  end.

Definition is_error_record (ev : event) : bool :=
  str_eqb (event_tag ev) (py "error").

Inductive run_state :=
| Init | Started | Phase1 | Phase2 | Phase3 | Terminated.

Definition tag_is (tag : pystr) (name : string) : bool :=
  str_eqb tag (py name).

Definition run_step (st : run_state) (tag : pystr) : option run_state :=
  match st with
  | Init => if tag_is tag "started" then Some Started else None
  | Started =>
      if tag_is tag "explanation_sent" then Some Phase1 else None
  | Phase1 =>
      if tag_is tag "explanation_chunk" then Some Phase1
      else if tag_is tag "mapping" then Some Phase2
      else if tag_is tag "error" then Some Terminated
      else None
  | Phase2 =>
      if tag_is tag "mapping_chunk" then Some Phase2
      else if tag_is tag "diagram" then Some Phase3
      else if tag_is tag "error" then Some Terminated
      else None
  | Phase3 =>
      if tag_is tag "diagram_chunk" then Some Phase3
      else if tag_is tag "complete" then Some Terminated
      else if tag_is tag "error" then Some Terminated
      else None
  | Terminated => None
  end.

Fixpoint run_from (st : run_state) (evs : list event) : bool :=
  match evs with
  | [] => match st with Terminated => true | _ => false end
  | ev :: rest =>
      match run_step st (event_tag ev) with
      | Some st' => run_from st' rest
      | None => false
      end
  end.

(** [started], [explanation_sent], the chunks of the explanation, then
    either [error], or [mapping], its chunks, and then either [error], or
    [diagram], its chunks, and [error] or [complete]; nothing after. *)
Definition well_formed_run (evs : list event) : bool := run_from Init evs.

Definition is_terminal (ev : event) : bool :=
  tag_is (event_tag ev) "error" || tag_is (event_tag ev) "complete".

(** An event of the second or third phase, or the final diagram. *)
Definition after_explanation (ev : event) : bool :=
  str_in (event_tag ev)
         [py "mapping"; py "mapping_chunk"; py "diagram";
          py "diagram_chunk"; py "complete"].

(** An event of the third phase, or the final diagram. *)
Definition after_mapping (ev : event) : bool :=
  str_in (event_tag ev) [py "diagram"; py "diagram_chunk"; py "complete"].

(** The events of a streaming answer; none for a plain body. *)
Definition events_of (r : handler_result) : list event :=
  match r with
  | StreamingResponse g => yielded g
  | Body _ => []
  end.

(** What [call_o3_api_stream] raises when [e] is raised inside it: a
    [ClientError] becomes a [ValueError], anything else goes through. *)
Definition reraised (e : exn) : exn :=
  if is_class ClientError e
  then Exn ValueError (py "Failed to connect to Ollama API: " ++ exn_str e)
  else e.

(** Two lines with the same text once stripped (or the same undecodable
    line). *)
Definition same_stripped (a b : raw_line) : Prop :=
  match a, b with
  | Utf8 s, Utf8 t => strip isspace s = strip isspace t
  | _, _ => a = b
  end.

(** *** The fragments of a line, in the words of the specification *)

Section Fragments.

Variable json_loads : pystr -> res json.

(** A line the stream survives: it decodes as UTF-8, and is blank, or
    does not parse as JSON, or parses to an object. *)
Definition survivable (l : raw_line) : Prop :=
  match l with
  | NotUtf8 _ => False
  | Utf8 s =>
      match strip isspace s with
      | [] => True
      | (_ :: _) as line =>
          match json_loads line with
          | Ok (JDict _) => True
          | Ok _ => False
          | Raise e => is_class JSONDecodeError e = true
          end
      end
  end.

(** The exception a line that is not survivable ends the stream with. *)
Definition fatal (l : raw_line) (e : exn) : Prop :=
  match l with
  | NotUtf8 e' => e = e'
  | Utf8 s =>
      match strip isspace s with
      | [] => False
      | (_ :: _) as line =>
          match json_loads line with
          | Ok (JDict _) => False
          | Ok v => py_get v (py "response") (JStr []) = Raise e
          | Raise e' => is_class JSONDecodeError e' = false /\ e = e'
          end
      end
  end.

(** The fragments of one line, as the specification words them: the
    content of a line that holds a well-formed record, when that content
    is not empty; nothing for any other line. *)
Definition fragments_of_line (l : raw_line) : list json :=
  match l with
  | NotUtf8 _ => []
  | Utf8 s =>
      match strip isspace s with
      | [] => []
      | (_ :: _) as line =>
          match json_loads line with
          | Ok (JDict d) =>
              filter truthy [dict_get (py "response") d (JStr [])]
          | _ => []
          end
      end
  end.

End Fragments.

(** ** A concrete world to run the model in *)
Module Demo.

(** [json.loads], by the reference decoder; the text of the exception is
    only printed by the service. *)
Definition json_loads (s : pystr) : res json :=
  match Json.loads s with
  | Some v => Ok v
  | None => Raise (Exn JSONDecodeError (py "Expecting value"))
  end.

(** Modelled from the spec: [app.utils.format_message] is not among the
    sources; the user message is made of a labelled section for each
    entry of the payload, in the order of the entries. *)
Definition format_user_message (data : list (pystr * pystr)) : pystr :=
  List.concat (map (fun kv =>
                 py "<" ++ fst kv ++ py ">" ++ [newline] ++ snd kv
                    ++ [newline] ++ py "</" ++ fst kv ++ py ">"
                    ++ [newline])
              data).

(** Stand-ins for the constants of [app.prompts]; only the first words
    of a system prompt matter here, to tell the phases apart. *)
Definition SYSTEM_FIRST_PROMPT := py "explain".
Definition SYSTEM_SECOND_PROMPT := py "map".
Definition SYSTEM_THIRD_PROMPT := py "draw".
Definition ADDITIONAL_SYSTEM_INSTRUCTIONS_PROMPT := py "as instructed".

Definition base_url := py "http://localhost:11434".
Definition self_model := py "deepseek-r1".

(** The line [{"response": "<s>"}] of a streamed answer. *)
Definition response_line (s : string) : raw_line :=
  Utf8 (py "{" ++ [dquote] ++ py "response" ++ [dquote] ++ py ": "
           ++ [dquote] ++ py s ++ [dquote] ++ py "}").

(** The line [{"response": <v>}], for a JSON text [v]. *)
Definition raw_response (v : pystr) : raw_line :=
  Utf8 (py "{" ++ [dquote] ++ py "response" ++ [dquote] ++ py ": " ++ v
           ++ py "}").

Definition text_line (s : string) : raw_line := Utf8 (py s).

(** An answer with status 200 and these lines, the transport closing
    after them. *)
Definition ok_lines (lines : list raw_line) : res response :=
  Ok {| status := 200; text := Ok []; content := (lines, Ok tt) |}.

(** An answer with status 200 whose transport raises [e] after the
    lines. *)
Definition broken_lines (lines : list raw_line) (e : exn) : res response :=
  Ok {| status := 200; text := Ok []; content := (lines, Raise e) |}.

(** An endpoint that answers the requests of the three phases with
    [r1], [r2] and [r3]: the phase is read off the system prompt. *)
Definition session_post (r1 r2 r3 : res response) (url : pystr)
           (p : payload) : res response :=
  let head (system_prompt : pystr) :=
    py "<system>" ++ [newline] ++ system_prompt in
  if startswith (head SYSTEM_FIRST_PROMPT) (prompt p) then r1
  else if startswith (head SYSTEM_SECOND_PROMPT) (prompt p) then r2
  else r3.

(** What the hosting service says of a repository it does not know. *)
Definition github_not_found : exn :=
  Exn ValueError (py "Repository not found.").

(** [llm_service = OllamaService()] *)
Definition llm_service_call_o3_api_stream (r1 r2 r3 : res response) :=
  OllamaService.call_o3_api_stream
    base_url self_model format_user_message json_loads
    (session_post r1 r2 r3).

Definition request (repo instructions : pystr) : ApiRequest :=
  {| username := py "octo"; repo := repo; instructions := instructions;
     api_key := None; github_pat := None |}.

(** The handler in this world; [branch] is what the hosting service
    answers when asked for the default branch. *)
Definition handler (branch : res (option pystr))
           (r1 r2 r3 : res response) (body : ApiRequest)
  : handler_result :=
  generate_stream
    SYSTEM_FIRST_PROMPT SYSTEM_SECOND_PROMPT SYSTEM_THIRD_PROMPT
    ADDITIONAL_SYSTEM_INSTRUCTIONS_PROMPT
    (fun _ _ _ => branch)
    (fun _ _ _ => Ok (py "src/app.py"))
    (fun _ _ _ => Ok (py "# demo"))
    (llm_service_call_o3_api_stream r1 r2 r3) body.

Definition found : res (option pystr) := Ok (Some (py "main")).

(** The generator of the handler, and the metadata it works with when
    the repository is found. *)
Definition generator (branch : res (option pystr))
           (r1 r2 r3 : res response) (body : ApiRequest)
  : Gen event unit :=
  event_generator
    SYSTEM_FIRST_PROMPT SYSTEM_SECOND_PROMPT SYSTEM_THIRD_PROMPT
    ADDITIONAL_SYSTEM_INSTRUCTIONS_PROMPT
    (fun _ _ _ => branch)
    (fun _ _ _ => Ok (py "src/app.py"))
    (fun _ _ _ => Ok (py "# demo"))
    (llm_service_call_o3_api_stream r1 r2 r3) body.

Definition data : github_data :=
  {| default_branch := py "main"; file_tree := py "src/app.py";
     readme := py "# demo" |}.

(** One streaming call to an endpoint that answers [r]. *)
Definition stream_of (r : res response) : Gen json unit :=
  OllamaService.call_o3_api_stream
    base_url self_model format_user_message json_loads (fun _ _ => r)
    SYSTEM_FIRST_PROMPT [(py "readme", py "# demo")] None (py "medium").

(** A text between double quotes. *)
Definition quoted (s : string) : pystr := [dquote] ++ py s ++ [dquote].

(** The rewriter, for the repository [octo/demo] on the branch [main]. *)
Definition rewrite (diagram : pystr) : pystr :=
  process_click_events (py "octo") (py "demo") (py "main") diagram.

(** One blocking call to an endpoint that answers [r]. *)
Definition call_of (r : res reply) : res json :=
  OllamaService.call_o3_api
    base_url self_model format_user_message (fun _ _ => r)
    SYSTEM_FIRST_PROMPT [(py "readme", py "# demo")] None (py "low").

(** A hosting service that knows the repository, and one that is down. *)
Definition branch_found (_ : option pystr) (_ _ : pystr)
  : res (option pystr) := found.
Definition branch_down (_ : option pystr) (_ _ : pystr)
  : res (option pystr) := Raise github_not_found.
Definition tree_found (_ : option pystr) (_ _ : pystr) : res pystr :=
  Ok (py "src/app.py").
Definition readme_found (_ : option pystr) (_ _ : pystr) : res pystr :=
  Ok (py "# demo").

(** A cache that is full: the metadata of the repositories [repo0] to
    [repo99] of [octo], [repo0] the most recently used. *)
Definition cached_key (i : nat) : github_key :=
  (py "octo", py "repo" ++ str_of_int (Z.of_nat i), None).

Definition full_cache : list (github_key * github_data) :=
  map (fun i => (cached_key i, data)) (seq 0 100).

End Demo.

(** * Properties *)

Unset Implicit Arguments.

(** ** Strings *)

Lemma str_eqb_eq (a b : pystr) : str_eqb a b = true <-> a = b.
Proof.
  revert b; induction a as [|x a IH]; intros [|y b]; simpl;
    try (split; [discriminate | congruence]); try tauto.
  rewrite andb_true_iff, N.eqb_eq, IH.
  split; [intros [-> ->]; reflexivity | intros H; inversion H; auto].
Qed.

Lemma str_eqb_refl (a : pystr) : str_eqb a a = true.
Proof. apply str_eqb_eq; reflexivity. Qed.

Lemma str_eqb_neq (a b : pystr) : str_eqb a b = false <-> a <> b.
Proof.
  rewrite <- str_eqb_eq. destruct (str_eqb a b); split; congruence.
Qed.

Lemma str_in_spec (x : pystr) (l : list pystr) :
  str_in x l = true <-> In x l.
Proof.
  unfold str_in. rewrite existsb_exists. split.
  - intros (y & Hy & E). apply str_eqb_eq in E. now subst.
  - intros H. exists x. split; [assumption | apply str_eqb_refl].
Qed.

Lemma startswith_spec (p s : pystr) :
  startswith p s = true <-> exists r, s = p ++ r.
Proof.
  revert s; induction p as [|x p IH]; intros s; simpl.
  - split; [intros _; now exists s | reflexivity].
  - destruct s as [|y s].
    + split; [discriminate | intros (r & E); discriminate].
    + rewrite andb_true_iff, N.eqb_eq, IH. split.
      * intros (-> & r & ->). now exists r.
      * intros (r & E). inversion E; subst.
        split; [reflexivity | now exists r].
Qed.

Lemma startswith_app (p r : pystr) : startswith p (p ++ r) = true.
Proof. apply startswith_spec. now exists r. Qed.

Lemma skipn_exact (p r : pystr) : skipn (List.length p) (p ++ r) = r.
Proof. induction p; simpl; auto. Qed.

Lemma contains_spec (needle hay : pystr) :
  contains needle hay = true <-> exists a b, hay = a ++ needle ++ b.
Proof.
  induction hay as [|c hay IH]; simpl.
  - rewrite orb_false_r, startswith_spec. split.
    + intros (r & E). now exists [], r.
    + intros (a & b & E). destruct a; simpl in E.
      * now exists b.
      * discriminate.
  - rewrite orb_true_iff, startswith_spec, IH. split.
    + intros [(r & E) | (a & b & ->)].
      * now exists [], r.
      * now exists (c :: a), b.
    + intros (a & b & E). destruct a as [|x a]; simpl in E.
      * left. now exists b.
      * right. inversion E; subst. now exists a, b.
Qed.

Lemma contains_char (c : char) (s : pystr) :
  contains [c] s = true <-> In c s.
Proof.
  rewrite contains_spec. split.
  - intros (a & b & ->). apply in_or_app. right. now left.
  - intros H. apply in_split in H. destruct H as (a & b & ->).
    now exists a, b.
Qed.

Lemma span_spec (cls : char -> bool) (s m r : pystr) :
  span cls s = (m, r) ->
  s = m ++ r /\ forallb cls m = true
  /\ match r with [] => True | c :: _ => cls c = false end.
Proof.
  revert m r; induction s as [|c s IH]; simpl; intros m r E.
  - inversion E; subst. auto.
  - destruct (cls c) eqn:Ec.
    + destruct (span cls s) as [a b]. inversion E; subst.
      destruct (IH a r eq_refl) as (-> & Ha & Hb). simpl. rewrite Ec. auto.
    + inversion E; subst. simpl. auto.
Qed.

Lemma span_app (cls : char -> bool) (m r : pystr) :
  forallb cls m = true ->
  match r with [] => True | c :: _ => cls c = false end ->
  span cls (m ++ r) = (m, r).
Proof.
  intros Hm Hr. induction m as [|c m IH]; simpl in *.
  - destruct r as [|c r]; [reflexivity | simpl; now rewrite Hr].
  - apply andb_true_iff in Hm. destruct Hm as [Hc Hm].
    rewrite Hc, (IH Hm). reflexivity.
Qed.

(** *** [split] and its last piece *)

Lemma split_nonempty (sep : char) (s : pystr) : split sep s <> [].
Proof.
  destruct s as [|c s]; simpl; [discriminate |].
  destruct (N.eqb c sep); [discriminate |].
  destruct (split sep s); discriminate.
Qed.

Lemma split_no_sep (sep : char) (s : pystr) :
  ~ In sep s -> split sep s = [s].
Proof.
  induction s as [|c s IH]; simpl; intros H; [reflexivity |].
  destruct (N.eqb c sep) eqn:E.
  - apply N.eqb_eq in E. exfalso. apply H. now left.
  - rewrite IH; [reflexivity | tauto].
Qed.

Lemma last_cons_nonempty {A} (x : A) (l : list A) (d : A) :
  l <> [] -> last (x :: l) d = last l d.
Proof. destruct l; [congruence | reflexivity]. Qed.

Lemma split_two_pieces (sep : char) (a b : pystr) :
  exists h h' r, split sep (a ++ sep :: b) = h :: h' :: r.
Proof.
  induction a as [|c a IH]; simpl.
  - rewrite N.eqb_refl. pose proof (split_nonempty sep b).
    destruct (split sep b) as [|h' r]; [congruence |]. now exists [], h', r.
  - destruct IH as (h & h' & r & ->).
    destruct (N.eqb c sep); [now exists [], h, (h' :: r) |].
    now exists (c :: h), h', r.
Qed.

Lemma split_last_after_sep (sep : char) (a b : pystr) :
  last (split sep (a ++ sep :: b)) [] = last (split sep b) [].
Proof.
  induction a as [|c a IH]; simpl.
  - rewrite N.eqb_refl. apply last_cons_nonempty, split_nonempty.
  - destruct (split_two_pieces sep a b) as (h & h' & r & E).
    rewrite E in *. destruct (N.eqb c sep); exact IH.
Qed.

Lemma last_occurrence (x : char) (s : pystr) :
  In x s -> exists a b, s = a ++ x :: b /\ ~ In x b.
Proof.
  induction s as [|c s IH]; simpl; [tauto |]. intros H.
  destruct (in_dec N.eq_dec x s) as [Hin | Hout].
  - destruct (IH Hin) as (a & b & -> & Hb). now exists (c :: a), b.
  - destruct H as [-> | H]; [| tauto]. now exists [], s.
Qed.

(** [s.split(sep)[-1]] is what follows the last separator of [s]: it has
    no separator, and what precedes it is empty or ends with one. *)
Lemma split_last (sep : char) (s : pystr) :
  exists before,
    s = before ++ last (split sep s) []
    /\ ~ In sep (last (split sep s) [])
    /\ (before = [] \/ exists d, before = d ++ [sep]).
Proof.
  destruct (in_dec N.eq_dec sep s) as [Hin | Hout].
  - destruct (last_occurrence _ _ Hin) as (a & b & -> & Hb).
    rewrite split_last_after_sep, (split_no_sep _ _ Hb). simpl.
    exists (a ++ [sep]). rewrite <- app_assoc. simpl.
    split; [reflexivity |]. split; [assumption |]. right. now exists a.
  - rewrite (split_no_sep _ _ Hout). simpl. exists []. auto.
Qed.

(** ** The pattern of the link rewriter *)

(** Backtracking never finds a second way: when the rest of the pattern
    cannot start with a character of the class, [[cls]+] takes the
    longest run or fails. *)
Lemma plus_then_span {A} (cls : char -> bool) (s : pystr)
      (k : pystr -> pystr -> option A) :
  (forall m c r, cls c = true -> k m (c :: r) = None) ->
  plus_then cls s k =
  match span cls s with
  | ([], _) => None
  | (m, r) => k m r
  end.
Proof.
  revert k; induction s as [|c t IH]; intros k Hk; simpl; [reflexivity |].
  destruct (cls c) eqn:Ec; [| reflexivity].
  rewrite IH by (intros; now apply Hk).
  destruct (span cls t) as [a b] eqn:Es.
  apply span_spec in Es. destruct Es as (-> & Ha & _).
  destruct a as [|x a]; [reflexivity |].
  destruct (k (c :: x :: a) b) eqn:Ek; [reflexivity |].
  simpl in Ha. apply andb_true_iff in Ha. now apply Hk.
Qed.

Lemma isspace_not_dquote (c : char) : isspace c = true -> N.eqb c dquote = false.
Proof.
  intros H. destruct (N.eqb c dquote) eqn:E; [| reflexivity].
  apply N.eqb_eq in E. subst c. discriminate H.
Qed.

Lemma ident_char_not_space (c : char) : ident_char c = true -> isspace c = false.
Proof.
  unfold ident_char. intros H. apply negb_true_iff, orb_false_iff in H. tauto.
Qed.

Lemma lit_dquote {A} (s : pystr) (k : pystr -> option A) :
  lit_then [dquote] s k =
  match s with
  | c :: t => if N.eqb c dquote then k t else None
  | [] => None
  end.
Proof.
  unfold lit_then. destruct s as [|c t]; [reflexivity |].
  change (startswith [dquote] (c :: t)) with (N.eqb dquote c && true).
  change (skipn (List.length [dquote]) (c :: t)) with t.
  now rewrite andb_true_r, N.eqb_sym.
Qed.

(** [match_click], without backtracking. *)
Lemma match_click_unfold (s : pystr) :
  match_click s =
  if startswith (py "click ") s then
    match span ident_char (skipn 6 s) with
    | ([], _) => None
    | (g1, s2) =>
        match span isspace s2 with
        | ([], _) => None
        | (_, []) => None
        | (_, q :: s4) =>
            if N.eqb q dquote then
              match span path_char s4 with
              | ([], _) => None
              | (_, []) => None
              | (g2, q' :: rest) =>
                  if N.eqb q' dquote then Some (g1, g2, rest) else None
              end
            else None
        end
    end
  else None.
Proof.
  unfold match_click. unfold lit_then at 1.
  destruct (startswith (py "click ") s); [| reflexivity].
  change (List.length (py "click ")) with 6%nat.
  rewrite plus_then_span.
  2:{ intros m c r Hc. simpl. now rewrite (ident_char_not_space _ Hc). }
  destruct (span ident_char (skipn 6 s)) as [[|x g1] s2]; [reflexivity |].
  rewrite plus_then_span.
  2:{ intros m c r Hc. rewrite lit_dquote.
      now rewrite (isspace_not_dquote _ Hc). }
  destruct (span isspace s2) as [[|y ws] s3]; [reflexivity |].
  rewrite lit_dquote. destruct s3 as [|q s4]; [reflexivity |].
  destruct (N.eqb q dquote); [| reflexivity].
  rewrite plus_then_span.
  2:{ intros m c r Hc. rewrite lit_dquote. unfold path_char in Hc.
      apply negb_true_iff in Hc. now rewrite Hc. }
  destruct (span path_char s4) as [[|z g2] s5]; [reflexivity |].
  rewrite lit_dquote. destruct s5 as [|q' rest]; reflexivity.
Qed.

Lemma match_click_intro (s ident quoted rest : pystr) :
  click_at s ident quoted rest ->
  match_click s = Some (ident, quoted, rest).
Proof.
  intros (ws & -> & Hi & Hic & Hw & Hwc & Hq & Hqc).
  rewrite match_click_unfold, startswith_app.
  change 6%nat with (List.length (py "click ")). rewrite skipn_exact.
  rewrite (span_app ident_char ident _ Hic).
  2:{ destruct ws as [|w ws]; [congruence |]. simpl in *.
      apply andb_true_iff in Hwc. destruct Hwc as [Hw0 _].
      unfold ident_char. now rewrite Hw0. }
  destruct ident as [|i0 ident]; [congruence |].
  rewrite (span_app isspace ws _ Hwc) by reflexivity.
  destruct ws as [|w0 ws]; [congruence |].
  change ([dquote] ++ quoted ++ [dquote] ++ rest)
    with (dquote :: quoted ++ dquote :: rest).
  cbv iota beta. rewrite N.eqb_refl.
  rewrite (span_app path_char quoted _ Hqc).
  2:{ unfold path_char. now rewrite N.eqb_refl. }
  destruct quoted as [|q0 quoted]; [congruence |].
  cbv iota beta. rewrite N.eqb_refl. reflexivity.
Qed.

Lemma match_click_elim (s ident quoted rest : pystr) :
  match_click s = Some (ident, quoted, rest) ->
  click_at s ident quoted rest.
Proof.
  rewrite match_click_unfold.
  destruct (startswith (py "click ") s) eqn:Es; [| discriminate].
  apply startswith_spec in Es. destruct Es as (s1 & ->).
  change 6%nat with (List.length (py "click ")). rewrite skipn_exact.
  destruct (span ident_char s1) as [g1 s2] eqn:E1.
  apply span_spec in E1. destruct E1 as (-> & Hg1 & _).
  destruct g1 as [|x g1]; [discriminate |].
  destruct (span isspace s2) as [ws s3] eqn:E2.
  apply span_spec in E2. destruct E2 as (-> & Hws & _).
  destruct ws as [|y ws]; [discriminate |].
  destruct s3 as [|q s4]; [discriminate |].
  destruct (N.eqb q dquote) eqn:Eq; [| discriminate].
  apply N.eqb_eq in Eq. subst q.
  destruct (span path_char s4) as [g2 s5] eqn:E3.
  apply span_spec in E3. destruct E3 as (-> & Hg2 & _).
  destruct g2 as [|z g2]; [discriminate |].
  destruct s5 as [|q' rest']; [discriminate |].
  destruct (N.eqb q' dquote) eqn:Eq'; [| discriminate].
  apply N.eqb_eq in Eq'. subst q'.
  intros H. inversion H; subst. exists (y :: ws).
  repeat split; try discriminate; try assumption.
Qed.

Lemma match_click_spec (s ident quoted rest : pystr) :
  match_click s = Some (ident, quoted, rest) <->
  click_at s ident quoted rest.
Proof. split; [apply match_click_elim | apply match_click_intro]. Qed.

Lemma click_at_shorter (s ident quoted rest : pystr) :
  click_at s ident quoted rest -> (List.length rest < List.length s)%nat.
Proof.
  intros (ws & -> & _). rewrite !length_app. simpl. lia.
Qed.

Lemma click_at_dquote (s ident quoted rest : pystr) :
  click_at s ident quoted rest -> In dquote s.
Proof.
  intros (ws & -> & _). do 3 (apply in_or_app; right). simpl. now left.
Qed.

(** ** The scan of [re.sub] *)

Section Scan.

Variables username repo branch : pystr.

Lemma re_sub_fuel (n m : nat) (s : pystr) :
  (List.length s <= n)%nat -> (List.length s <= m)%nat ->
  re_sub username repo branch n s = re_sub username repo branch m s.
Proof.
  revert m s; induction n as [|n IH]; intros m s Hn Hm.
  - destruct s; [| simpl in Hn; lia].
    destruct m; reflexivity.
  - destruct m as [|m].
    + destruct s; [reflexivity | simpl in Hm; lia].
    + cbn [re_sub]. destruct (match_click s) as [[[g1 g2] rest]|] eqn:E.
      * apply match_click_elim, click_at_shorter in E.
        f_equal. apply IH; lia.
      * destruct s as [|c t]; [reflexivity |]. simpl in Hn, Hm.
        f_equal. apply IH; lia.
Qed.

(** The fuel [process_click_events] gives is enough: more changes
    nothing. *)
Lemma re_sub_fuel_enough (n : nat) (s : pystr) :
  (List.length s <= n)%nat ->
  re_sub username repo branch n s
  = process_click_events username repo branch s.
Proof. intros H. apply re_sub_fuel; [assumption | reflexivity]. Qed.

Lemma process_nil : process_click_events username repo branch [] = [].
Proof. reflexivity. Qed.

Lemma process_match (s g1 g2 rest : pystr) :
  match_click s = Some (g1, g2, rest) ->
  process_click_events username repo branch s
  = replace_path username repo branch g1 g2
      ++ process_click_events username repo branch rest.
Proof.
  intros E. unfold process_click_events at 1.
  pose proof (click_at_shorter _ _ _ _ (match_click_elim _ _ _ _ E)) as Hlen.
  destruct s as [|c t]; [simpl in Hlen; lia |].
  simpl List.length. cbn [re_sub]. rewrite E. f_equal.
  apply re_sub_fuel_enough. simpl in Hlen. lia.
Qed.

Lemma process_copy (c : char) (t : pystr) :
  match_click (c :: t) = None ->
  process_click_events username repo branch (c :: t)
  = c :: process_click_events username repo branch t.
Proof.
  intros E. unfold process_click_events at 1.
  simpl List.length. cbn [re_sub]. rewrite E. reflexivity.
Qed.

Lemma unmatched_prefix_cons (c : char) (pre s : pystr) :
  unmatched_prefix (c :: pre) s ->
  match_click (c :: pre ++ s) = None /\ unmatched_prefix pre s.
Proof.
  intros H. split.
  - apply (H [] (c :: pre)); [reflexivity | discriminate].
  - intros a b E Hb. apply (H (c :: a) b); [now rewrite E | assumption].
Qed.

Lemma process_unmatched_prefix (pre s : pystr) :
  unmatched_prefix pre s ->
  process_click_events username repo branch (pre ++ s)
  = pre ++ process_click_events username repo branch s.
Proof.
  induction pre as [|c pre IH]; intros H; [reflexivity |].
  apply unmatched_prefix_cons in H. destruct H as [E H].
  simpl. rewrite process_copy by exact E. now rewrite IH.
Qed.

Lemma no_click_unmatched (s : pystr) : no_click s -> unmatched_prefix s [].
Proof.
  intros H a b E _. rewrite app_nil_r. now apply (H a).
Qed.

Lemma process_no_click (s : pystr) :
  no_click s -> process_click_events username repo branch s = s.
Proof.
  intros H. rewrite <- (app_nil_r s) at 1.
  rewrite process_unmatched_prefix by now apply no_click_unmatched.
  now rewrite process_nil, app_nil_r.
Qed.

End Scan.

Lemma has_click_spec (s : pystr) : has_click s = false <-> no_click s.
Proof.
  induction s as [|c s IH]; simpl.
  - split; [| reflexivity].
    intros _ a b E. symmetry in E. apply app_eq_nil in E.
    destruct E as [_ ->]. reflexivity.
  - destruct (match_click (c :: s)) eqn:E.
    + split; [discriminate |]. intros H.
      rewrite (H [] (c :: s) eq_refl) in E. discriminate.
    + rewrite IH. split.
      * intros H a b Eab. destruct a as [|x a]; simpl in Eab.
        -- now subst b.
        -- inversion Eab; subst. now apply (H a).
      * intros H a b Eab. apply (H (c :: a)). now rewrite Eab.
Qed.

Lemma no_dquote_no_click (s : pystr) : ~ In dquote s -> no_click s.
Proof.
  intros H a b E. destruct (match_click b) as [[[g1 g2] rest]|] eqn:Em;
    [| reflexivity].
  exfalso. apply H. rewrite E. apply in_or_app. right.
  exact (click_at_dquote _ _ _ _ (match_click_elim _ _ _ _ Em)).
Qed.

(** *** [strip] *)

Lemma lstrip_spec (p : char -> bool) (s : pystr) :
  exists lead,
    s = lead ++ lstrip p s /\ forallb p lead = true
    /\ match lstrip p s with [] => True | c :: _ => p c = false end.
Proof.
  induction s as [|c s IH]; simpl.
  - now exists [].
  - destruct (p c) eqn:E.
    + destruct IH as (lead & Hs & Hl & Hh). exists (c :: lead). simpl.
      rewrite E. repeat split; [now f_equal | assumption | assumption].
    + exists []. simpl. auto.
Qed.

Lemma forallb_rev (p : char -> bool) (s : pystr) :
  forallb p (rev s) = forallb p s.
Proof.
  induction s as [|c s IH]; simpl; [reflexivity |].
  rewrite forallb_app, IH. simpl. rewrite andb_true_r. apply andb_comm.
Qed.

Lemma rstrip_spec (p : char -> bool) (s : pystr) :
  exists trail,
    s = rstrip p s ++ trail /\ forallb p trail = true
    /\ match rev (rstrip p s) with [] => True | c :: _ => p c = false end.
Proof.
  unfold rstrip. destruct (lstrip_spec p (rev s)) as (lead & Hs & Hl & Hh).
  exists (rev lead). rewrite rev_involutive, forallb_rev.
  repeat split; try assumption.
  rewrite <- rev_app_distr, <- Hs. now rewrite rev_involutive.
Qed.

(** [s.strip(chars)]: the characters taken off both ends are among
    [chars], and what is left neither starts nor ends with one. *)
Lemma strip_spec (p : char -> bool) (s : pystr) :
  exists lead trail,
    s = lead ++ strip p s ++ trail
    /\ forallb p lead = true /\ forallb p trail = true
    /\ match strip p s with [] => True | c :: _ => p c = false end
    /\ match rev (strip p s) with [] => True | c :: _ => p c = false end.
Proof.
  unfold strip.
  destruct (lstrip_spec p s) as (lead & Hs & Hl & Hh).
  destruct (rstrip_spec p (lstrip p s)) as (trail & Ht & Htl & Hth).
  exists lead, trail. repeat split; try assumption.
  - now rewrite <- Ht.
  - destruct (rstrip p (lstrip p s)) as [|c t] eqn:E; [exact I |].
    rewrite Ht in Hh. exact Hh.
Qed.

Lemma forallb_Forall (p : char -> bool) (P : char -> Prop) (s : pystr) :
  (forall c, In c s -> p c = true -> P c) ->
  forallb p s = true -> Forall P s.
Proof.
  intros H Hs. apply Forall_forall. intros c Hc.
  apply (H c Hc). rewrite forallb_forall in Hs. now apply Hs.
Qed.

Lemma char_in_quotes (c : char) :
  char_in [dquote; squote] c = true -> c = dquote \/ c = squote.
Proof.
  unfold char_in. cbn [existsb]. rewrite !orb_true_iff, !N.eqb_eq.
  intuition discriminate.
Qed.

Lemma path_char_spec (s : pystr) :
  forallb path_char s = true <-> ~ In dquote s.
Proof.
  rewrite forallb_forall. unfold path_char. split.
  - intros H Hin. specialize (H _ Hin). now rewrite N.eqb_refl in H.
  - intros H c Hc. apply negb_true_iff, N.eqb_neq. congruence.
Qed.

(** The path taken from the quoted text of a directive: the quoted text
    without the single quotes at its ends. *)
Lemma path_of_quoted (quoted : pystr) :
  ~ In dquote quoted ->
  let path := strip (char_in [dquote; squote]) quoted in
  exists lead trail,
    quoted = lead ++ path ++ trail
    /\ Forall (fun c => c = squote) lead
    /\ Forall (fun c => c = squote) trail
    /\ hd_error path <> Some squote
    /\ hd_error (rev path) <> Some squote.
Proof.
  intros Hq path.
  destruct (strip_spec (char_in [dquote; squote]) quoted)
    as (lead & trail & E & Hl & Ht & Hh & Hr).
  fold path in E, Hh, Hr. clearbody path. exists lead, trail.
  assert (Hsq : forall c, In c quoted ->
                          char_in [dquote; squote] c = true -> c = squote).
  { intros c Hc H. destruct (char_in_quotes c H); [congruence | assumption]. }
  split; [exact E |]. split; [| split; [| split]].
  - apply (forallb_Forall (char_in [dquote; squote])); [| exact Hl].
    intros c Hc. apply Hsq. rewrite E. apply in_or_app. now left.
  - apply (forallb_Forall (char_in [dquote; squote])); [| exact Ht].
    intros c Hc. apply Hsq. rewrite E. apply in_or_app. right.
    apply in_or_app. now right.
  - destruct path as [|c t]; [discriminate |]. simpl.
    intros H. inversion H; subst. discriminate.
  - destruct (rev path) as [|c t]; [discriminate |]. simpl.
    intros H. inversion H; subst. discriminate.
Qed.

(** No directive starts inside [pre], decided. *)
Lemma unmatched_prefix_nil (s : pystr) : unmatched_prefix [] s.
Proof.
  intros a b E Hb. symmetry in E. apply app_eq_nil in E. tauto.
Qed.

Lemma unmatched_prefix_step (c : char) (pre s : pystr) :
  match_click (c :: pre ++ s) = None ->
  unmatched_prefix pre s -> unmatched_prefix (c :: pre) s.
Proof.
  intros Hc H a b E Hb. destruct a as [|x a]; simpl in E.
  - subst b. exact Hc.
  - inversion E; subst. now apply (H a).
Qed.

(** ** The link rewriter *)

(** C3, as amended: a click directive the scan reaches (no other directive
    starts in the text [pre] before it) is replaced by [click], its
    identifier, one space and, between double quotes, the URL
    [https://github.com/<owner>/<repo>/<kind>/<branch>/<path>], where
    [<path>] is the quoted text without the single quotes at its two ends,
    and [<kind>] is [blob] exactly when the final segment of [<path>]
    (what follows its last slash) has a dot, [tree] otherwise; the scan
    goes on after the directive. *)
Theorem C3_directive_rewritten_to_url :
  forall (username repo branch pre ident ws quoted rest : pystr),
    ident <> [] -> forallb ident_char ident = true ->
    ws <> [] -> forallb isspace ws = true ->
    quoted <> [] -> ~ In dquote quoted ->
    unmatched_prefix
      pre (py "click " ++ ident ++ ws ++ [dquote] ++ quoted
              ++ [dquote] ++ rest) ->
    let path := strip (char_in [dquote; squote]) quoted in
    let segment := last (split slash path) [] in
    let kind := if contains [dot] segment then py "blob" else py "tree" in
    process_click_events
      username repo branch
      (pre ++ py "click " ++ ident ++ ws ++ [dquote] ++ quoted
           ++ [dquote] ++ rest)
    = pre ++ py "click " ++ ident ++ py " " ++ [dquote]
          ++ py "https://github.com/" ++ username ++ [slash] ++ repo
          ++ [slash] ++ kind ++ [slash] ++ branch ++ [slash] ++ path
          ++ [dquote]
          ++ process_click_events username repo branch rest
    /\ (kind = py "blob" <-> In dot segment)
    /\ (kind = py "tree" <-> ~ In dot segment)
    /\ (exists dir, path = dir ++ segment /\ ~ In slash segment
                    /\ (dir = [] \/ exists d, dir = d ++ [slash]))
    /\ (exists lead trail,
           quoted = lead ++ path ++ trail
           /\ Forall (fun c => c = squote) lead
           /\ Forall (fun c => c = squote) trail
           /\ hd_error path <> Some squote
           /\ hd_error (rev path) <> Some squote).
Proof.
  intros username repo branch pre ident ws quoted rest
         Hi Hic Hw Hwc Hq Hqc Hpre path segment kind.
  split; [| split; [| split; [| split]]].
  - rewrite process_unmatched_prefix by exact Hpre. f_equal.
    rewrite (process_match username repo branch _ ident quoted rest).
    + unfold replace_path. fold path. fold segment. fold kind.
      repeat rewrite <- app_assoc. reflexivity.
    + apply match_click_intro. exists ws.
      rewrite path_char_spec. repeat split; assumption.
  - unfold kind. rewrite <- contains_char.
    destruct (contains [dot] segment); split; intros H;
      try reflexivity; try discriminate H.
  - unfold kind. rewrite <- contains_char.
    destruct (contains [dot] segment); split; intros H;
      try reflexivity; try discriminate H; try congruence.
  - exact (split_last slash path).
  - exact (path_of_quoted quoted Hqc).
Qed.

(** C4, as amended: only a path between double quotes makes a directive.
    A text without any double quote, so any text whose directives are
    written with single quotes, is returned unchanged. *)
Theorem C4_single_quoted_left_unchanged :
  forall (username repo branch text : pystr),
    ~ In dquote text ->
    process_click_events username repo branch text = text
    /\ has_click text = false.
Proof.
  intros username repo branch text H.
  pose proof (no_dquote_no_click text H) as Hno. split.
  - now apply process_no_click.
  - now apply has_click_spec.
Qed.

(** C7, as amended: a stretch of text in which no directive starts is
    copied as it is, and the scan goes on after it; so a text in which no
    directive starts at all is returned unchanged.  (A directive may run
    over several lines, so the statement is about stretches of text, not
    about lines.) *)
Theorem C7_unmatched_text_untouched :
  forall (username repo branch pre s : pystr),
    unmatched_prefix pre s ->
    process_click_events username repo branch (pre ++ s)
    = pre ++ process_click_events username repo branch s
    /\ (s = [] -> process_click_events username repo branch pre = pre).
Proof.
  intros username repo branch pre s H. split.
  - now apply process_unmatched_prefix.
  - intros ->. rewrite <- (app_nil_r pre) at 1.
    rewrite process_unmatched_prefix by exact H.
    now rewrite process_nil, app_nil_r.
Qed.

(** ** The generation engine *)

(** The temperature of the two requests, by the effort. *)
Lemma payload_temperature
      (self_model : pystr)
      (format_user_message : list (pystr * pystr) -> pystr)
      (system_prompt : pystr) (data : list (pystr * pystr))
      (reasoning_effort : pystr) :
  temperature
    (OllamaService.call_o3_api_payload
       self_model format_user_message system_prompt data reasoning_effort)
  = OllamaService.temperature_for reasoning_effort
  /\ temperature
       (OllamaService.call_o3_api_stream_payload
          self_model format_user_message system_prompt data
          reasoning_effort)
     = OllamaService.temperature_for reasoning_effort.
Proof. split; reflexivity. Qed.

Lemma temperature_for_table (reasoning_effort : pystr) :
  (reasoning_effort = py "low" ->
   OllamaService.temperature_for reasoning_effort = 0.1%Q)
  /\ (reasoning_effort = py "medium" ->
      OllamaService.temperature_for reasoning_effort = 0.5%Q)
  /\ (reasoning_effort = py "high" ->
      OllamaService.temperature_for reasoning_effort = 0.9%Q)
  /\ (reasoning_effort <> py "low" -> reasoning_effort <> py "medium" ->
      reasoning_effort <> py "high" ->
      OllamaService.temperature_for reasoning_effort = 0.1%Q).
Proof.
  unfold OllamaService.temperature_for. cbn [table_get].
  repeat split.
  - intros ->. reflexivity.
  - intros ->. reflexivity.
  - intros ->. reflexivity.
  - intros Hl Hm Hh.
    apply str_eqb_neq in Hl, Hm, Hh. now rewrite Hl, Hm, Hh.
Qed.

(** C9: the blocking call and the streaming call each post a request
    whose temperature [t] is 0.1 for the effort [low], 0.5 for [medium],
    0.9 for [high], and 0.1 for any other effort.  For each of the two
    calls: its outcome is decided by what the endpoint answers to the
    requests of the temperature [t], and what the endpoint raises for
    these requests is what the call raises (the streaming call before
    any fragment, an [aiohttp.ClientError] as a [ValueError]). *)
Theorem C9_effort_to_temperature :
  forall (base_url self_model : pystr)
         (format_user_message : list (pystr * pystr) -> pystr)
         (json_loads : pystr -> res json)
         (system_prompt : pystr) (data : list (pystr * pystr))
         (api_key : option pystr) (reasoning_effort : pystr) (t : Q),
    (reasoning_effort = py "low" /\ t = 0.1%Q)
    \/ (reasoning_effort = py "medium" /\ t = 0.5%Q)
    \/ (reasoning_effort = py "high" /\ t = 0.9%Q)
    \/ (reasoning_effort <> py "low" /\ reasoning_effort <> py "medium"
        /\ reasoning_effort <> py "high" /\ t = 0.1%Q) ->
    (forall requests_post requests_post' : pystr -> payload -> res reply,
        (forall url p,
            temperature p = t ->
            requests_post url p = requests_post' url p) ->
        OllamaService.call_o3_api
          base_url self_model format_user_message requests_post
          system_prompt data api_key reasoning_effort
        = OllamaService.call_o3_api
            base_url self_model format_user_message requests_post'
            system_prompt data api_key reasoning_effort)
    /\ (forall (requests_post : pystr -> payload -> res reply) (e : exn),
           (forall url p,
               temperature p = t -> requests_post url p = Raise e) ->
           OllamaService.call_o3_api
             base_url self_model format_user_message requests_post
             system_prompt data api_key reasoning_effort
           = Raise e)
    /\ (forall session_post session_post'
                : pystr -> payload -> res response,
           (forall url p,
               temperature p = t ->
               session_post url p = session_post' url p) ->
           OllamaService.call_o3_api_stream
             base_url self_model format_user_message json_loads
             session_post system_prompt data api_key reasoning_effort
           = OllamaService.call_o3_api_stream
               base_url self_model format_user_message json_loads
               session_post' system_prompt data api_key reasoning_effort)
    /\ (forall (session_post : pystr -> payload -> res response)
               (e : exn),
           (forall url p,
               temperature p = t -> session_post url p = Raise e) ->
           OllamaService.call_o3_api_stream
             base_url self_model format_user_message json_loads
             session_post system_prompt data api_key reasoning_effort
           = ([], Raise (reraised e))).
Proof.
  intros base_url self_model fmt loads system_prompt data api_key effort t
         Htable.
  assert (Ht : OllamaService.temperature_for effort = t).
  { destruct (temperature_for_table effort) as (Hl & Hm & Hh & Ho).
    destruct Htable as [[E ->] | [[E ->] | [[E ->] | (E1 & E2 & E3 & ->)]]];
      auto. }
  subst t.
  destruct (payload_temperature self_model fmt system_prompt data effort)
    as [Honce Hstream].
  split; [| split; [| split]].
  - intros post post' H. unfold OllamaService.call_o3_api.
    now rewrite (H _ _ Honce).
  - intros post e H. unfold OllamaService.call_o3_api.
    now rewrite (H _ _ Honce).
  - intros post post' H. unfold OllamaService.call_o3_api_stream.
    now rewrite (H _ _ Hstream).
  - intros post e H. unfold OllamaService.call_o3_api_stream.
    rewrite (H _ _ Hstream).
    cbn [call bind try_except app]. unfold reraised.
    destruct (is_class ClientError e); reflexivity.
Qed.

Lemma bind_ok {Y A B} (ys : list Y) (a : A) (k : A -> Gen Y B) :
  bind (ys, Ok a) k = (ys ++ fst (k a), snd (k a)).
Proof. unfold bind. now destruct (k a). Qed.

Section Stream.

Variable json_loads : pystr -> res json.

(** What one line contributes when the stream survives it. *)
Lemma stream_line_survivable (n : N) (l : raw_line) :
  survivable json_loads l ->
  exists n',
    OllamaService.stream_line json_loads n l
    = (fragments_of_line json_loads l, Ok n').
Proof.
  unfold survivable, fragments_of_line, OllamaService.stream_line.
  destruct l as [s | e]; [| tauto]. cbn [decode_utf8 call bind app].
  destruct (strip isspace s) as [|c line] eqn:Es.
  - intros _. now exists n.
  - destruct (json_loads (c :: line)) as [v | e] eqn:Ej.
    + destruct v as [| | | | | |d]; try tauto. intros _.
      cbn [call bind py_get try_except app filter].
      destruct (truthy (dict_get (py "response") d (JStr [])));
        now exists (n + 1)%N.
    + intros He. cbn [call bind try_except app]. rewrite He.
      now exists (n + 1)%N.
Qed.

(** What a line that is not survivable does. *)
Lemma stream_line_fatal (n : N) (l : raw_line) (e : exn) :
  fatal json_loads l e ->
  OllamaService.stream_line json_loads n l = ([], Raise e).
Proof.
  unfold fatal, OllamaService.stream_line.
  destruct l as [s | e']; [| now intros ->]. cbn [decode_utf8 call bind app].
  destruct (strip isspace s) as [|c line] eqn:Es; [tauto |].
  destruct (json_loads (c :: line)) as [v | e'] eqn:Ej.
  - destruct v; try tauto; intros H; cbn [call bind try_except app];
      rewrite H; cbn [call bind try_except app];
      unfold py_get in H; inversion H; subst; reflexivity.
  - intros [He ->]. cbn [call bind try_except app]. now rewrite He.
Qed.

Lemma survivable_or_fatal (l : raw_line) :
  survivable json_loads l \/ exists e, fatal json_loads l e.
Proof.
  unfold survivable, fatal. destruct l as [s | e]; [| right; now exists e].
  destruct (strip isspace s) as [|c line]; [now left |].
  destruct (json_loads (c :: line)) as [v | e].
  - destruct v; try (now left); right; eexists; reflexivity.
  - destruct (is_class JSONDecodeError e) eqn:E; [now left |].
    right. now exists e.
Qed.

Lemma stream_lines_survivable (lines : list raw_line) (ending : res unit)
      (n : N) :
  Forall (survivable json_loads) lines ->
  exists n',
    for_items lines ending (OllamaService.stream_line json_loads) n
    = (flat_map (fragments_of_line json_loads) lines,
       match ending with Ok _ => Ok n' | Raise e => Raise e end).
Proof.
  intros H. revert n. induction H as [|l lines Hl _ IH]; intros n.
  - simpl. exists n. now destruct ending.
  - destruct (stream_line_survivable n l Hl) as (n1 & E1).
    destruct (IH n1) as (n' & E). exists n'.
    cbn [for_items flat_map]. rewrite E1, bind_ok, E. reflexivity.
Qed.

Lemma stream_lines_fatal (l1 : list raw_line) (bad : raw_line)
      (l2 : list raw_line) (e : exn) (ending : res unit) (n : N) :
  Forall (survivable json_loads) l1 ->
  fatal json_loads bad e ->
  for_items (l1 ++ bad :: l2) ending (OllamaService.stream_line json_loads) n
  = (flat_map (fragments_of_line json_loads) l1, Raise e).
Proof.
  intros H Hbad. revert n. induction H as [|l lines Hl _ IH]; intros n.
  - cbn [app for_items flat_map].
    now rewrite (stream_line_fatal n bad e Hbad).
  - destruct (stream_line_survivable n l Hl) as (n1 & E1).
    cbn [app for_items flat_map]. rewrite E1, bind_ok, (IH n1).
    reflexivity.
Qed.

(** The lines before the first one the stream does not survive. *)
Lemma first_fatal (lines : list raw_line) :
  Forall (survivable json_loads) lines
  \/ exists l1 bad l2 e,
       lines = l1 ++ bad :: l2
       /\ Forall (survivable json_loads) l1 /\ fatal json_loads bad e.
Proof.
  induction lines as [|l lines IH]; [left; constructor |].
  destruct (survivable_or_fatal l) as [Hl | (e & He)].
  - destruct IH as [IH | (l1 & bad & l2 & e & -> & H1 & Hb)].
    + left. now constructor.
    + right. exists (l :: l1), bad, l2, e. repeat split; auto.
  - right. exists [], l, lines, e. repeat split; auto.
Qed.

Lemma fragments_truthy (lines : list raw_line) :
  Forall (fun v => truthy v = true)
         (flat_map (fragments_of_line json_loads) lines).
Proof.
  apply Forall_forall. intros v Hv. apply in_flat_map in Hv.
  destruct Hv as (l & _ & Hv). unfold fragments_of_line in Hv.
  destruct l as [s | e]; [| destruct Hv].
  destruct (strip isspace s); [destruct Hv |].
  destruct (json_loads (c :: p)) as [[]|]; try destruct Hv.
  apply filter_In in Hv. tauto.
Qed.

End Stream.

(** C8, as amended: a line that is blank after [strip], or that fails to
    parse as JSON, is skipped; a line that parses to an object yields the
    value of its [response] member when that value is truthy, and nothing
    otherwise; so as long as every line is of these kinds the fragments
    yielded are the truthy [response] values of the lines, in order, and
    the stream ends normally.  A line that is not UTF-8, or that parses to
    a JSON value that is not an object, or on which the decoder raises
    anything but [JSONDecodeError], ends the stream with that exception,
    after the fragments of the lines before it.  In all cases every
    fragment yielded is truthy. *)
Theorem C8_stream_fragments :
  forall (base_url self_model : pystr)
         (format_user_message : list (pystr * pystr) -> pystr)
         (json_loads : pystr -> res json)
         (session_post : pystr -> payload -> res response)
         (system_prompt : pystr) (data : list (pystr * pystr))
         (api_key : option pystr) (reasoning_effort : pystr)
         (answer : response) (lines : list raw_line),
    session_post
      (base_url ++ py "/api/generate")
      (OllamaService.call_o3_api_stream_payload
         self_model format_user_message system_prompt data reasoning_effort)
    = Ok answer ->
    status answer = 200%Z ->
    content answer = (lines, Ok tt) ->
    let fragments :=
      OllamaService.call_o3_api_stream
        base_url self_model format_user_message json_loads session_post
        system_prompt data api_key reasoning_effort in
    Forall (fun v => truthy v = true) (yielded fragments)
    /\ (Forall (survivable json_loads) lines ->
        fragments = (flat_map (fragments_of_line json_loads) lines, Ok tt))
    /\ (forall l1 bad l2 e,
           lines = l1 ++ bad :: l2 ->
           Forall (survivable json_loads) l1 ->
           fatal json_loads bad e ->
           fragments = (flat_map (fragments_of_line json_loads) l1,
                        Raise (reraised e))).
Proof.
  intros base_url self_model fmt json_loads session_post system_prompt data
         api_key effort answer lines Hpost Hstatus Hcontent fragments.
  assert (Hsurv : Forall (survivable json_loads) lines ->
                  fragments
                  = (flat_map (fragments_of_line json_loads) lines, Ok tt)).
  { intros H. unfold fragments, OllamaService.call_o3_api_stream.
    rewrite Hpost. cbn [call bind app]. rewrite Hstatus.
    change (200 =? 200)%Z with true. cbn [negb].
    unfold for_each. rewrite Hcontent. cbn [fst snd].
    destruct (stream_lines_survivable json_loads lines (Ok tt) 0%N H)
      as (n' & ->).
    cbn [bind ret app try_except]. now rewrite app_nil_r. }
  assert (Hfatal : forall l1 bad l2 e,
             lines = l1 ++ bad :: l2 ->
             Forall (survivable json_loads) l1 ->
             fatal json_loads bad e ->
             fragments = (flat_map (fragments_of_line json_loads) l1,
                          Raise (reraised e))).
  { intros l1 bad l2 e E H1 Hb.
    unfold fragments, OllamaService.call_o3_api_stream.
    rewrite Hpost. cbn [call bind app]. rewrite Hstatus.
    change (200 =? 200)%Z with true. cbn [negb].
    unfold for_each. rewrite Hcontent, E. cbn [fst snd].
    rewrite (stream_lines_fatal json_loads l1 bad l2 e (Ok tt) 0%N H1 Hb).
    cbn [bind try_except]. unfold reraised.
    destruct (is_class ClientError e); [| reflexivity].
    cbn [raise]. now rewrite app_nil_r. }
  split; [| split; assumption].
  destruct (first_fatal json_loads lines)
    as [H | (l1 & bad & l2 & e & E & H1 & Hb)].
  - rewrite (Hsurv H). apply fragments_truthy.
  - rewrite (Hfatal l1 bad l2 e E H1 Hb). apply fragments_truthy.
Qed.

(** ** The shape of a run *)

Lemma tag_is_eq (tag : pystr) (name : string) :
  tag_is tag name = true -> tag = py name.
Proof. apply str_eqb_eq. Qed.

Lemma run_step_kinds (st st' : run_state) (tag : pystr) :
  run_step st tag = Some st' -> st <> Init ->
  (st' = Terminated /\ (tag = py "error" \/ tag = py "complete"))
  \/ (st' <> Terminated /\ st' <> Init
      /\ In tag [py "explanation_sent"; py "explanation_chunk";
                 py "mapping"; py "mapping_chunk"; py "diagram";
                 py "diagram_chunk"]).
Proof.
  intros H Hst. destruct st; try congruence; unfold run_step in H;
    repeat match type of H with
      | (if tag_is ?t ?n then _ else _) = _ =>
          let E := fresh "E" in
          destruct (tag_is t n) eqn:E; [apply tag_is_eq in E |]
      end;
    try discriminate; inversion H; subst st'; subst tag;
    try (left; split; [reflexivity | tauto]);
    right; (split; [discriminate | split; [discriminate |]]);
    cbn [In]; tauto.
Qed.

Lemma run_from_terminated (evs : list event) :
  run_from Terminated evs = true -> evs = [].
Proof. destruct evs; [reflexivity | discriminate]. Qed.

Lemma run_from_sound (evs : list event) (st : run_state) :
  st <> Init -> st <> Terminated -> run_from st evs = true ->
  exists mid last,
    evs = mid ++ [last] /\ is_terminal last = true
    /\ Forall (fun ev => is_terminal ev = false
                         /\ event_tag ev <> py "started") mid.
Proof.
  revert st; induction evs as [|ev rest IH]; intros st Hi Ht H.
  - destruct st; simpl in H; congruence.
  - cbn [run_from] in H.
    destruct (run_step st (event_tag ev)) as [st'|] eqn:Es; [| discriminate].
    destruct (run_step_kinds _ _ _ Es Hi) as [[-> Htag] | (Ht' & Hi' & Htag)].
    + apply run_from_terminated in H. subst rest. exists [], ev.
      split; [reflexivity |]. split; [| constructor].
      unfold is_terminal. destruct Htag as [-> | ->]; reflexivity.
    + destruct (IH st' Hi' Ht' H) as (mid & last & -> & Hl & Hm).
      exists (ev :: mid), last. split; [reflexivity |].
      split; [assumption |]. constructor; [| assumption].
      unfold is_terminal. cbn [In] in Htag.
      repeat (destruct Htag as [<- | Htag]; [split; [reflexivity | discriminate] |]).
      destruct Htag.
Qed.

(** A well-formed run has one [started] event, its first; one terminal
    event, its last; and neither kind in between. *)
Lemma well_formed_run_sound (evs : list event) :
  well_formed_run evs = true ->
  exists first mid last,
    evs = first :: mid ++ [last]
    /\ event_tag first = py "started"
    /\ is_terminal last = true
    /\ Forall (fun ev => is_terminal ev = false
                         /\ event_tag ev <> py "started") mid.
Proof.
  unfold well_formed_run. destruct evs as [|first rest]; [discriminate |].
  cbn [run_from run_step].
  destruct (tag_is (event_tag first) "started") eqn:E; [| discriminate].
  apply tag_is_eq in E. intros H.
  destruct (run_from_sound rest Started) as (mid & last & -> & Hl & Hm);
    try discriminate; try assumption.
  now exists first, mid, last.
Qed.

Lemma run_from_chunks (st : run_state) (status : string)
      (ss : list pystr) (rest : list event) :
  run_step st (py status) = Some st ->
  run_from st (map (status_chunk status) ss ++ rest) = run_from st rest.
Proof.
  intros H. induction ss as [|s ss IH]; [reflexivity |].
  cbn [map app run_from].
  change (event_tag (status_chunk status s)) with (py status).
  now rewrite H.
Qed.

(** ** The phases of the generator *)

Lemma relay_strs (status : string) (fs : list pystr) (ending : res unit)
      (acc : pystr) :
  for_items (map JStr fs) ending (relay_chunk status) acc
  = (map (status_chunk status) fs,
     match ending with
     | Ok _ => Ok (acc ++ List.concat fs)
     | Raise e => Raise e
     end).
Proof.
  revert acc; induction fs as [|f fs IH]; intros acc.
  - simpl. rewrite app_nil_r. now destruct ending.
  - cbn [map for_items]. unfold relay_chunk at 1.
    cbn [str_iadd call bind yield ret app chunk_text].
    rewrite IH. cbn [List.concat]. rewrite app_assoc. reflexivity.
Qed.

Lemma relay_of_strs (status : string) (fs : list pystr) (ending : res unit) :
  relay status (map JStr fs, ending)
  = (map (status_chunk status) fs,
     match ending with
     | Ok _ => Ok (List.concat fs)
     | Raise e => Raise e
     end).
Proof. unfold relay, for_each. cbn [fst snd]. apply relay_strs. Qed.

(** Whatever the engine yields, a phase passes on chunk events only. *)
Lemma relay_items_shape (status : string) (items : list json)
      (ending : res unit) (acc : pystr) :
  exists ss r,
    for_items items ending (relay_chunk status) acc
    = (map (status_chunk status) ss, r).
Proof.
  revert acc; induction items as [|v items IH]; intros acc.
  - exists []. simpl. destruct ending; eexists; reflexivity.
  - cbn [for_items]. unfold relay_chunk at 1.
    destruct v; cbn [str_iadd call bind yield ret app chunk_text];
      try (exists []; eexists; reflexivity).
    destruct (IH (acc ++ s)) as (ss & r & ->). exists (s :: ss), r.
    reflexivity.
Qed.

Lemma relay_shape (status : string) (chunks : Gen json unit) :
  exists ss r, relay status chunks = (map (status_chunk status) ss, r).
Proof. unfold relay, for_each. apply relay_items_shape. Qed.

(** ** The handler and its generator *)

Section RouterProperties.

Variables SYSTEM_FIRST_PROMPT SYSTEM_SECOND_PROMPT SYSTEM_THIRD_PROMPT
          ADDITIONAL_SYSTEM_INSTRUCTIONS_PROMPT : pystr.
Variable get_default_branch :
  option pystr -> pystr -> pystr -> res (option pystr).
Variable get_github_file_paths_as_list :
  option pystr -> pystr -> pystr -> res pystr.
Variable get_github_readme :
  option pystr -> pystr -> pystr -> res pystr.
Variable llm_service_call_o3_api_stream :
  pystr -> list (pystr * pystr) -> option pystr -> pystr -> Gen json unit.

Local Notation "'fetch' body" :=
  (get_cached_github_data
     get_default_branch get_github_file_paths_as_list get_github_readme
     (username body) (repo body) (github_pat body))
  (at level 10, body at level 9, only parsing).

Local Notation "'generator'" :=
  (event_generator
     SYSTEM_FIRST_PROMPT SYSTEM_SECOND_PROMPT SYSTEM_THIRD_PROMPT
     ADDITIONAL_SYSTEM_INSTRUCTIONS_PROMPT
     get_default_branch get_github_file_paths_as_list get_github_readme
     llm_service_call_o3_api_stream) (only parsing).

Local Notation "'handler'" :=
  (generate_stream
     SYSTEM_FIRST_PROMPT SYSTEM_SECOND_PROMPT SYSTEM_THIRD_PROMPT
     ADDITIONAL_SYSTEM_INSTRUCTIONS_PROMPT
     get_default_branch get_github_file_paths_as_list get_github_readme
     llm_service_call_o3_api_stream) (only parsing).

Local Notation "'phase1'" :=
  (explanation_stream SYSTEM_FIRST_PROMPT
                      ADDITIONAL_SYSTEM_INSTRUCTIONS_PROMPT
                      llm_service_call_o3_api_stream) (only parsing).
Local Notation "'phase2'" :=
  (mapping_stream SYSTEM_SECOND_PROMPT llm_service_call_o3_api_stream)
  (only parsing).
Local Notation "'phase3'" :=
  (diagram_stream SYSTEM_THIRD_PROMPT ADDITIONAL_SYSTEM_INSTRUCTIONS_PROMPT
                  llm_service_call_o3_api_stream) (only parsing).

Local Notation "'started'" :=
  (status_message "started" "Starting generation process...")
  (only parsing).
Local Notation "'explanation_sent'" :=
  (status_message "explanation_sent" "Analyzing repository structure...")
  (only parsing).
Local Notation "'mapping'" :=
  (status_message "mapping" "Creating component mapping...") (only parsing).
Local Notation "'diagram'" :=
  (status_message "diagram" "Generating diagram...") (only parsing).
Local Notation "'aborted'" :=
  (error_event (py "Invalid or unclear instructions provided"))
  (only parsing).

(** The generator, phase by phase. *)
Lemma generator_fetch_fails (body : ApiRequest) (e : exn) :
  fetch body = Raise e ->
  generator body = ([error_event (exn_str e)], Ok tt).
Proof.
  unfold event_generator. intros ->. reflexivity.
Qed.

Lemma generator_phases (body : ApiRequest) (data : github_data) :
  fetch body = Ok data ->
  generator body =
  match relay "explanation_chunk" (phase1 body data) with
  | (evs1, Raise e) =>
      (started :: explanation_sent :: evs1 ++ [error_event (exn_str e)],
       Ok tt)
  | (evs1, Ok explanation) =>
      if contains (py "BAD_INSTRUCTIONS") explanation then
        (started :: explanation_sent :: evs1 ++ [aborted], Ok tt)
      else
        match relay "mapping_chunk" (phase2 body data explanation) with
        | (evs2, Raise e) =>
            (started :: explanation_sent :: evs1 ++ mapping :: evs2
                     ++ [error_event (exn_str e)], Ok tt)
        | (evs2, Ok full_second_response) =>
            match relay "diagram_chunk"
                        (phase3 body explanation full_second_response) with
            | (evs3, Raise e) =>
                (started :: explanation_sent :: evs1 ++ mapping :: evs2
                         ++ diagram :: evs3 ++ [error_event (exn_str e)],
                 Ok tt)
            | (evs3, Ok mermaid_code) =>
                (started :: explanation_sent :: evs1 ++ mapping :: evs2
                         ++ diagram :: evs3
                         ++ [complete_event
                               (process_click_events
                                  (username body) (repo body)
                                  (default_branch data) mermaid_code)],
                 Ok tt)
            end
        end
  end.
Proof.
  unfold event_generator. intros ->.
  cbn [call bind yield app].
  change (llm_service_call_o3_api_stream _ _ _ _) with (phase1 body data) at 1.
  destruct (relay "explanation_chunk" (phase1 body data))
    as [evs1 [explanation | e]];
    [| cbn [bind try_except yield app]; now rewrite ?app_nil_r].
  cbn [bind].
  destruct (contains (py "BAD_INSTRUCTIONS") explanation).
  { cbn [bind try_except yield app]. now rewrite ?app_nil_r. }
  cbn [call bind yield app].
  change (llm_service_call_o3_api_stream _ _ _ _)
    with (phase2 body data explanation) at 1.
  destruct (relay "mapping_chunk" (phase2 body data explanation))
    as [evs2 [full_second_response | e]];
    [| cbn [bind try_except yield app];
       rewrite ?app_nil_r, <- ?app_assoc; reflexivity].
  cbn [call bind yield app].
  change (llm_service_call_o3_api_stream _ _ _ _)
    with (phase3 body explanation full_second_response) at 1.
  destruct (relay "diagram_chunk"
                  (phase3 body explanation full_second_response))
    as [evs3 [mermaid_code | e]];
    cbn [bind try_except yield app];
    rewrite ?app_nil_r, <- ?app_assoc; cbn [app];
    rewrite <- ?app_assoc; reflexivity.
Qed.

Lemma run_opening (rest : list event) :
  well_formed_run (started :: explanation_sent :: rest)
  = run_from Phase1 rest.
Proof. reflexivity. Qed.

Lemma run_mapping (rest : list event) :
  run_from Phase1 (mapping :: rest) = run_from Phase2 rest.
Proof. reflexivity. Qed.

Lemma run_diagram (rest : list event) :
  run_from Phase2 (diagram :: rest) = run_from Phase3 rest.
Proof. reflexivity. Qed.

Lemma chunk_not_after_explanation (fs : list pystr) :
  Forall (fun ev => after_explanation ev = false)
         (map (status_chunk "explanation_chunk") fs).
Proof. apply Forall_forall. intros ev H. apply in_map_iff in H.
       destruct H as (f & <- & _). reflexivity. Qed.

Lemma chunk_not_after_mapping (status : string) (fs : list pystr) :
  after_mapping (status_chunk status []) = false ->
  Forall (fun ev => after_mapping ev = false)
         (map (status_chunk status) fs).
Proof. intros Hs. apply Forall_forall. intros ev H. apply in_map_iff in H.
       destruct H as (f & <- & _). exact Hs. Qed.

(** C1, as amended: when the metadata is found, the first phase ends
    normally and the fragments it gave, put together, contain
    [BAD_INSTRUCTIONS], the events are [started], [explanation_sent], one
    [explanation_chunk] for each fragment, and last an error record with
    the text [Invalid or unclear instructions provided]: a record of the
    kind a failure gives, told from one by its text only.  No event of the
    second or third phase is among them, and the generator returns. *)
Theorem C1_sentinel_ends_with_error_record :
  forall (body : ApiRequest) (data : github_data) (fs : list pystr),
    fetch body = Ok data ->
    phase1 body data = (map JStr fs, Ok tt) ->
    (exists a b, List.concat fs = a ++ py "BAD_INSTRUCTIONS" ++ b) ->
    generator body
    = (started :: explanation_sent
         :: map (status_chunk "explanation_chunk") fs ++ [aborted],
       Ok tt)
    /\ is_error_record aborted = true
    /\ Forall (fun ev => after_explanation ev = false)
              (yielded (generator body)).
Proof.
  intros body data fs Hfetch H1 Hbad.
  assert (E : generator body
              = (started :: explanation_sent
                   :: map (status_chunk "explanation_chunk") fs ++ [aborted],
                 Ok tt)).
  { rewrite (generator_phases body data Hfetch), H1, relay_of_strs.
    apply contains_spec in Hbad. now rewrite Hbad. }
  split; [exact E |]. split; [reflexivity |].
  rewrite E. unfold yielded. cbn [fst].
  repeat (constructor; [reflexivity |]).
  apply Forall_app. split; [apply chunk_not_after_explanation |].
  repeat constructor.
Qed.

(** C5: when the metadata is found, the first phase ends normally without
    the sentinel, and the engine raises [e] in the second phase after
    the fragments [fs2], the events are [started], [explanation_sent], the
    chunks of the explanation, [mapping], one [mapping_chunk] for each
    fragment received, and last the error record of [e]; no event of the
    third phase is among them, and all that was sent before the failure is
    still there. *)
Theorem C5_failure_in_mapping_phase :
  forall (body : ApiRequest) (data : github_data) (fs1 fs2 : list pystr)
         (e : exn),
    fetch body = Ok data ->
    phase1 body data = (map JStr fs1, Ok tt) ->
    contains (py "BAD_INSTRUCTIONS") (List.concat fs1) = false ->
    phase2 body data (List.concat fs1) = (map JStr fs2, Raise e) ->
    generator body
    = (started :: explanation_sent
         :: map (status_chunk "explanation_chunk") fs1
         ++ mapping :: map (status_chunk "mapping_chunk") fs2
         ++ [error_event (exn_str e)],
       Ok tt)
    /\ Forall (fun ev => after_mapping ev = false)
              (yielded (generator body)).
Proof.
  intros body data fs1 fs2 e Hfetch H1 Hclean H2.
  assert (E : generator body
              = (started :: explanation_sent
                   :: map (status_chunk "explanation_chunk") fs1
                   ++ mapping :: map (status_chunk "mapping_chunk") fs2
                   ++ [error_event (exn_str e)],
                 Ok tt)).
  { rewrite (generator_phases body data Hfetch), H1, relay_of_strs.
    rewrite Hclean, H2, relay_of_strs. reflexivity. }
  split; [exact E |]. rewrite E. unfold yielded. cbn [fst].
  repeat (constructor; [reflexivity |]).
  apply Forall_app. split; [now apply chunk_not_after_mapping |].
  constructor; [reflexivity |].
  apply Forall_app. split; [now apply chunk_not_after_mapping |].
  repeat constructor.
Qed.

(** C6, as amended: for a request that passes validation the generator
    always returns.  When the metadata fetch raises, the only event is the
    error record of that exception, and there is no [started] event.  When
    the metadata is found, the events are a well-formed run: [started]
    first and once, then the phases in order ([explanation_sent] and its
    chunks, [mapping] and its chunks, [diagram] and its chunks), ended by
    exactly one terminal event, an error record (sentinel or failure) or
    [complete], after which nothing follows. *)
Theorem C6_event_stream_shape :
  forall (body : ApiRequest) (events : Gen event unit),
    handler body = StreamingResponse events ->
    outcome events = Ok tt
    /\ ((exists e, fetch body = Raise e
                   /\ yielded events = [error_event (exn_str e)])
        \/ (exists data, fetch body = Ok data
                         /\ well_formed_run (yielded events) = true
                         /\ exists mid last,
                             yielded events = started :: mid ++ [last]
                             /\ is_terminal last = true
                             /\ Forall (fun ev =>
                                          is_terminal ev = false
                                          /\ event_tag ev <> py "started")
                                       mid)).
Proof.
  intros body events H. unfold generate_stream in H.
  destruct (1000 <? List.length (instructions body))%nat; [discriminate |].
  destruct (str_in (repo body) example_repos); [discriminate |].
  inversion H as [E]. clear H.
  destruct (fetch body) as [data | e] eqn:Hfetch.
  - assert (Hrun : outcome (generator body) = Ok tt
                   /\ well_formed_run (yielded (generator body)) = true).
    { rewrite (generator_phases body data Hfetch).
      destruct (relay_shape "explanation_chunk" (phase1 body data))
        as (ss1 & r1 & ->).
      unfold yielded, outcome.
      destruct r1 as [explanation | e];
        [| cbn [fst snd]; split; [reflexivity |];
           rewrite run_opening, run_from_chunks by reflexivity;
           reflexivity].
      destruct (contains (py "BAD_INSTRUCTIONS") explanation).
      { cbn [fst snd]. split; [reflexivity |].
        rewrite run_opening, run_from_chunks by reflexivity. reflexivity. }
      destruct (relay_shape "mapping_chunk" (phase2 body data explanation))
        as (ss2 & r2 & ->).
      destruct r2 as [full_second_response | e];
        [| cbn [fst snd]; split; [reflexivity |];
           rewrite run_opening, run_from_chunks by reflexivity;
           rewrite run_mapping, run_from_chunks by reflexivity;
           reflexivity].
      destruct (relay_shape "diagram_chunk"
                            (phase3 body explanation full_second_response))
        as (ss3 & r3 & ->).
      destruct r3 as [mermaid_code | e];
        cbn [fst snd]; (split; [reflexivity |]);
        rewrite run_opening, run_from_chunks by reflexivity;
        rewrite run_mapping, run_from_chunks by reflexivity;
        rewrite run_diagram, run_from_chunks by reflexivity;
        reflexivity. }
    destruct Hrun as [Hout Hrun]. split; [exact Hout |]. right.
    exists data. split; [reflexivity |]. split; [exact Hrun |].
    destruct (well_formed_run_sound _ Hrun)
      as (first & mid & last & Eev & Hfirst & Hlast & Hmid).
    exists mid, last. split; [| split; assumption].
    rewrite Eev. f_equal.
    rewrite (generator_phases body data Hfetch) in Eev.
    destruct (relay "explanation_chunk" (phase1 body data))
      as [evs1 [explanation | e]]; [| now inversion Eev].
    destruct (contains (py "BAD_INSTRUCTIONS") explanation);
      [now inversion Eev |].
    destruct (relay "mapping_chunk" (phase2 body data explanation))
      as [evs2 [full_second_response | e]]; [| now inversion Eev].
    destruct (relay "diagram_chunk"
                    (phase3 body explanation full_second_response))
      as [evs3 [mermaid_code | e]]; now inversion Eev.
  - rewrite (generator_fetch_fails body e Hfetch).
    split; [reflexivity |]. left. exists e. split; reflexivity.
Qed.

(** C2: a request whose instructions are longer than 1000 characters, and
    a request for one of the example repositories, gets a dict with the
    key [error] as its answer: no streaming response is made, so no event
    is sent, not even [started]. *)
Theorem C2_validation_before_any_event :
  forall (body : ApiRequest),
    (1000 < List.length (instructions body))%nat
    \/ In (repo body) example_repos ->
    (exists message, handler body = Body (error_event message))
    /\ (forall events, handler body <> StreamingResponse events)
    /\ events_of (handler body) = [].
Proof.
  intros body H.
  assert (E : exists message, handler body = Body (error_event message)).
  { unfold generate_stream.
    destruct (1000 <? List.length (instructions body))%nat eqn:Hlen;
      [eexists; reflexivity |].
    destruct H as [H | H]; [apply Nat.ltb_ge in Hlen; lia |].
    apply str_in_spec in H. rewrite H. eexists; reflexivity. }
  destruct E as (message & E). rewrite E.
  split; [now exists message |]. split; [discriminate | reflexivity].
Qed.

(** C10: the check of the example repositories reads the repository name
    only.  Whoever the owner is, a request for [fastapi], [streamlit],
    [flask], [api-analytics] or [monkeytype] is rejected; the answer is
    [Example repos cannot be regenerated] exactly when the name is one of
    the five and the instructions are not too long; and a request for any
    other name, with instructions of at most 1000 characters, is
    streamed. *)
Theorem C10_reserved_check_reads_repo_only :
  forall (owner name text : pystr) (key pat : option pystr),
    let body := {| username := owner; repo := name; instructions := text;
                   api_key := key; github_pat := pat |} in
    let reserved :=
      In name [py "fastapi"; py "streamlit"; py "flask";
               py "api-analytics"; py "monkeytype"] in
    (reserved -> exists message, handler body = Body (error_event message))
    /\ (handler body
        = Body (error_event (py "Example repos cannot be regenerated"))
        <-> reserved /\ (List.length text <= 1000)%nat)
    /\ (~ reserved -> (List.length text <= 1000)%nat ->
        handler body = StreamingResponse (generator body)).
Proof.
  intros owner name text key pat body reserved.
  unfold generate_stream. cbn [instructions repo body].
  change (In name example_repos) in (value of reserved).
  destruct (1000 <? List.length text)%nat eqn:Hlen.
  - apply Nat.ltb_lt in Hlen. split; [intros _; eexists; reflexivity |].
    split; [| lia]. split; [discriminate | lia].
  - apply Nat.ltb_ge in Hlen.
    destruct (str_in name example_repos) eqn:Hin.
    + apply str_in_spec in Hin. split; [intros _; eexists; reflexivity |].
      split; [| tauto]. split; [tauto | reflexivity].
    + assert (Hnot : ~ reserved).
      { unfold reserved. rewrite <- str_in_spec, Hin. discriminate. }
      split; [tauto |]. split; [| reflexivity].
      split; [discriminate | tauto].
Qed.

(** *** More on the generator and the handlers *)

Lemma relay_items_non_str (status : string) (fs : list pystr) (v : json)
      (rest : list json) (ending : res unit) (acc : pystr) :
  match v with JStr _ => False | _ => True end ->
  for_items (map JStr fs ++ v :: rest) ending (relay_chunk status) acc
  = (map (status_chunk status) fs,
     Raise (Exn TypeError
                (py "can only concatenate str (not " ++ [dquote]
                    ++ type_name v ++ [dquote] ++ py ") to str"))).
Proof.
  intros Hv. revert acc; induction fs as [|f fs IH]; intros acc.
  - cbn [map app for_items]. unfold relay_chunk.
    destruct v; try contradiction; reflexivity.
  - cbn [map app for_items]. unfold relay_chunk at 1.
    cbn [str_iadd call bind yield ret app chunk_text].
    now rewrite IH.
Qed.

(** X1: when the metadata is found and the three phases end normally,
    the first without the sentinel, the events are [started],
    [explanation_sent] and a chunk for each fragment of the explanation,
    [mapping] and its chunks, [diagram] and its chunks, and last
    [complete] with the fragments of the diagram put together and passed
    through the link rewriter with the owner, the repository and the
    default branch of the metadata. *)
Theorem X1_complete_run :
  forall (body : ApiRequest) (data : github_data)
         (fs1 fs2 fs3 : list pystr),
    fetch body = Ok data ->
    phase1 body data = (map JStr fs1, Ok tt) ->
    contains (py "BAD_INSTRUCTIONS") (List.concat fs1) = false ->
    phase2 body data (List.concat fs1) = (map JStr fs2, Ok tt) ->
    phase3 body (List.concat fs1) (List.concat fs2)
    = (map JStr fs3, Ok tt) ->
    generator body
    = (started :: explanation_sent
         :: map (status_chunk "explanation_chunk") fs1
         ++ mapping :: map (status_chunk "mapping_chunk") fs2
         ++ diagram :: map (status_chunk "diagram_chunk") fs3
         ++ [complete_event
               (process_click_events
                  (username body) (repo body) (default_branch data)
                  (List.concat fs3))],
       Ok tt).
Proof.
  intros body data fs1 fs2 fs3 Hfetch H1 Hclean H2 H3.
  rewrite (generator_phases body data Hfetch), H1, relay_of_strs.
  rewrite Hclean, H2, relay_of_strs, H3, relay_of_strs. reflexivity.
Qed.

(** X2: when the engine raises in the first phase, the run ends with the
    error record of the exception after the chunks received, whether or
    not these contain the sentinel: the sentinel is looked for only once
    the phase has ended. *)
Theorem X2_failure_in_explanation_phase :
  forall (body : ApiRequest) (data : github_data) (fs : list pystr)
         (e : exn),
    fetch body = Ok data ->
    phase1 body data = (map JStr fs, Raise e) ->
    generator body
    = (started :: explanation_sent
         :: map (status_chunk "explanation_chunk") fs
         ++ [error_event (exn_str e)],
       Ok tt).
Proof.
  intros body data fs e Hfetch H1.
  rewrite (generator_phases body data Hfetch), H1, relay_of_strs.
  reflexivity.
Qed.

(** X3: when the engine raises in the third phase, the events of the
    first two phases and the diagram chunks received stay, the error
    record of the exception ends the run, and no [complete] event is
    sent. *)
Theorem X3_failure_in_diagram_phase :
  forall (body : ApiRequest) (data : github_data)
         (fs1 fs2 fs3 : list pystr) (e : exn),
    fetch body = Ok data ->
    phase1 body data = (map JStr fs1, Ok tt) ->
    contains (py "BAD_INSTRUCTIONS") (List.concat fs1) = false ->
    phase2 body data (List.concat fs1) = (map JStr fs2, Ok tt) ->
    phase3 body (List.concat fs1) (List.concat fs2)
    = (map JStr fs3, Raise e) ->
    generator body
    = (started :: explanation_sent
         :: map (status_chunk "explanation_chunk") fs1
         ++ mapping :: map (status_chunk "mapping_chunk") fs2
         ++ diagram :: map (status_chunk "diagram_chunk") fs3
         ++ [error_event (exn_str e)],
       Ok tt).
Proof.
  intros body data fs1 fs2 fs3 e Hfetch H1 Hclean H2 H3.
  rewrite (generator_phases body data Hfetch), H1, relay_of_strs.
  rewrite Hclean, H2, relay_of_strs, H3, relay_of_strs. reflexivity.
Qed.

(** X4: a fragment of the first phase that is not a string (a number, a
    list, ...) is not passed on: [+=] raises [TypeError], and the run
    ends with its error record after the chunks of the strings before
    it. *)
Theorem X4_fragment_that_is_not_a_string :
  forall (body : ApiRequest) (data : github_data) (fs : list pystr)
         (v : json) (rest : list json) (ending : res unit),
    fetch body = Ok data ->
    phase1 body data = (map JStr fs ++ v :: rest, ending) ->
    match v with JStr _ => False | _ => True end ->
    generator body
    = (started :: explanation_sent
         :: map (status_chunk "explanation_chunk") fs
         ++ [error_event
               (py "can only concatenate str (not " ++ [dquote]
                   ++ type_name v ++ [dquote] ++ py ") to str")],
       Ok tt).
Proof.
  intros body data fs v rest ending Hfetch H1 Hv.
  rewrite (generator_phases body data Hfetch), H1.
  unfold relay, for_each. cbn [fst snd].
  now rewrite relay_items_non_str.
Qed.

(** X5: the length check comes first: the answer is [Instructions exceed
    maximum length of 1000 characters] exactly when the instructions
    have more than 1000 characters, whatever the repository; instructions
    of exactly 1000 characters pass it. *)
Theorem X5_length_check_comes_first :
  forall (body : ApiRequest),
    handler body
    = Body (error_event
              (py "Instructions exceed maximum length of 1000 characters"))
    <-> (1000 < List.length (instructions body))%nat.
Proof.
  intros body. unfold generate_stream.
  destruct (1000 <? List.length (instructions body))%nat eqn:Hlen.
  - apply Nat.ltb_lt in Hlen. split; [intros _; exact Hlen | reflexivity].
  - apply Nat.ltb_ge in Hlen. split; [| lia].
    destruct (str_in (repo body) example_repos); intros H;
      [vm_compute in H |]; discriminate H.
Qed.

(** X6: the metadata [get_cached_github_data] returns never has an empty
    default branch: it is the branch the hosting service names, or
    [main] when the service names none or an empty one; the file tree
    and the README are those of the service.  It returns exactly when
    none of the three calls raises. *)
Theorem X6_default_branch_never_empty :
  forall (username repo : pystr) (github_pat : option pystr)
         (data : github_data),
    get_cached_github_data
      get_default_branch get_github_file_paths_as_list get_github_readme
      username repo github_pat = Ok data ->
    default_branch data <> []
    /\ (get_default_branch github_pat username repo
        = Ok (Some (default_branch data))
        \/ ((get_default_branch github_pat username repo = Ok None
             \/ get_default_branch github_pat username repo = Ok (Some []))
            /\ default_branch data = py "main"))
    /\ get_github_file_paths_as_list github_pat username repo
       = Ok (file_tree data)
    /\ get_github_readme github_pat username repo = Ok (readme data).
Proof.
  intros username repo github_pat data. unfold get_cached_github_data.
  destruct (get_default_branch github_pat username repo)
    as [branch | e]; [| discriminate].
  destruct (get_github_file_paths_as_list github_pat username repo)
    as [tree | e]; [| discriminate].
  destruct (get_github_readme github_pat username repo)
    as [text | e]; [| discriminate].
  intros H. inversion H; subst data; clear H. cbn [default_branch file_tree readme].
  destruct branch as [[|c b] |].
  - split; [discriminate |]. split; [right; auto | auto].
  - split; [discriminate |]. split; [left; reflexivity | auto].
  - split; [discriminate |]. split; [right; auto | auto].
Qed.

(** Once the metadata are found, the stream starts with [started]. *)
Lemma generator_starts (body : ApiRequest) (data : github_data) :
  fetch body = Ok data ->
  hd_error (yielded (generator body)) = Some started.
Proof.
  intros Hfetch. rewrite (generator_phases body data Hfetch).
  destruct (relay "explanation_chunk" (phase1 body data))
    as [evs1 [explanation | e]]; [| reflexivity].
  destruct (contains (py "BAD_INSTRUCTIONS") explanation);
    [reflexivity |].
  destruct (relay "mapping_chunk" (phase2 body data explanation))
    as [evs2 [full_second_response | e]]; [| reflexivity].
  destruct (relay "diagram_chunk"
                  (phase3 body explanation full_second_response))
    as [evs3 [mermaid_code | e]]; reflexivity.
Qed.

End RouterProperties.

Lemma starts_no_click_sound (pre s : pystr) :
  starts_no_click pre s = true -> unmatched_prefix pre s.
Proof.
  induction pre as [|c pre IH]; intros H; [apply unmatched_prefix_nil |].
  cbn [starts_no_click] in H.
  destruct (match_click ((c :: pre) ++ s)) eqn:E; [discriminate |].
  apply unmatched_prefix_step; [exact E | now apply IH].
Qed.

(** ** The model, run *)

(** *** The link rewriter *)

(** C3, run: a file and a directory. *)
Lemma C3_blob_and_tree :
  Demo.rewrite
    (py "graph TD" ++ [newline]
        ++ py "click A " ++ Demo.quoted "a/b/c.tar.gz" ++ [newline]
        ++ py "click B " ++ Demo.quoted "a/b/c")
  = py "graph TD" ++ [newline]
       ++ py "click A "
       ++ Demo.quoted "https://github.com/octo/demo/blob/main/a/b/c.tar.gz"
       ++ [newline]
       ++ py "click B "
       ++ Demo.quoted "https://github.com/octo/demo/tree/main/a/b/c".
Proof.
  pose proof
       (C3_directive_rewritten_to_url
          (py "octo") (py "demo") (py "main")
          (py "graph TD" ++ [newline]) (py "A") (py " ")
          (py "a/b/c.tar.gz")
          ([newline] ++ py "click B " ++ Demo.quoted "a/b/c")) as H.
  cbv zeta in H.
  destruct H as [H _];
    [discriminate | reflexivity | discriminate | reflexivity | discriminate
     | apply path_char_spec; reflexivity
     | apply starts_no_click_sound; vm_compute; reflexivity |].
  vm_compute in H. vm_compute. exact H.
Defined.

(** C3 as stated fails: single quotes at the ends of the quoted text do
    not reach the URL. *)
Lemma C3_single_quotes_left_out :
  Demo.rewrite (py "click A " ++ Demo.quoted "'a/b'")
  = py "click A " ++ Demo.quoted "https://github.com/octo/demo/tree/main/a/b"
  /\ Demo.rewrite (py "click A " ++ Demo.quoted "'a/b'")
     <> py "click A "
           ++ Demo.quoted "https://github.com/octo/demo/tree/main/'a/b'".
Proof. split; [vm_compute; reflexivity | vm_compute; discriminate]. Qed.

(** C4, run: a directive written with single quotes stays. *)
Lemma C4_single_quoted_stays :
  Demo.rewrite (py "graph TD; click B 'docs/readme.md'")
  = py "graph TD; click B 'docs/readme.md'".
Proof.
  apply (C4_single_quoted_left_unchanged (py "octo") (py "demo") (py "main")).
  apply path_char_spec. reflexivity.
Defined.

(** C4 as stated fails: the single-quoted directive is not matched and
    not rewritten, while the same directive with double quotes is. *)
Lemma C4_single_quoted_not_matched :
  match_click (py "click A 'src/app.py'") = None
  /\ Demo.rewrite (py "click A 'src/app.py'") = py "click A 'src/app.py'"
  /\ Demo.rewrite (py "click A " ++ Demo.quoted "src/app.py")
     = py "click A "
          ++ Demo.quoted "https://github.com/octo/demo/blob/main/src/app.py"
  /\ Demo.rewrite (py "click A 'src/app.py'")
     <> py "click A "
           ++ Demo.quoted "https://github.com/octo/demo/blob/main/src/app.py".
Proof.
  repeat split; try (vm_compute; reflexivity). vm_compute. discriminate.
Qed.

(** C7, run: the lines before a directive are copied. *)
Lemma C7_lines_before_directive :
  Demo.rewrite
    (py "graph TD" ++ [newline] ++ py "A --> B" ++ [newline]
        ++ py "click A " ++ Demo.quoted "src")
  = py "graph TD" ++ [newline] ++ py "A --> B" ++ [newline]
       ++ Demo.rewrite (py "click A " ++ Demo.quoted "src").
Proof.
  apply (C7_unmatched_text_untouched
           (py "octo") (py "demo") (py "main")
           (py "graph TD" ++ [newline] ++ py "A --> B" ++ [newline])
           (py "click A " ++ Demo.quoted "src")).
  apply starts_no_click_sound. vm_compute. reflexivity.
Defined.

(** C7 as stated fails for lines: a directive may run over a line break,
    and then a line in which no directive is found is changed all the
    same. *)
Lemma C7_line_without_match_changed :
  let text := py "click A " ++ [dquote] ++ py "a" ++ [newline]
                 ++ py "b" ++ [dquote] in
  let line := py "click A " ++ [dquote] ++ py "a" in
  In line (split newline text)
  /\ has_click line = false
  /\ ~ In line (split newline (Demo.rewrite text))
  /\ split newline (Demo.rewrite text)
     = [py "click A " ++ [dquote]
           ++ py "https://github.com/octo/demo/tree/main/a";
        py "b" ++ [dquote]].
Proof.
  cbv zeta. split; [vm_compute; now left |].
  split; [vm_compute; reflexivity |].
  split; [| vm_compute; reflexivity].
  vm_compute. intros [H | [H | []]]; discriminate H.
Qed.

(** *** The engine *)

(** C9, run: an effort outside the table, against an endpoint that
    refuses the requests of temperature 0.1 and answers the others. *)
Lemma C9_unknown_effort :
  let refusal := Exn OtherException (py "temperature 0.1") in
  let requests_post (url : pystr) (p : payload) : res reply :=
    if Qeq_bool (temperature p) 0.1 then Raise refusal
    else Ok {| status_code := 200; reply_text := [];
               reply_json := Ok (JDict [(py "response", JStr (py "ok"))]) |} in
  let session_post (url : pystr) (p : payload) : res response :=
    if Qeq_bool (temperature p) 0.1 then Raise refusal
    else Demo.ok_lines [Demo.response_line "ok"] in
  OllamaService.call_o3_api
    Demo.base_url Demo.self_model Demo.format_user_message requests_post
    Demo.SYSTEM_FIRST_PROMPT [] None (py "extreme")
  = Raise refusal
  /\ OllamaService.call_o3_api_stream
       Demo.base_url Demo.self_model Demo.format_user_message
       Demo.json_loads session_post
       Demo.SYSTEM_FIRST_PROMPT [] None (py "extreme")
     = ([], Raise refusal).
Proof.
  cbv zeta.
  destruct (C9_effort_to_temperature
              Demo.base_url Demo.self_model Demo.format_user_message
              Demo.json_loads Demo.SYSTEM_FIRST_PROMPT [] None
              (py "extreme") 0.1%Q)
    as (_ & Honce & _ & Hstream).
  { do 3 right. repeat split; discriminate. }
  split.
  - apply Honce. intros url p Ht. rewrite Ht. reflexivity.
  - apply (Hstream _ (Exn OtherException (py "temperature 0.1"))).
    intros url p Ht. rewrite Ht. reflexivity.
Defined.

(** C8, run: a blank line, a line that is not JSON and a record with an
    empty content give nothing. *)
Lemma C8_skipped_lines :
  Demo.stream_of
    (Demo.ok_lines
       [Demo.response_line "Hel"; Demo.text_line "";
        Demo.text_line "not json"; Demo.response_line "";
        Demo.text_line "{}"; Demo.response_line "lo"])
  = ([JStr (py "Hel"); JStr (py "lo")], Ok tt).
Proof.
  pose proof
       (C8_stream_fragments
          Demo.base_url Demo.self_model Demo.format_user_message
          Demo.json_loads
          (fun _ _ =>
             Demo.ok_lines
               [Demo.response_line "Hel"; Demo.text_line "";
                Demo.text_line "not json"; Demo.response_line "";
                Demo.text_line "{}"; Demo.response_line "lo"])
          Demo.SYSTEM_FIRST_PROMPT [(py "readme", py "# demo")] None
          (py "medium") _ _ eq_refl eq_refl eq_refl) as H.
  cbv zeta in H. destruct H as (_ & H & _).
  unfold Demo.stream_of. rewrite H.
  - vm_compute. reflexivity.
  - repeat constructor; vm_compute; auto.
Defined.

(** C8 as stated fails: a line that holds a JSON value that is not an
    object is not skipped; it ends the stream with an exception, and the
    records after it are lost. *)
Lemma C8_array_line_ends_stream :
  Demo.stream_of
    (Demo.ok_lines
       [Demo.response_line "a"; Demo.text_line "[]";
        Demo.response_line "b"])
  = ([JStr (py "a")],
     Raise (Exn AttributeError (py "'list' object has no attribute 'get'")))
  /\ Demo.stream_of
       (Demo.ok_lines
          [Demo.response_line "a"; Demo.text_line "[]";
           Demo.response_line "b"])
     <> ([JStr (py "a"); JStr (py "b")], Ok tt).
Proof. split; [vm_compute; reflexivity | vm_compute; discriminate]. Qed.

(** *** The handler *)

(** C1, run: the sentinel arrives in two fragments. *)
Lemma C1_sentinel_in_two_fragments :
  Demo.generator
    Demo.found
    (Demo.ok_lines [Demo.response_line "BAD_";
                    Demo.response_line "INSTRUCTIONS"])
    (Demo.ok_lines [Demo.response_line "never asked"])
    (Demo.ok_lines [Demo.response_line "never asked"])
    (Demo.request (py "demo") (py "draw it upside down"))
  = ([status_message "started" "Starting generation process...";
      status_message "explanation_sent" "Analyzing repository structure...";
      status_chunk "explanation_chunk" (py "BAD_");
      status_chunk "explanation_chunk" (py "INSTRUCTIONS");
      error_event (py "Invalid or unclear instructions provided")],
     Ok tt).
Proof.
  refine (proj1 (C1_sentinel_ends_with_error_record
                   _ _ _ _ _ _ _ _
                   (Demo.request (py "demo") (py "draw it upside down"))
                   Demo.data [py "BAD_"; py "INSTRUCTIONS"] _ _ _)).
  - reflexivity.
  - vm_compute. reflexivity.
  - exists [], []. reflexivity.
Defined.

(** C1 as stated fails: the event that ends a run on the sentinel is an
    error record, the very record a failure gives; a run that fails with
    the same text sends the same events. *)
Lemma C1_abort_is_an_error_record :
  let body := Demo.request (py "demo") [] in
  let idle := Demo.ok_lines [] in
  let sentinel := Demo.ok_lines [Demo.response_line "BAD_INSTRUCTIONS"] in
  let failing :=
    Demo.broken_lines
      [Demo.response_line "BAD_INSTRUCTIONS"]
      (Exn OtherException (py "Invalid or unclear instructions provided")) in
  let aborted := Demo.generator Demo.found sentinel idle idle body in
  let failed := Demo.generator Demo.found failing idle idle body in
  outcome (Demo.stream_of sentinel) = Ok tt
  /\ outcome (Demo.stream_of failing)
     = Raise (Exn OtherException
                  (py "Invalid or unclear instructions provided"))
  /\ aborted = failed
  /\ is_error_record (last (yielded aborted) []) = true.
Proof. cbv zeta. repeat split; vm_compute; reflexivity. Qed.

(** C5, run: the connection drops in the second phase. *)
Lemma C5_connection_lost_while_mapping :
  Demo.generator
    Demo.found
    (Demo.ok_lines [Demo.response_line "A small app."])
    (Demo.broken_lines [Demo.response_line "app: "]
                       (Exn ClientError (py "Connection reset")))
    (Demo.ok_lines [Demo.response_line "never asked"])
    (Demo.request (py "demo") [])
  = ([status_message "started" "Starting generation process...";
      status_message "explanation_sent" "Analyzing repository structure...";
      status_chunk "explanation_chunk" (py "A small app.");
      status_message "mapping" "Creating component mapping...";
      status_chunk "mapping_chunk" (py "app: ");
      error_event (py "Failed to connect to Ollama API: Connection reset")],
     Ok tt).
Proof.
  refine (proj1 (C5_failure_in_mapping_phase
                   _ _ _ _ _ _ _ _
                   (Demo.request (py "demo") [])
                   Demo.data [py "A small app."] [py "app: "]
                   (Exn ValueError
                        (py "Failed to connect to Ollama API: Connection reset"))
                   _ _ _ _)).
  - reflexivity.
  - vm_compute. reflexivity.
  - vm_compute. reflexivity.
  - vm_compute. reflexivity.
Defined.

(** C6, run: three phases that end well. *)
Lemma C6_complete_run_well_formed :
  well_formed_run
    (events_of
       (Demo.handler
          Demo.found
          (Demo.ok_lines [Demo.response_line "A small app."])
          (Demo.ok_lines [Demo.response_line "app: src/app.py"])
          (Demo.ok_lines [Demo.response_line "graph TD; click app ";
                          Demo.text_line "not json";
                          Demo.response_line "src/app.py"])
          (Demo.request (py "demo") [])))
  = true.
Proof.
  destruct (C6_event_stream_shape
              _ _ _ _ _ _ _ _
              (Demo.request (py "demo") [])
              (Demo.generator
                 Demo.found
                 (Demo.ok_lines [Demo.response_line "A small app."])
                 (Demo.ok_lines [Demo.response_line "app: src/app.py"])
                 (Demo.ok_lines [Demo.response_line "graph TD; click app ";
                                 Demo.text_line "not json";
                                 Demo.response_line "src/app.py"])
                 (Demo.request (py "demo") []))
              eq_refl)
    as [_ [(e & He & _) | (data & _ & H & _)]].
  - discriminate He.
  - exact H.
Defined.

(** C6 as stated fails: when the hosting service does not know the
    repository, the stream is one error record, with no [started] event
    before it. *)
Lemma C6_no_started_when_fetch_fails :
  let idle := Demo.ok_lines [] in
  let answer :=
    Demo.handler (Raise Demo.github_not_found) idle idle idle
                 (Demo.request (py "demo") []) in
  answer
  = StreamingResponse
      ([error_event (py "Repository not found.")], Ok tt)
  /\ hd_error (events_of answer)
     <> Some (status_message "started" "Starting generation process...")
  /\ well_formed_run (events_of answer) = false.
Proof.
  cbv zeta. split; [vm_compute; reflexivity |].
  split; [vm_compute; discriminate | vm_compute; reflexivity].
Qed.

(** C2, run: instructions of 1001 characters. *)
Lemma C2_long_instructions_rejected :
  events_of
    (Demo.handler Demo.found (Demo.ok_lines []) (Demo.ok_lines [])
                  (Demo.ok_lines [])
                  (Demo.request (py "demo") (repeat 120%N 1001)))
  = [].
Proof.
  refine (proj2 (proj2 (C2_validation_before_any_event
                          _ _ _ _ _ _ _ _
                          (Demo.request (py "demo") (repeat 120%N 1001))
                          _))).
  left. cbn [instructions Demo.request]. rewrite repeat_length. lia.
Defined.

(** C10, run: an example repository under another owner. *)
Lemma C10_flask_of_any_owner_rejected :
  exists message,
    Demo.handler Demo.found (Demo.ok_lines []) (Demo.ok_lines [])
                 (Demo.ok_lines [])
                 {| username := py "someone-else"; repo := py "flask";
                    instructions := []; api_key := None;
                    github_pat := None |}
    = Body (error_event message).
Proof.
  refine (proj1 (C10_reserved_check_reads_repo_only
                   _ _ _ _ _ _ _ _
                   (py "someone-else") (py "flask") [] None None) _).
  cbn [In]. right. right. left. reflexivity.
Defined.

(** * Further properties *)

(** ** The engine *)

Section EngineProperties.

Variables base_url self_model : pystr.
Variable format_user_message : list (pystr * pystr) -> pystr.
Variable json_loads : pystr -> res json.

Local Notation "'stream_call' post" :=
  (OllamaService.call_o3_api_stream
     base_url self_model format_user_message json_loads post)
  (at level 10, post at level 9, only parsing).
Local Notation "'stream_payload'" :=
  (OllamaService.call_o3_api_stream_payload
     self_model format_user_message) (only parsing).
Local Notation "'endpoint'" := (base_url ++ py "/api/generate")
  (only parsing).

(** X8: an answer whose status is not 200 gives no fragment, whatever
    lines its body holds: the call reads the body of the answer and
    raises.  When the body is read, it raises [ValueError] with the
    status and the body in its text.  When reading the body raises, that
    exception leaves the call in its place: an [aiohttp.ClientError], as
    a broken transport gives, as a [ValueError] whose text is
    [Failed to connect to Ollama API: ] followed by its text, any other,
    as a body that is not text gives, unchanged. *)
Theorem X8_stream_status_not_200 :
  forall (session_post : pystr -> payload -> res response)
         (system_prompt : pystr) (data : list (pystr * pystr))
         (api_key : option pystr) (reasoning_effort : pystr)
         (answer : response),
    session_post endpoint (stream_payload system_prompt data reasoning_effort)
    = Ok answer ->
    status answer <> 200%Z ->
    stream_call session_post system_prompt data api_key reasoning_effort
    = ([], Raise
             match text answer with
             | Ok error_text =>
                 Exn ValueError
                     (py "Ollama API returned status code "
                         ++ str_of_int (status answer) ++ py ": "
                         ++ error_text)
             | Raise e =>
                 if is_class ClientError e
                 then Exn ValueError
                          (py "Failed to connect to Ollama API: "
                              ++ exn_str e)
                 else e
             end).
Proof.
  intros post sp data key effort answer Hpost Hstatus.
  unfold OllamaService.call_o3_api_stream. rewrite Hpost.
  cbn [call bind app]. apply Z.eqb_neq in Hstatus. rewrite Hstatus.
  cbn [negb]. destruct (text answer) as [error_text | e].
  - reflexivity.
  - cbn [call bind try_except app].
    destruct (is_class ClientError e); reflexivity.
Qed.

(** X9: when the request itself fails, nothing is yielded; an
    [aiohttp.ClientError] is raised again as a [ValueError] whose text is
    [Failed to connect to Ollama API: ] followed by the text of the
    error, and any other exception is raised again as it is. *)
Theorem X9_stream_request_fails :
  forall (session_post : pystr -> payload -> res response)
         (system_prompt : pystr) (data : list (pystr * pystr))
         (api_key : option pystr) (reasoning_effort : pystr) (e : exn),
    session_post endpoint (stream_payload system_prompt data reasoning_effort)
    = Raise e ->
    stream_call session_post system_prompt data api_key reasoning_effort
    = ([], Raise (if is_class ClientError e
                  then Exn ValueError
                           (py "Failed to connect to Ollama API: "
                               ++ exn_str e)
                  else e)).
Proof.
  intros post sp data key effort e Hpost.
  unfold OllamaService.call_o3_api_stream. rewrite Hpost.
  cbn [call bind try_except]. destruct (is_class ClientError e); reflexivity.
Qed.

(** X10: when the transport raises after some lines, all of them
    survivable, the fragments of these lines are yielded first and then
    the call raises: the exception of the transport, or the
    [ValueError] made of it when it is an [aiohttp.ClientError]. *)
Theorem X10_stream_transport_breaks :
  forall (session_post : pystr -> payload -> res response)
         (system_prompt : pystr) (data : list (pystr * pystr))
         (api_key : option pystr) (reasoning_effort : pystr)
         (answer : response) (lines : list raw_line) (e : exn),
    session_post endpoint (stream_payload system_prompt data reasoning_effort)
    = Ok answer ->
    status answer = 200%Z ->
    content answer = (lines, Raise e) ->
    Forall (survivable json_loads) lines ->
    stream_call session_post system_prompt data api_key reasoning_effort
    = (flat_map (fragments_of_line json_loads) lines,
       Raise (if is_class ClientError e
              then Exn ValueError
                       (py "Failed to connect to Ollama API: "
                           ++ exn_str e)
              else e)).
Proof.
  intros post sp data key effort answer lines e Hpost Hstatus Hcontent H.
  unfold OllamaService.call_o3_api_stream. rewrite Hpost.
  cbn [call bind app]. rewrite Hstatus.
  change (200 =? 200)%Z with true. cbn [negb].
  unfold for_each. rewrite Hcontent. cbn [fst snd].
  destruct (stream_lines_survivable json_loads lines (Raise e) 0%N H)
    as (n' & ->).
  cbn [bind try_except]. destruct (is_class ClientError e); [| reflexivity].
  cbn [raise]. now rewrite app_nil_r.
Qed.

Lemma stream_line_stripped (n : N) (a b : raw_line) :
  same_stripped a b ->
  OllamaService.stream_line json_loads n a
  = OllamaService.stream_line json_loads n b.
Proof.
  destruct a as [s | e], b as [t | e']; cbn [same_stripped];
    try (intros H; now rewrite H).
  intros H. unfold OllamaService.stream_line.
  cbn [decode_utf8 call bind app]. now rewrite H.
Qed.

Lemma stream_lines_stripped (l1 l2 : list raw_line) (ending : res unit)
      (n : N) :
  Forall2 same_stripped l1 l2 ->
  for_items l1 ending (OllamaService.stream_line json_loads) n
  = for_items l2 ending (OllamaService.stream_line json_loads) n.
Proof.
  intros H. revert n. induction H as [|a b l1 l2 Hab _ IH]; intros n.
  - reflexivity.
  - cbn [for_items]. rewrite (stream_line_stripped n a b Hab).
    destruct (OllamaService.stream_line json_loads n b) as [ys [n' | e]];
      cbn [bind]; [now rewrite IH | reflexivity].
Qed.

(** X11: only the text of a line once stripped matters: two answers with
    status 200 whose lines are, one by one, equal after [strip] (so
    however the lines are indented or ended) give the same fragments and
    the same outcome. *)
Theorem X11_stream_ignores_surrounding_space :
  forall (post1 post2 : pystr -> payload -> res response)
         (system_prompt : pystr) (data : list (pystr * pystr))
         (api_key : option pystr) (reasoning_effort : pystr)
         (answer1 answer2 : response) (lines1 lines2 : list raw_line)
         (ending : res unit),
    post1 endpoint (stream_payload system_prompt data reasoning_effort)
    = Ok answer1 ->
    post2 endpoint (stream_payload system_prompt data reasoning_effort)
    = Ok answer2 ->
    status answer1 = 200%Z -> status answer2 = 200%Z ->
    content answer1 = (lines1, ending) ->
    content answer2 = (lines2, ending) ->
    Forall2 same_stripped lines1 lines2 ->
    stream_call post1 system_prompt data api_key reasoning_effort
    = stream_call post2 system_prompt data api_key reasoning_effort.
Proof.
  intros post1 post2 sp data key effort answer1 answer2 lines1 lines2
         ending Hp1 Hp2 Hs1 Hs2 Hc1 Hc2 H.
  unfold OllamaService.call_o3_api_stream. rewrite Hp1, Hp2.
  cbn [call bind app]. rewrite Hs1, Hs2. unfold for_each.
  rewrite Hc1, Hc2. cbn [fst snd].
  now rewrite (stream_lines_stripped lines1 lines2 ending 0%N H).
Qed.

End EngineProperties.

(** *** The blocking call *)

Lemma dict_get_fold (k : pystr) (d : list (pystr * json)) (acc : json) :
  ~ In k (map fst d) -> dict_get k d acc = acc.
Proof.
  unfold dict_get. revert acc; induction d as [|[k' v] d IH]; intros acc H.
  - reflexivity.
  - cbn [fold_left fst snd]. cbn [map fst In] in H.
    destruct (str_eqb k k') eqn:E.
    + apply str_eqb_eq in E. subst k'. tauto.
    + apply IH. tauto.
Qed.

Lemma dict_get_app (k : pystr) (d1 d2 : list (pystr * json)) (acc : json) :
  dict_get k (d1 ++ d2) acc = dict_get k d2 (dict_get k d1 acc).
Proof. unfold dict_get. apply fold_left_app. Qed.

Lemma dict_get_last (k : pystr) (d1 d2 : list (pystr * json)) (v acc : json) :
  ~ In k (map fst d2) -> dict_get k (d1 ++ (k, v) :: d2) acc = v.
Proof.
  intros H. rewrite dict_get_app.
  change (dict_get k ((k, v) :: d2) (dict_get k d1 acc))
    with (dict_get k d2 (if str_eqb k k then v else dict_get k d1 acc)).
  rewrite str_eqb_refl. now apply dict_get_fold.
Qed.

Section BlockingCall.

Variables base_url self_model : pystr.
Variable format_user_message : list (pystr * pystr) -> pystr.

Local Notation "'blocking_call' post" :=
  (OllamaService.call_o3_api
     base_url self_model format_user_message post)
  (at level 10, post at level 9, only parsing).
Local Notation "'blocking_payload'" :=
  (OllamaService.call_o3_api_payload self_model format_user_message)
  (only parsing).
Local Notation "'endpoint'" := (base_url ++ py "/api/generate")
  (only parsing).

(** X12: when the answer has status 200 and its body is a JSON object,
    the blocking call returns the value of the member [response]: the
    empty string when the object has no such member, and the value of
    the last one when it has several. *)
Theorem X12_blocking_call_response_member :
  forall (requests_post : pystr -> payload -> res reply)
         (system_prompt : pystr) (data : list (pystr * pystr))
         (api_key : option pystr) (reasoning_effort : pystr)
         (answer : reply) (members : list (pystr * json)),
    requests_post endpoint
                  (blocking_payload system_prompt data reasoning_effort)
    = Ok answer ->
    status_code answer = 200%Z ->
    reply_json answer = Ok (JDict members) ->
    (~ In (py "response") (map fst members) ->
     blocking_call requests_post system_prompt data api_key reasoning_effort
     = Ok (JStr []))
    /\ (forall before v after,
           members = before ++ (py "response", v) :: after ->
           ~ In (py "response") (map fst after) ->
           blocking_call requests_post system_prompt data api_key
                         reasoning_effort
           = Ok v).
Proof.
  intros post sp data key effort answer members Hpost Hstatus Hjson.
  unfold OllamaService.call_o3_api. rewrite Hpost, Hstatus, Hjson.
  change (200 =? 200)%Z with true. cbn [negb py_get]. split.
  - intros H. now rewrite dict_get_fold.
  - intros before v after -> H. now rewrite dict_get_last.
Qed.

(** X13: the errors of the blocking call.  What the request raises is
    raised again unchanged (no [ValueError] is made of a connection
    error here); a status other than 200 raises [ValueError] with the
    status and the body in its text, before the body is read as JSON;
    with status 200, what reading the body as JSON raises is raised, and
    a JSON value that is not an object raises [AttributeError]. *)
Theorem X13_blocking_call_errors :
  forall (requests_post : pystr -> payload -> res reply)
         (system_prompt : pystr) (data : list (pystr * pystr))
         (api_key : option pystr) (reasoning_effort : pystr),
    let result :=
      blocking_call requests_post system_prompt data api_key
                    reasoning_effort in
    let posted :=
      requests_post endpoint
                    (blocking_payload system_prompt data reasoning_effort) in
    (forall e, posted = Raise e -> result = Raise e)
    /\ (forall answer,
           posted = Ok answer -> status_code answer <> 200%Z ->
           result
           = Raise (Exn ValueError
                        (py "Ollama API returned status code "
                            ++ str_of_int (status_code answer) ++ py ": "
                            ++ reply_text answer)))
    /\ (forall answer e,
           posted = Ok answer -> status_code answer = 200%Z ->
           reply_json answer = Raise e -> result = Raise e)
    /\ (forall answer v,
           posted = Ok answer -> status_code answer = 200%Z ->
           reply_json answer = Ok v ->
           match v with JDict _ => False | _ => True end ->
           result
           = Raise (Exn AttributeError
                        (py "'" ++ type_name v
                            ++ py "' object has no attribute 'get'"))).
Proof.
  intros post sp data key effort result posted.
  unfold result, posted, OllamaService.call_o3_api. repeat split.
  - intros e ->. reflexivity.
  - intros answer -> H. apply Z.eqb_neq in H. now rewrite H.
  - intros answer e -> Hs ->. now rewrite Hs.
  - intros answer v -> Hs -> Hv. rewrite Hs.
    destruct v; try contradiction; reflexivity.
Qed.

End BlockingCall.

(** *** [count_tokens] *)

(** X14: the estimate of [count_tokens] is a quarter of the length,
    rounded down: four times the estimate is at most the length and
    misses it by less than four; the estimate of two texts put together
    is the sum of their estimates or one more. *)
Theorem X14_count_tokens_bounds :
  forall (a b : pystr),
    (4 * OllamaService.count_tokens a <= List.length a
     < 4 * OllamaService.count_tokens a + 4)%nat
    /\ (OllamaService.count_tokens a + OllamaService.count_tokens b
        <= OllamaService.count_tokens (a ++ b)
        <= OllamaService.count_tokens a + OllamaService.count_tokens b + 1)%nat.
Proof.
  intros a b. unfold OllamaService.count_tokens. rewrite length_app.
  pose proof (Nat.div_mod_eq (List.length a) 4) as Ha.
  pose proof (Nat.div_mod_eq (List.length b) 4) as Hb.
  pose proof (Nat.div_mod_eq (List.length a + List.length b) 4) as Hab.
  pose proof (Nat.mod_upper_bound (List.length a) 4 ltac:(lia)) as Ma.
  pose proof (Nat.mod_upper_bound (List.length b) 4 ltac:(lia)) as Mb.
  pose proof (Nat.mod_upper_bound (List.length a + List.length b) 4
                                  ltac:(lia)) as Mab.
  lia.
Qed.

(** ** The generator and the engine together *)

Lemma stream_call_depends_on_one_answer
      (base_url self_model : pystr)
      (format_user_message : list (pystr * pystr) -> pystr)
      (json_loads : pystr -> res json)
      (post post' : pystr -> payload -> res response)
      (system_prompt : pystr) (data : list (pystr * pystr))
      (api_key : option pystr) (reasoning_effort : pystr) :
  post (base_url ++ py "/api/generate")
       (OllamaService.call_o3_api_stream_payload
          self_model format_user_message system_prompt data
          reasoning_effort)
  = post' (base_url ++ py "/api/generate")
          (OllamaService.call_o3_api_stream_payload
             self_model format_user_message system_prompt data
             reasoning_effort) ->
  OllamaService.call_o3_api_stream
    base_url self_model format_user_message json_loads post
    system_prompt data api_key reasoning_effort
  = OllamaService.call_o3_api_stream
      base_url self_model format_user_message json_loads post'
      system_prompt data api_key reasoning_effort.
Proof.
  intros H. unfold OllamaService.call_o3_api_stream. now rewrite H.
Qed.

(** X15: with [OllamaService] as the engine, the generator asks the
    endpoint nothing but streaming requests, posted to [/api/generate]
    with the model of the service and the temperature 0.5 (the effort
    [medium]): two endpoints that answer these requests alike give the
    same events, whatever else they would answer. *)
Theorem X15_generator_posts_medium_streams_only :
  forall (SYSTEM_FIRST_PROMPT SYSTEM_SECOND_PROMPT SYSTEM_THIRD_PROMPT
          ADDITIONAL_SYSTEM_INSTRUCTIONS_PROMPT : pystr)
         (get_default_branch :
            option pystr -> pystr -> pystr -> res (option pystr))
         (get_github_file_paths_as_list get_github_readme :
            option pystr -> pystr -> pystr -> res pystr)
         (base_url self_model : pystr)
         (format_user_message : list (pystr * pystr) -> pystr)
         (json_loads : pystr -> res json)
         (post post' : pystr -> payload -> res response)
         (body : ApiRequest),
    (forall p : payload,
        model p = self_model -> temperature p = 0.5%Q -> stream p = true ->
        post (base_url ++ py "/api/generate") p
        = post' (base_url ++ py "/api/generate") p) ->
    event_generator
      SYSTEM_FIRST_PROMPT SYSTEM_SECOND_PROMPT SYSTEM_THIRD_PROMPT
      ADDITIONAL_SYSTEM_INSTRUCTIONS_PROMPT
      get_default_branch get_github_file_paths_as_list get_github_readme
      (OllamaService.call_o3_api_stream
         base_url self_model format_user_message json_loads post)
      body
    = event_generator
        SYSTEM_FIRST_PROMPT SYSTEM_SECOND_PROMPT SYSTEM_THIRD_PROMPT
        ADDITIONAL_SYSTEM_INSTRUCTIONS_PROMPT
        get_default_branch get_github_file_paths_as_list get_github_readme
        (OllamaService.call_o3_api_stream
           base_url self_model format_user_message json_loads post')
        body.
Proof.
  intros P1 P2 P3 PA gdb gfp grm base_url self_model fmt loads post post'
         body Hpost.
  assert (Hcall : forall sp data key,
             OllamaService.call_o3_api_stream
               base_url self_model fmt loads post sp data key (py "medium")
             = OllamaService.call_o3_api_stream
                 base_url self_model fmt loads post' sp data key
                 (py "medium")).
  { intros sp data key. apply stream_call_depends_on_one_answer.
    apply Hpost; reflexivity. }
  destruct (get_cached_github_data gdb gfp grm (username body) (repo body)
                                   (github_pat body)) as [data | e] eqn:Hf.
  - rewrite !(generator_phases _ _ _ _ _ _ _ _ body data Hf).
    unfold explanation_stream, mapping_stream, diagram_stream.
    rewrite Hcall.
    destruct (relay "explanation_chunk" _) as [evs1 [explanation | e]];
      [| reflexivity].
    destruct (contains (py "BAD_INSTRUCTIONS") explanation);
      [reflexivity |].
    rewrite Hcall.
    destruct (relay "mapping_chunk" _) as [evs2 [second | e]];
      [| reflexivity].
    rewrite Hcall. reflexivity.
  - rewrite !(generator_fetch_fails _ _ _ _ _ _ _ _ body e Hf).
    reflexivity.
Qed.

(** ** The cache of the metadata *)

Lemma github_key_eqb_eq (a b : github_key) :
  github_key_eqb a b = true <-> a = b.
Proof.
  destruct a as [[u r] p], b as [[u' r'] p']. unfold github_key_eqb.
  rewrite !andb_true_iff, !str_eqb_eq. split.
  - intros [[-> ->] H]. destruct p as [x|], p' as [y|]; try discriminate.
    + apply str_eqb_eq in H. now subst.
    + reflexivity.
  - intros H. inversion H; subst. repeat split.
    destruct p'; [apply str_eqb_refl | reflexivity].
Qed.

Lemma all_distinct_sound (keys : list github_key) :
  all_distinct keys = true -> NoDup keys.
Proof.
  induction keys as [|k rest IH]; cbn [all_distinct]; [constructor |].
  rewrite andb_true_iff, negb_true_iff. intros [Hk Hrest].
  constructor; [| now apply IH]. intros Hin.
  assert (H : existsb (github_key_eqb k) rest = true).
  { apply existsb_exists. exists k. split; [exact Hin |].
    now apply github_key_eqb_eq. }
  congruence.
Qed.

Section LruProperties.

Variables K V : Type.
Variable key_eqb : K -> K -> bool.
Hypothesis key_eqb_eq : forall a b, key_eqb a b = true <-> a = b.
Variable maxsize : nat.

Lemma key_eqb_refl (k : K) : key_eqb k k = true.
Proof. now apply key_eqb_eq. Qed.

Lemma lru_find_none (k : K) (cache : list (K * V)) :
  lru_find key_eqb k cache = None <-> ~ In k (map fst cache).
Proof.
  induction cache as [|[k' v] cache IH]; cbn [lru_find map fst In].
  - tauto.
  - destruct (key_eqb k k') eqn:E.
    + apply key_eqb_eq in E. subst k'.
      split; [discriminate | intros H; exfalso; apply H; now left].
    + rewrite IH. split; [| tauto]. intros H [H' | H']; [| tauto].
      subst k'. rewrite key_eqb_refl in E. discriminate.
Qed.

Lemma lru_find_some (k : K) (v : V) (cache : list (K * V)) :
  lru_find key_eqb k cache = Some v -> In (k, v) cache.
Proof.
  induction cache as [|[k' v'] cache IH]; cbn [lru_find]; [discriminate |].
  destruct (key_eqb k k') eqn:E.
  - apply key_eqb_eq in E. intros H. inversion H; subst. now left.
  - intros H. right. now apply IH.
Qed.

Lemma lru_remove_length (k : K) (v : V) (cache : list (K * V)) :
  lru_find key_eqb k cache = Some v ->
  S (List.length (lru_remove key_eqb k cache)) = List.length cache.
Proof.
  induction cache as [|[k' v'] cache IH]; cbn [lru_find lru_remove];
    [discriminate |].
  destruct (key_eqb k k'); [reflexivity |].
  intros H. cbn [List.length]. now rewrite IH.
Qed.

Lemma lru_remove_incl (k : K) (cache : list (K * V)) :
  incl (lru_remove key_eqb k cache) cache.
Proof.
  induction cache as [|[k' v'] cache IH]; cbn [lru_remove].
  - apply incl_refl.
  - destruct (key_eqb k k'); [apply incl_tl, incl_refl |].
    apply incl_cons; [now left | now apply incl_tl].
Qed.

Lemma lru_remove_nodup (k : K) (cache : list (K * V)) :
  NoDup (map fst cache) ->
  NoDup (map fst (lru_remove key_eqb k cache))
  /\ ~ In k (map fst (lru_remove key_eqb k cache)).
Proof.
  induction cache as [|[k' v'] cache IH]; cbn [lru_remove map fst].
  - intros _. split; [constructor | tauto].
  - intros H. inversion H as [|x l Hnot Hnd]; subst.
    destruct (key_eqb k k') eqn:E.
    + apply key_eqb_eq in E. subst k'. tauto.
    + destruct (IH Hnd) as [IH1 IH2]. cbn [map fst]. split.
      * constructor; [| assumption]. intros Hin. apply Hnot.
        apply in_map_iff in Hin. destruct Hin as (kv & <- & Hin).
        apply in_map. now apply (lru_remove_incl k cache).
      * intros [H' | H']; [| tauto]. subst k'.
        rewrite key_eqb_refl in E. discriminate.
Qed.

Lemma firstn_in {A} (n : nat) (l : list A) (x : A) :
  In x (firstn n l) -> In x l.
Proof.
  revert n; induction l as [|y l IH]; intros [|n]; cbn [firstn In];
    try tauto.
  intros [H | H]; [now left | right; now apply (IH n)].
Qed.

Lemma firstn_nodup {A} (n : nat) (l : list A) :
  NoDup l -> NoDup (firstn n l).
Proof.
  revert n; induction l as [|x l IH]; intros [|n] H; cbn [firstn];
    try constructor.
  - inversion H; subst. intros Hin. apply firstn_in in Hin. tauto.
  - inversion H; subst. now apply IH.
Qed.

(** The cache after a call: as many entries as allowed at most, no key
    twice. *)
Lemma lru_call_invariant (f : K -> res V) (cache : list (K * V)) (k : K) :
  (List.length cache <= maxsize)%nat -> NoDup (map fst cache) ->
  let cache' := snd (fst (lru_call key_eqb maxsize f cache k)) in
  (List.length cache' <= maxsize)%nat /\ NoDup (map fst cache').
Proof.
  intros Hlen Hnd. unfold lru_call.
  destruct (lru_find key_eqb k cache) as [v|] eqn:Ef.
  - cbn [fst snd]. split.
    + cbn [List.length]. rewrite (lru_remove_length k v cache Ef). exact Hlen.
    + cbn [map fst]. destruct (lru_remove_nodup k cache Hnd).
      now constructor.
  - destruct (f k) as [v | e]; cbn [fst snd]; [| tauto]. split.
    + rewrite length_firstn. lia.
    + rewrite <- firstn_map. apply firstn_nodup. cbn [map fst].
      constructor; [| assumption]. now apply lru_find_none.
Qed.

(** A call that returned is answered from the cache the next time. *)
Lemma lru_call_then_hit (f f' : K -> res V) (cache cache1 : list (K * V))
      (k : K) (v : V) (called : bool) :
  (0 < maxsize)%nat ->
  lru_call key_eqb maxsize f cache k = (Ok v, cache1, called) ->
  lru_call key_eqb maxsize f' cache1 k
  = (Ok v, (k, v) :: lru_remove key_eqb k cache1, false).
Proof.
  intros Hmax H.
  assert (Hfind : lru_find key_eqb k cache1 = Some v).
  { unfold lru_call in H.
    destruct (lru_find key_eqb k cache) as [w|].
    - inversion H; subst. cbn [lru_find]. now rewrite key_eqb_refl.
    - destruct (f k) as [w | e]; inversion H; subst.
      destruct maxsize as [|n]; [lia |]. cbn [firstn lru_find].
      now rewrite key_eqb_refl. }
  unfold lru_call. now rewrite Hfind.
Qed.

(** A call that raised left the cache as it was, and the function is
    asked again the next time. *)
Lemma lru_call_raise (f f' : K -> res V) (cache cache1 : list (K * V))
      (k : K) (e : exn) (called : bool) :
  lru_call key_eqb maxsize f cache k = (Raise e, cache1, called) ->
  cache1 = cache /\ called = true
  /\ fst (fst (lru_call key_eqb maxsize f' cache k)) = f' k
  /\ snd (lru_call key_eqb maxsize f' cache k) = true.
Proof.
  unfold lru_call. destruct (lru_find key_eqb k cache) as [w|];
    [discriminate |].
  destruct (f k) as [w | e0]; [discriminate |].
  intros H. inversion H; subst. repeat split; destruct (f' k); reflexivity.
Qed.

(** When every entry is what [f] returns for its key, the call returns
    what [f] returns, and the entries of the cache after it are again
    what [f] returns. *)
Lemma lru_call_consistent (f : K -> res V) (cache : list (K * V)) (k : K) :
  (forall k' v, In (k', v) cache -> f k' = Ok v) ->
  fst (fst (lru_call key_eqb maxsize f cache k)) = f k
  /\ (forall k' v,
         In (k', v) (snd (fst (lru_call key_eqb maxsize f cache k))) ->
         f k' = Ok v).
Proof.
  intros H. unfold lru_call.
  destruct (lru_find key_eqb k cache) as [w|] eqn:Ef.
  - apply lru_find_some in Ef. cbn [fst snd]. split.
    + symmetry. now apply H.
    + intros k' v [E | Hin].
      * inversion E; subst. now apply H.
      * apply H. now apply (lru_remove_incl k cache).
  - destruct (f k) as [w | e] eqn:Efk; cbn [fst snd]; split; auto.
    intros k' v Hin. apply firstn_in in Hin. destruct Hin as [E | Hin].
    + inversion E; subst. exact Efk.
    + now apply H.
Qed.

End LruProperties.

Section GithubCache.

(** X16: once a call of the cached [get_cached_github_data] has
    returned, the next call with the same owner, repository and token
    returns the same metadata from the cache, without asking the hosting
    service, whatever the service would answer by then. *)
Theorem X16_second_call_is_a_cache_hit :
  forall (gdb gdb' : option pystr -> pystr -> pystr -> res (option pystr))
         (gfp grm gfp' grm' : option pystr -> pystr -> pystr -> res pystr)
         (cache cache1 : list (github_key * github_data))
         (username repo : pystr) (github_pat : option pystr)
         (data : github_data) (called : bool),
    get_cached_github_data_lru gdb gfp grm cache username repo github_pat
    = (Ok data, cache1, called) ->
    exists cache2,
      get_cached_github_data_lru gdb' gfp' grm' cache1
                                 username repo github_pat
      = (Ok data, cache2, false).
Proof.
  intros gdb gdb' gfp grm gfp' grm' cache cache1 username repo github_pat
         data called H.
  eexists. unfold get_cached_github_data_lru in *.
  eapply (lru_call_then_hit _ _ _ github_key_eqb_eq); [lia | exact H].
Qed.

(** X17: a call of the cached [get_cached_github_data] that raises
    stores nothing: the cache is as before, and the next call with the
    same arguments asks the hosting service again and returns or raises
    what the uncached function does then. *)
Theorem X17_failure_is_not_cached :
  forall (gdb gdb' : option pystr -> pystr -> pystr -> res (option pystr))
         (gfp grm gfp' grm' : option pystr -> pystr -> pystr -> res pystr)
         (cache cache1 : list (github_key * github_data))
         (username repo : pystr) (github_pat : option pystr)
         (e : exn) (called : bool),
    get_cached_github_data_lru gdb gfp grm cache username repo github_pat
    = (Raise e, cache1, called) ->
    cache1 = cache
    /\ called = true
    /\ fst (fst (get_cached_github_data_lru gdb' gfp' grm' cache1
                                            username repo github_pat))
       = get_cached_github_data gdb' gfp' grm' username repo github_pat
    /\ snd (get_cached_github_data_lru gdb' gfp' grm' cache1
                                       username repo github_pat)
       = true.
Proof.
  intros gdb gdb' gfp grm gfp' grm' cache cache1 username repo github_pat
         e called H.
  unfold get_cached_github_data_lru in *.
  destruct (lru_call_raise
              _ _ github_key_eqb 100 _
              (fun k : github_key =>
                 let '(u, r, p) := k in
                 get_cached_github_data gdb' gfp' grm' u r p)
              _ _ _ _ _ H) as (-> & -> & H1 & H2).
  repeat split; assumption.
Qed.

(** X18: the cache never holds more than 100 entries nor two entries for
    the same arguments: a call on a cache within these bounds leaves it
    within them. *)
Theorem X18_cache_stays_within_100_entries :
  forall (gdb : option pystr -> pystr -> pystr -> res (option pystr))
         (gfp grm : option pystr -> pystr -> pystr -> res pystr)
         (cache : list (github_key * github_data))
         (username repo : pystr) (github_pat : option pystr),
    (List.length cache <= 100)%nat ->
    NoDup (map fst cache) ->
    let cache' :=
      snd (fst (get_cached_github_data_lru gdb gfp grm cache
                                           username repo github_pat)) in
    (List.length cache' <= 100)%nat /\ NoDup (map fst cache').
Proof.
  intros gdb gfp grm cache username repo github_pat Hlen Hnd.
  unfold get_cached_github_data_lru.
  now apply (lru_call_invariant _ _ _ github_key_eqb_eq).
Qed.

(** X19: against a hosting service whose answers depend on the arguments
    only, the cache cannot be told from no cache: when every entry of
    the cache is what the uncached function returns for its key, the
    cached call returns exactly what the uncached function returns, and
    the entries of the cache after the call are again such. *)
Theorem X19_cache_agrees_with_uncached :
  forall (gdb : option pystr -> pystr -> pystr -> res (option pystr))
         (gfp grm : option pystr -> pystr -> pystr -> res pystr)
         (cache : list (github_key * github_data))
         (username repo : pystr) (github_pat : option pystr),
    (forall u r p d,
        In ((u, r, p), d) cache ->
        get_cached_github_data gdb gfp grm u r p = Ok d) ->
    fst (fst (get_cached_github_data_lru gdb gfp grm cache
                                         username repo github_pat))
    = get_cached_github_data gdb gfp grm username repo github_pat
    /\ (forall u r p d,
           In ((u, r, p), d)
              (snd (fst (get_cached_github_data_lru
                           gdb gfp grm cache username repo github_pat))) ->
           get_cached_github_data gdb gfp grm u r p = Ok d).
Proof.
  intros gdb gfp grm cache username repo github_pat H.
  unfold get_cached_github_data_lru.
  destruct (lru_call_consistent
              _ _ github_key_eqb github_key_eqb_eq 100
              (fun k : github_key =>
                 let '(u, r, p) := k in
                 get_cached_github_data gdb gfp grm u r p)
              cache (username, repo, github_pat)) as [H1 H2].
  - intros [[u r] p] d Hin. now apply H.
  - split; [exact H1 |]. intros u r p d Hin.
    exact (H2 (u, r, p) d Hin).
Qed.

End GithubCache.

(** *** The cost handler *)

(** X7: the cost handler never raises, and what it leaves in the cache
    decides whether the next lookup for the same request asks the
    hosting service again.  Either it answers the fixed cost, whatever
    the sizes of the file tree and of the README: the metadata are then
    the first entry of the cache, and the next lookup for the same
    owner, repository and token, on the cache as the handler left it, is
    a hit, which leaves the cache as it is and does not ask the hosting
    service, whatever it would answer by then.  Or it answers a dict
    with the text of the exception of the hosting service under
    [error]: the cache is as before, the next lookup asks the hosting
    service again, and when that lookup is the one of a generation, and
    the hosting service finds the repository by then, the stream of the
    generation starts with [started], although the cost request was
    answered an error. *)
Theorem X7_cost_handler_and_the_cache :
  forall (SYSTEM_FIRST_PROMPT SYSTEM_SECOND_PROMPT SYSTEM_THIRD_PROMPT
            ADDITIONAL_SYSTEM_INSTRUCTIONS_PROMPT : pystr)
         (gdb gdb' : option pystr -> pystr -> pystr -> res (option pystr))
         (gfp grm gfp' grm' : option pystr -> pystr -> pystr -> res pystr)
         (llm_service_call_o3_api_stream :
            pystr -> list (pystr * pystr) -> option pystr -> pystr
            -> Gen json unit)
         (cache cache1 : list (github_key * github_data))
         (body : ApiRequest) (answer : handler_result),
    get_generation_cost gdb gfp grm cache body = (answer, cache1) ->
    (answer = Body [(py "cost", py "$0.00 USD (using local LLM)")]
     /\ exists data rest,
          cache1 = ((username body, repo body, github_pat body), data)
                     :: rest
          /\ get_cached_github_data_lru
               gdb' gfp' grm' cache1
               (username body) (repo body) (github_pat body)
             = (Ok data, cache1, false))
    \/ (exists e,
          get_cached_github_data
            gdb gfp grm (username body) (repo body) (github_pat body)
          = Raise e
          /\ answer = Body [(py "error", exn_str e)]
          /\ cache1 = cache
          /\ fst (fst (get_cached_github_data_lru
                         gdb' gfp' grm' cache1
                         (username body) (repo body) (github_pat body)))
             = get_cached_github_data
                 gdb' gfp' grm'
                 (username body) (repo body) (github_pat body)
          /\ snd (get_cached_github_data_lru
                    gdb' gfp' grm' cache1
                    (username body) (repo body) (github_pat body))
             = true
          /\ forall data cache2 called,
               get_cached_github_data_lru
                 gdb' gfp' grm' cache1
                 (username body) (repo body) (github_pat body)
               = (Ok data, cache2, called) ->
               hd_error
                 (yielded
                    (event_generator
                       SYSTEM_FIRST_PROMPT SYSTEM_SECOND_PROMPT
                       SYSTEM_THIRD_PROMPT
                       ADDITIONAL_SYSTEM_INSTRUCTIONS_PROMPT
                       gdb' gfp' grm' llm_service_call_o3_api_stream
                       body))
               = Some (status_message "started"
                                      "Starting generation process...")).
Proof.
  intros P1 P2 P3 PA gdb gdb' gfp grm gfp' grm' llm cache cache1 body answer.
  unfold get_generation_cost.
  destruct (get_cached_github_data_lru
              gdb gfp grm cache
              (username body) (repo body) (github_pat body))
    as [[found cache0] called] eqn:Hcall.
  destruct found as [data | e]; intros H; inversion H; subst; clear H.
  - left. split; [reflexivity |]. exists data.
    unfold get_cached_github_data_lru in *.
    assert (Hhead : exists rest,
               cache1
               = ((username body, repo body, github_pat body), data)
                   :: rest).
    { unfold lru_call in Hcall.
      destruct (lru_find _ _ cache) as [w|].
      - inversion Hcall; subst. now eexists.
      - destruct (get_cached_github_data gdb gfp grm _ _ _) as [w | e];
          inversion Hcall; subst. cbn [firstn]. now eexists. }
    destruct Hhead as [rest ->]. exists rest. split; [reflexivity |].
    unfold lru_call. cbn [lru_find lru_remove].
    now rewrite (proj2 (github_key_eqb_eq _ _) eq_refl).
  - right. exists e.
    unfold get_cached_github_data_lru in Hcall |- *.
    destruct (lru_call_raise
                _ _ github_key_eqb 100 _
                (fun k : github_key =>
                   let '(u, r, p) := k in
                   get_cached_github_data gdb' gfp' grm' u r p)
                _ _ _ _ _ Hcall) as (-> & -> & H1 & H2).
    cbv beta iota in H1.
    assert (Hf : get_cached_github_data
                   gdb gfp grm (username body) (repo body)
                   (github_pat body) = Raise e).
    { unfold lru_call in Hcall.
      destruct (lru_find _ _ cache) as [w|]; [discriminate |].
      destruct (get_cached_github_data gdb gfp grm _ _ _) as [w | e0];
        inversion Hcall; now subst. }
    repeat split; try assumption.
    intros data cache2 called' Hlater.
    rewrite Hlater in H1. cbn [fst] in H1.
    exact (generator_starts P1 P2 P3 PA gdb' gfp' grm' llm body data
             (eq_sym H1)).
Qed.

(** ** The link rewriter, again *)

Lemma lstrip_id (p : char -> bool) (s : pystr) :
  match s with [] => True | c :: _ => p c = false end -> lstrip p s = s.
Proof. destruct s as [|c s]; [reflexivity |]. simpl. now intros ->. Qed.

Lemma strip_id (p : char -> bool) (s : pystr) :
  match s with [] => True | c :: _ => p c = false end ->
  match rev s with [] => True | c :: _ => p c = false end ->
  strip p s = s.
Proof.
  intros H1 H2. unfold strip, rstrip. rewrite (lstrip_id p s H1).
  rewrite (lstrip_id p (rev s) H2). apply rev_involutive.
Qed.

Lemma replace_path_url (username repo branch group1 group2 : pystr) :
  replace_path username repo branch group1 group2
  = py "click " ++ group1 ++ py " " ++ [dquote]
       ++ github_url username repo branch
                     (strip (char_in [dquote; squote]) group2)
       ++ [dquote].
Proof.
  unfold replace_path, github_url. repeat rewrite <- app_assoc. reflexivity.
Qed.

Lemma github_url_no_dquote (username repo branch path : pystr) :
  ~ In dquote username -> ~ In dquote repo -> ~ In dquote branch ->
  ~ In dquote path ->
  ~ In dquote (github_url username repo branch path).
Proof.
  intros Hu Hr Hb Hp. unfold github_url.
  rewrite !in_app_iff. intros H.
  destruct (contains [dot] (last (split slash path) []));
    vm_compute in H; intuition discriminate.
Qed.

Lemma strip_keeps_no_dquote (quoted : pystr) :
  ~ In dquote quoted ->
  ~ In dquote (strip (char_in [dquote; squote]) quoted).
Proof.
  intros H Hin.
  destruct (strip_spec (char_in [dquote; squote]) quoted)
    as (lead & trail & E & _).
  apply H. rewrite E. apply in_or_app. right. apply in_or_app. now left.
Qed.

Lemma github_url_strip_id (username repo branch quoted : pystr) :
  let path := strip (char_in [dquote; squote]) quoted in
  strip (char_in [dquote; squote]) (github_url username repo branch path)
  = github_url username repo branch path.
Proof.
  intros path. apply strip_id.
  - reflexivity.
  - destruct (strip_spec (char_in [dquote; squote]) quoted)
      as (lead & trail & _ & _ & _ & _ & Hr).
    fold path in Hr. unfold github_url.
    rewrite !app_assoc, rev_app_distr.
    destruct (rev path) as [|c t]; [| exact Hr].
    rewrite rev_app_distr. reflexivity.
Qed.

(** X20: the rewriter is not idempotent.  When owner, repository and
    branch hold no double quote, the directive it wrote for a directive
    is a directive again, with the URL as its path: rewriting the output
    once more puts the URL behind a second
    [https://github.com/<owner>/<repo>/<kind>/<branch>/]. *)
Theorem X20_rewriting_twice_nests_the_url :
  forall (username repo branch ident quoted rest : pystr),
    ~ In dquote username -> ~ In dquote repo -> ~ In dquote branch ->
    ident <> [] -> forallb ident_char ident = true ->
    ~ In dquote quoted ->
    let path := strip (char_in [dquote; squote]) quoted in
    process_click_events
      username repo branch
      (replace_path username repo branch ident quoted ++ rest)
    = py "click " ++ ident ++ py " " ++ [dquote]
         ++ github_url username repo branch
                       (github_url username repo branch path)
         ++ [dquote]
         ++ process_click_events username repo branch rest.
Proof.
  intros username repo branch ident quoted rest Hu Hr Hb Hi Hic Hq path.
  pose proof (github_url_no_dquote
                username repo branch path Hu Hr Hb
                (strip_keeps_no_dquote quoted Hq)) as Hurl.
  rewrite replace_path_url. fold path.
  repeat rewrite <- app_assoc.
  rewrite (process_match username repo branch _ ident
                         (github_url username repo branch path) rest).
  - rewrite replace_path_url.
    unfold path. rewrite github_url_strip_id.
    repeat rewrite <- app_assoc. reflexivity.
  - apply match_click_intro. exists (py " ").
    split; [reflexivity |]. split; [assumption |]. split; [assumption |].
    split; [discriminate |]. split; [reflexivity |].
    split; [discriminate | now apply path_char_spec].
Qed.

Lemma lstrip_snoc (p : char -> bool) (q : pystr) (c : char) :
  p c = false -> exists q', lstrip p (q ++ [c]) = q' ++ [c].
Proof.
  intros Hc. induction q as [|x q IH]; cbn [app lstrip].
  - rewrite Hc. now exists [].
  - destruct (p x); [exact IH | now exists (x :: q)].
Qed.

Lemma strip_snoc (p : char -> bool) (q : pystr) (c : char) :
  p c = false -> exists q', strip p (q ++ [c]) = q' ++ [c].
Proof.
  intros Hc. destruct (lstrip_snoc p q c Hc) as (q' & E).
  exists q'. unfold strip, rstrip. rewrite E, rev_app_distr.
  cbn [rev app lstrip]. rewrite Hc. cbn [rev].
  now rewrite rev_involutive.
Qed.

(** X21: a quoted path that ends with a slash is always linked as a
    directory ([tree]), whatever dots the directories before the slash
    have in their names: the final segment is empty. *)
Theorem X21_trailing_slash_is_a_tree :
  forall (username repo branch ident q : pystr),
    replace_path username repo branch ident (q ++ [slash])
    = py "click " ++ ident ++ py " " ++ [dquote]
         ++ py "https://github.com/" ++ username ++ [slash] ++ repo
         ++ py "/tree/" ++ branch ++ [slash]
         ++ strip (char_in [dquote; squote]) (q ++ [slash]) ++ [dquote].
Proof.
  intros username repo branch ident q. unfold replace_path.
  destruct (strip_snoc (char_in [dquote; squote]) q slash eq_refl)
    as (q' & ->).
  change (q' ++ [slash]) with (q' ++ slash :: []) at 1.
  rewrite split_last_after_sep.
  change (contains [dot] (last (split slash []) [])) with false.
  cbv iota. repeat rewrite <- app_assoc. reflexivity.
Qed.

(** ** The further properties, run *)

(** X1, run: three phases, a link in the diagram. *)
Lemma X1_run_with_a_link :
  Demo.generator
    Demo.found
    (Demo.ok_lines [Demo.response_line "A small app."])
    (Demo.ok_lines [Demo.response_line "app: src/app.py"])
    (Demo.ok_lines
       [Demo.response_line "graph TD; ";
        Demo.raw_response
          ([dquote] ++ py "click app \" ++ [dquote] ++ py "src/app.py\"
                    ++ [dquote] ++ [dquote])])
    (Demo.request (py "demo") [])
  = ([status_message "started" "Starting generation process...";
      status_message "explanation_sent" "Analyzing repository structure...";
      status_chunk "explanation_chunk" (py "A small app.");
      status_message "mapping" "Creating component mapping...";
      status_chunk "mapping_chunk" (py "app: src/app.py");
      status_message "diagram" "Generating diagram...";
      status_chunk "diagram_chunk" (py "graph TD; ");
      status_chunk "diagram_chunk" (py "click app " ++ Demo.quoted "src/app.py");
      complete_event
        (py "graph TD; click app "
            ++ Demo.quoted
                 "https://github.com/octo/demo/blob/main/src/app.py")],
     Ok tt).
Proof.
  unfold Demo.generator.
  rewrite (X1_complete_run
             _ _ _ _ _ _ _ _ (Demo.request (py "demo") []) Demo.data
             [py "A small app."] [py "app: src/app.py"]
             [py "graph TD; "; py "click app " ++ Demo.quoted "src/app.py"]);
    try (vm_compute; reflexivity).
Defined.

(** X2, run: the connection drops while the explanation arrives, after a
    fragment that holds the sentinel. *)
Lemma X2_run_connection_lost :
  Demo.generator
    Demo.found
    (Demo.broken_lines [Demo.response_line "BAD_INSTRUCTIONS"]
                       (Exn ClientError (py "Connection reset")))
    (Demo.ok_lines []) (Demo.ok_lines [])
    (Demo.request (py "demo") [])
  = ([status_message "started" "Starting generation process...";
      status_message "explanation_sent" "Analyzing repository structure...";
      status_chunk "explanation_chunk" (py "BAD_INSTRUCTIONS");
      error_event (py "Failed to connect to Ollama API: Connection reset")],
     Ok tt).
Proof.
  unfold Demo.generator.
  rewrite (X2_failure_in_explanation_phase
             _ _ _ _ _ _ _ _ (Demo.request (py "demo") []) Demo.data
             [py "BAD_INSTRUCTIONS"]
             (Exn ValueError
                  (py "Failed to connect to Ollama API: Connection reset")));
    try (vm_compute; reflexivity).
Defined.

(** X3, run: the endpoint answers 500 to the third request. *)
Lemma X3_run_diagram_refused :
  Demo.generator
    Demo.found
    (Demo.ok_lines [Demo.response_line "A small app."])
    (Demo.ok_lines [Demo.response_line "app: src/app.py"])
    (Ok {| status := 500; text := Ok (py "out of memory");
           content := ([], Ok tt) |})
    (Demo.request (py "demo") [])
  = ([status_message "started" "Starting generation process...";
      status_message "explanation_sent" "Analyzing repository structure...";
      status_chunk "explanation_chunk" (py "A small app.");
      status_message "mapping" "Creating component mapping...";
      status_chunk "mapping_chunk" (py "app: src/app.py");
      status_message "diagram" "Generating diagram...";
      error_event
        (py "Ollama API returned status code 500: out of memory")],
     Ok tt).
Proof.
  unfold Demo.generator.
  rewrite (X3_failure_in_diagram_phase
             _ _ _ _ _ _ _ _ (Demo.request (py "demo") []) Demo.data
             [py "A small app."] [py "app: src/app.py"] []
             (Exn ValueError
                  (py "Ollama API returned status code 500: out of memory")));
    try (vm_compute; reflexivity).
Defined.

(** X4, run: a record whose [response] is a number. *)
Lemma X4_run_number_fragment :
  Demo.generator
    Demo.found
    (Demo.ok_lines [Demo.response_line "A small app.";
                    Demo.raw_response (py "5");
                    Demo.response_line "never relayed"])
    (Demo.ok_lines []) (Demo.ok_lines [])
    (Demo.request (py "demo") [])
  = ([status_message "started" "Starting generation process...";
      status_message "explanation_sent" "Analyzing repository structure...";
      status_chunk "explanation_chunk" (py "A small app.");
      error_event
        (py "can only concatenate str (not " ++ Demo.quoted "int"
            ++ py ") to str")],
     Ok tt).
Proof.
  unfold Demo.generator.
  rewrite (X4_fragment_that_is_not_a_string
             _ _ _ _ _ _ _ _ (Demo.request (py "demo") []) Demo.data
             [py "A small app."] (JInt 5) [JStr (py "never relayed")]
             (Ok tt));
    try (vm_compute; reflexivity); try exact I.
Defined.

(** X6, run: the hosting service names no default branch. *)
Lemma X6_run_no_branch_named :
  default_branch Demo.data = py "main".
Proof.
  destruct (X6_default_branch_never_empty
              (fun _ _ _ => Ok None) Demo.tree_found Demo.readme_found
              (py "octo") (py "demo") None Demo.data eq_refl)
    as (_ & [H | [_ H]] & _).
  - discriminate H.
  - exact H.
Defined.

(** X7, run: the cost is asked while the hosting service is down, and
    the generation after it is up again; then the cost is asked while it
    is up, and the metadata are looked up after it went down. *)
Lemma X7_run_cost_then_generation :
  get_generation_cost
    Demo.branch_down Demo.tree_found Demo.readme_found []
    (Demo.request (py "demo") [])
  = (Body [(py "error", py "Repository not found.")], [])
  /\ hd_error
       (yielded
          (Demo.generator
             Demo.found
             (Demo.ok_lines [Demo.response_line "A small app."])
             (Demo.ok_lines [Demo.response_line "app: src/app.py"])
             (Demo.ok_lines [Demo.response_line "graph TD"])
             (Demo.request (py "demo") [])))
     = Some (status_message "started" "Starting generation process...")
  /\ get_generation_cost
       Demo.branch_found Demo.tree_found Demo.readme_found []
       (Demo.request (py "demo") [])
     = (Body [(py "cost", py "$0.00 USD (using local LLM)")],
        [((py "octo", py "demo", None), Demo.data)])
  /\ get_cached_github_data_lru
       Demo.branch_down Demo.tree_found Demo.readme_found
       [((py "octo", py "demo", None), Demo.data)]
       (py "octo") (py "demo") None
     = (Ok Demo.data, [((py "octo", py "demo", None), Demo.data)], false).
Proof.
  split; [reflexivity |]. split.
  - destruct (X7_cost_handler_and_the_cache
                Demo.SYSTEM_FIRST_PROMPT Demo.SYSTEM_SECOND_PROMPT
                Demo.SYSTEM_THIRD_PROMPT
                Demo.ADDITIONAL_SYSTEM_INSTRUCTIONS_PROMPT
                Demo.branch_down Demo.branch_found
                Demo.tree_found Demo.readme_found
                Demo.tree_found Demo.readme_found
                (Demo.llm_service_call_o3_api_stream
                   (Demo.ok_lines [Demo.response_line "A small app."])
                   (Demo.ok_lines [Demo.response_line "app: src/app.py"])
                   (Demo.ok_lines [Demo.response_line "graph TD"]))
                [] [] (Demo.request (py "demo") [])
                (Body [(py "error", py "Repository not found.")])
                eq_refl)
      as [[H _] | (e & _ & _ & _ & _ & _ & H)].
    + discriminate H.
    + exact (H Demo.data [((py "octo", py "demo", None), Demo.data)] true
               eq_refl).
  - split; [reflexivity |].
    destruct (X7_cost_handler_and_the_cache
                Demo.SYSTEM_FIRST_PROMPT Demo.SYSTEM_SECOND_PROMPT
                Demo.SYSTEM_THIRD_PROMPT
                Demo.ADDITIONAL_SYSTEM_INSTRUCTIONS_PROMPT
                Demo.branch_found Demo.branch_down
                Demo.tree_found Demo.readme_found
                Demo.tree_found Demo.readme_found
                (Demo.llm_service_call_o3_api_stream
                   (Demo.ok_lines [Demo.response_line "A small app."])
                   (Demo.ok_lines [Demo.response_line "app: src/app.py"])
                   (Demo.ok_lines [Demo.response_line "graph TD"]))
                [] [((py "octo", py "demo", None), Demo.data)]
                (Demo.request (py "demo") [])
                (Body [(py "cost", py "$0.00 USD (using local LLM)")])
                eq_refl)
      as [(_ & data & rest & Hc & H) | (e & _ & H & _)].
    + inversion Hc; subst. exact H.
    + discriminate H.
Defined.

(** X8, run: status 503 three times: with a body that is read, with a
    body cut by the transport, and with a body that is not text. *)
Lemma X8_run_status_503 :
  Demo.stream_of
    (Ok {| status := 503; text := Ok (py "model is loading");
           content := ([Demo.response_line "not read"], Ok tt) |})
  = ([], Raise (Exn ValueError
                    (py "Ollama API returned status code 503: model is loading")))
  /\ Demo.stream_of
       (Ok {| status := 503;
              text := Raise (Exn ClientError
                                 (py "Response payload is not completed"));
              content := ([Demo.response_line "not read"], Ok tt) |})
     = ([], Raise (Exn ValueError
                       (py "Failed to connect to Ollama API: Response payload is not completed")))
  /\ Demo.stream_of
       (Ok {| status := 503;
              text := Raise (Exn UnicodeDecodeError
                                 (py "invalid start byte"));
              content := ([Demo.response_line "not read"], Ok tt) |})
     = ([], Raise (Exn UnicodeDecodeError (py "invalid start byte"))).
Proof.
  unfold Demo.stream_of. split; [| split].
  - rewrite (X8_stream_status_not_200
               Demo.base_url Demo.self_model Demo.format_user_message
               Demo.json_loads _ _ _ _ _
               {| status := 503; text := Ok (py "model is loading");
                  content := ([Demo.response_line "not read"], Ok tt) |}
               eq_refl);
      [reflexivity | discriminate].
  - rewrite (X8_stream_status_not_200
               Demo.base_url Demo.self_model Demo.format_user_message
               Demo.json_loads _ _ _ _ _
               {| status := 503;
                  text := Raise (Exn ClientError
                                     (py "Response payload is not completed"));
                  content := ([Demo.response_line "not read"], Ok tt) |}
               eq_refl);
      [reflexivity | discriminate].
  - rewrite (X8_stream_status_not_200
               Demo.base_url Demo.self_model Demo.format_user_message
               Demo.json_loads _ _ _ _ _
               {| status := 503;
                  text := Raise (Exn UnicodeDecodeError
                                     (py "invalid start byte"));
                  content := ([Demo.response_line "not read"], Ok tt) |}
               eq_refl);
      [reflexivity | discriminate].
Defined.

(** X9, run: no endpoint listens. *)
Lemma X9_run_cannot_connect :
  Demo.stream_of (Raise (Exn ClientError (py "Cannot connect to host")))
  = ([], Raise (Exn ValueError
                    (py "Failed to connect to Ollama API: Cannot connect to host"))).
Proof.
  unfold Demo.stream_of.
  rewrite (X9_stream_request_fails
             Demo.base_url Demo.self_model Demo.format_user_message
             Demo.json_loads _ _ _ _ _
             (Exn ClientError (py "Cannot connect to host")) eq_refl).
  reflexivity.
Defined.

(** X10, run: the transport times out after two lines. *)
Lemma X10_run_timeout_after_lines :
  Demo.stream_of
    (Demo.broken_lines [Demo.response_line "a"; Demo.text_line "oops"]
                       (Exn OtherException (py "timeout")))
  = ([JStr (py "a")], Raise (Exn OtherException (py "timeout"))).
Proof.
  unfold Demo.stream_of.
  rewrite (X10_stream_transport_breaks
             Demo.base_url Demo.self_model Demo.format_user_message
             Demo.json_loads _ _ _ _ _
             {| status := 200; text := Ok [];
                content := ([Demo.response_line "a"; Demo.text_line "oops"],
                            Raise (Exn OtherException (py "timeout"))) |}
             [Demo.response_line "a"; Demo.text_line "oops"]
             (Exn OtherException (py "timeout")) eq_refl eq_refl eq_refl).
  - vm_compute. reflexivity.
  - repeat constructor; vm_compute; auto.
Defined.

(** X11, run: an indented line that ends with a carriage return. *)
Lemma X11_run_indented_crlf :
  let line :=
    py "{" ++ Demo.quoted "response" ++ py ": " ++ Demo.quoted "hi"
       ++ py "}" in
  Demo.stream_of
    (Demo.ok_lines [Utf8 (py "  " ++ line ++ [13%N; 10%N])])
  = Demo.stream_of (Demo.ok_lines [Utf8 line]).
Proof.
  intros line. unfold Demo.stream_of.
  apply (X11_stream_ignores_surrounding_space
           Demo.base_url Demo.self_model Demo.format_user_message
           Demo.json_loads _ _ _ _ _ _
           {| status := 200; text := Ok [];
              content := ([Utf8 (py "  " ++ line ++ [13%N; 10%N])],
                          Ok tt) |}
           {| status := 200; text := Ok [];
              content := ([Utf8 line], Ok tt) |}
           _ _ (Ok tt) eq_refl eq_refl eq_refl eq_refl eq_refl eq_refl).
  repeat constructor.
Defined.

(** X12, run: an answer without the member [response]. *)
Lemma X12_run_no_response_member :
  Demo.call_of
    (Ok {| status_code := 200; reply_text := [];
           reply_json := Ok (JDict [(py "model", JStr (py "deepseek-r1"));
                                    (py "done", JBool true)]) |})
  = Ok (JStr []).
Proof.
  unfold Demo.call_of.
  refine (proj1 (X12_blocking_call_response_member
                   Demo.base_url Demo.self_model Demo.format_user_message
                   _ _ _ _ _
                   {| status_code := 200; reply_text := [];
                      reply_json :=
                        Ok (JDict [(py "model", JStr (py "deepseek-r1"));
                                   (py "done", JBool true)]) |}
                   [(py "model", JStr (py "deepseek-r1"));
                    (py "done", JBool true)]
                   eq_refl eq_refl eq_refl) _).
  cbn [map fst In]. intros [H | [H | []]]; discriminate H.
Defined.

(** X13, run: status 404. *)
Lemma X13_run_status_404 :
  Demo.call_of
    (Ok {| status_code := 404; reply_text := py "model not found";
           reply_json := Ok (JDict []) |})
  = Raise (Exn ValueError
               (py "Ollama API returned status code 404: model not found")).
Proof.
  unfold Demo.call_of.
  rewrite (proj1 (proj2 (X13_blocking_call_errors
                           Demo.base_url Demo.self_model
                           Demo.format_user_message _ _ _ _ _))
                 {| status_code := 404; reply_text := py "model not found";
                    reply_json := Ok (JDict []) |} eq_refl);
    [reflexivity | discriminate].
Defined.

(** X15, run: an endpoint that refuses every request but those of
    temperature 0.5. *)
Lemma X15_run_other_temperatures_refused :
  let post :=
    Demo.session_post
      (Demo.ok_lines [Demo.response_line "A small app."])
      (Demo.ok_lines [Demo.response_line "app: src/app.py"])
      (Demo.ok_lines [Demo.response_line "graph TD"]) in
  let picky (url : pystr) (p : payload) : res response :=
    if Qeq_bool (temperature p) 0.5 then post url p
    else Raise (Exn OtherException (py "refused")) in
  let run post :=
    event_generator
      Demo.SYSTEM_FIRST_PROMPT Demo.SYSTEM_SECOND_PROMPT
      Demo.SYSTEM_THIRD_PROMPT Demo.ADDITIONAL_SYSTEM_INSTRUCTIONS_PROMPT
      Demo.branch_found Demo.tree_found Demo.readme_found
      (OllamaService.call_o3_api_stream
         Demo.base_url Demo.self_model Demo.format_user_message
         Demo.json_loads post)
      (Demo.request (py "demo") []) in
  run post = run picky.
Proof.
  cbv zeta. apply X15_generator_posts_medium_streams_only.
  intros p _ Ht _. rewrite Ht. reflexivity.
Defined.

(** X16, run: the metadata is fetched, then the hosting service goes
    down. *)
Lemma X16_run_service_down_after_fetch :
  exists cache2,
    get_cached_github_data_lru
      Demo.branch_down Demo.tree_found Demo.readme_found
      [((py "octo", py "demo", None), Demo.data)]
      (py "octo") (py "demo") None
    = (Ok Demo.data, cache2, false).
Proof.
  apply (X16_second_call_is_a_cache_hit
           Demo.branch_found Demo.branch_down
           Demo.tree_found Demo.readme_found Demo.tree_found
           Demo.readme_found [] _ (py "octo") (py "demo") None Demo.data
           true).
  reflexivity.
Defined.

(** X17, run: the hosting service is down, then up again. *)
Lemma X17_run_retry_after_failure :
  fst (fst (get_cached_github_data_lru
              Demo.branch_found Demo.tree_found Demo.readme_found []
              (py "octo") (py "demo") None))
  = Ok Demo.data.
Proof.
  destruct (X17_failure_is_not_cached
              Demo.branch_down Demo.branch_found
              Demo.tree_found Demo.readme_found Demo.tree_found
              Demo.readme_found [] [] (py "octo") (py "demo") None
              Demo.github_not_found true eq_refl) as (_ & _ & H & _).
  rewrite H. reflexivity.
Defined.

(** X18, run: a cache that is full, of 100 entries.  A call for a
    repository it does not hold stores the metadata first and gives up
    the least recently used entry, that of [repo99]; a call for a
    repository it holds, [repo42], moves its entry to the front. *)
Lemma X18_run_full_cache :
  let miss :=
    snd (fst (get_cached_github_data_lru
                Demo.branch_found Demo.tree_found Demo.readme_found
                Demo.full_cache (py "octo") (py "demo") None)) in
  let hit :=
    snd (fst (get_cached_github_data_lru
                Demo.branch_down Demo.tree_found Demo.readme_found
                Demo.full_cache (py "octo") (py "repo42") None)) in
  List.length Demo.full_cache = 100%nat
  /\ ((List.length miss <= 100)%nat /\ NoDup (map fst miss))
  /\ miss = ((py "octo", py "demo", None), Demo.data)
              :: removelast Demo.full_cache
  /\ ((List.length hit <= 100)%nat /\ NoDup (map fst hit))
  /\ List.length hit = 100%nat
  /\ hd_error hit = Some (Demo.cached_key 42, Demo.data).
Proof.
  cbv zeta.
  assert (Hlen : (List.length Demo.full_cache <= 100)%nat)
    by (vm_compute; lia).
  assert (Hnd : NoDup (map fst Demo.full_cache))
    by (apply all_distinct_sound; vm_compute; reflexivity).
  split; [vm_compute; reflexivity |].
  split.
  { exact (X18_cache_stays_within_100_entries
             Demo.branch_found Demo.tree_found Demo.readme_found
             Demo.full_cache (py "octo") (py "demo") None Hlen Hnd). }
  split; [vm_compute; reflexivity |].
  split.
  { exact (X18_cache_stays_within_100_entries
             Demo.branch_down Demo.tree_found Demo.readme_found
             Demo.full_cache (py "octo") (py "repo42") None Hlen Hnd). }
  split; vm_compute; reflexivity.
Defined.

(** X19, run: a cache that holds the metadata of the repository. *)
Lemma X19_run_cached_as_uncached :
  fst (fst (get_cached_github_data_lru
              Demo.branch_found Demo.tree_found Demo.readme_found
              [((py "octo", py "demo", None), Demo.data)]
              (py "octo") (py "demo") None))
  = get_cached_github_data
      Demo.branch_found Demo.tree_found Demo.readme_found
      (py "octo") (py "demo") None.
Proof.
  apply (X19_cache_agrees_with_uncached
           Demo.branch_found Demo.tree_found Demo.readme_found
           [((py "octo", py "demo", None), Demo.data)]
           (py "octo") (py "demo") None).
  intros u r p d [H | []]. inversion H; subst. reflexivity.
Defined.

(** X20, run: the rewriter applied to its own output. *)
Lemma X20_run_rewritten_twice :
  Demo.rewrite (Demo.rewrite (py "click A " ++ Demo.quoted "src/app.py"))
  = py "click A "
       ++ Demo.quoted
            "https://github.com/octo/demo/blob/main/https://github.com/octo/demo/blob/main/src/app.py".
Proof.
  transitivity
    (process_click_events
       (py "octo") (py "demo") (py "main")
       (replace_path (py "octo") (py "demo") (py "main") (py "A")
                     (py "src/app.py") ++ []));
    [vm_compute; reflexivity |].
  rewrite X20_rewriting_twice_nests_the_url;
    try (apply path_char_spec; reflexivity);
    try discriminate; try reflexivity.
Defined.
